(** * spaceweatherbot: the flare notification core of the Discord and Slack bots

    A shallow embedding of [spaceweatherbot.py] (Discord) and
    [spaceweatherbot_slack.py] (Slack): the flare-class parser, the three
    feed fetchers, the subscription commands, the flare poll task and the
    daily summary task of each bot, the presence task of the Discord bot,
    the commands of both bots that only read the flare and alert feeds, and
    the forecast commands and the daily digest of the Discord bot, followed
    by the properties proved about them.

    Modelling conventions.
    - Python values read from the feed are JSON scalars ([pyval]); a record is
      a [gmap string pyval]; the payload of [http.get_json] is a [json].
      Floats and nested containers inside a record are outside the model.
    - Characters are 8-bit; [str.upper]/[str.lower] act on the ASCII letters
      and the regular expression class [\d] is the ASCII digits.  [len]
      counts characters.
    - A Python exception is a value of [exn]; code that can raise lives in
      [result] (no state) or in [PyM] (bot state, a log of the calls made to
      the chat platform, and a result).  Only subclasses of [Exception] are
      modelled, so [except Exception] catches every [exn].
    - Everything the bots obtain from outside (HTTP responses, the clock and
      the time-zone database, the channel cache, the outcome of a send) is a
      field of an environment record, one record per task run. *)

From Stdlib Require Import Ascii String QArith.
From stdpp Require Import gmap strings list pretty sorting.

Set Warnings "-register-all,-clear-no-such-hyp".

Open Scope string_scope.
Open Scope list_scope.

(** ** Python values *)

Inductive pyval : Type :=
  | PNone
  | PBool (b : bool)
  | PInt (n : Z)
  | PStr (s : string).

(** [bool(v)] *)
Definition truthy (v : pyval) : bool :=
  match v with
  | PNone => false
  | PBool b => b
  | PInt n => negb (n =? 0)%Z
  | PStr s => negb (String.eqb s "")
  end.

(** [str(v)], as an f-string renders [{v}] *)
Definition py_str (v : pyval) : string :=
  match v with
  | PNone => "None"
  | PBool true => "True"
  | PBool false => "False"
  | PInt n => pretty n
  | PStr s => s
  end.

(** [a or b] *)
Definition py_or (a b : pyval) : pyval := if truthy a then a else b.

(** [d.get(k)] and [d.get(k, dflt)] *)
Definition dict_get (d : gmap string pyval) (k : string) : pyval :=
  default PNone (d !! k).

Definition dict_get_default (d : gmap string pyval) (k : string) (dflt : pyval) : pyval :=
  default dflt (d !! k).

(** What [json.loads] can put at the top of a payload or inside a list. *)
Inductive json : Type :=
  | JAtom (v : pyval)
  | JDict (d : gmap string pyval)
  | JList (l : list json).

Definition json_truthy (j : json) : bool :=
  match j with
  | JAtom v => truthy v
  | JDict d => negb (bool_decide (d = ∅))
  | JList l => negb (bool_decide (l = []))
  end.

(** ** Exceptions and results *)

Inductive exn : Type :=
  | AttributeError
  | ValueError
  | ZoneInfoNotFoundError
  | ClientError          (* aiohttp: connection, status or timeout failure *)
  | JSONDecodeError
  | HTTPException        (* discord.py: a send refused by the platform *)
  | SlackApiError        (* slack_sdk: an error answer of the Web API *)
  | URLError.            (* slack_sdk: the request did not reach the Web API *)

Inductive result (A : Type) : Type :=
  | Ok (a : A)
  | Raise (e : exn).
Arguments Ok {A} a.
Arguments Raise {A} e.

#[global] Instance result_ret : MRet result := fun A a => Ok a.
#[global] Instance result_bind : MBind result := fun A B f m =>
  match m with
  | Ok a => f a
  | Raise e => Raise e
  end.

(** [try: m  except <class>: h], the class given by the exceptions it holds *)
Definition try_result {A} (m : result A) (catches : exn → bool) (h : exn → result A) : result A :=
  match m with
  | Ok a => Ok a
  | Raise e => if catches e then h e else Raise e
  end.

Definition Exception : exn → bool := fun _ => true.

Definition is_SlackApiError (e : exn) : bool :=
  match e with SlackApiError => true | _ => false end.

(** [str(e)]; the text of a message is not modelled, the class name stands
    for it *)
Definition exn_text (e : exn) : string :=
  match e with
  | AttributeError => "AttributeError"
  | ValueError => "ValueError"
  | ZoneInfoNotFoundError => "ZoneInfoNotFoundError"
  | ClientError => "ClientError"
  | JSONDecodeError => "JSONDecodeError"
  | HTTPException => "HTTPException"
  | SlackApiError => "SlackApiError"
  | URLError => "URLError"
  end.

(** ** Strings *)

Definition is_digit (c : ascii) : bool :=
  let n := nat_of_ascii c in (48 <=? n)%nat && (n <=? 57)%nat.

Definition upper_char (c : ascii) : ascii :=
  let n := nat_of_ascii c in
  if (97 <=? n)%nat && (n <=? 122)%nat then ascii_of_nat (n - 32) else c.

Definition lower_char (c : ascii) : ascii :=
  let n := nat_of_ascii c in
  if (65 <=? n)%nat && (n <=? 90)%nat then ascii_of_nat (n + 32) else c.

Fixpoint str_map (f : ascii → ascii) (s : string) : string :=
  match s with
  | EmptyString => EmptyString
  | String c s' => String (f c) (str_map f s')
  end.

Definition upper (s : string) : string := str_map upper_char s.
Definition lower (s : string) : string := str_map lower_char s.

(** [v.upper()] and [v.lower()]: only [str] has the method *)
Definition py_upper (v : pyval) : result string :=
  match v with
  | PStr s => Ok (upper s)
  | _ => Raise AttributeError
  end.

Definition py_lower (v : pyval) : result string :=
  match v with
  | PStr s => Ok (lower s)
  | _ => Raise AttributeError
  end.

(** [needle in hay] on strings *)
Fixpoint str_contains (needle hay : string) : bool :=
  String.prefix needle hay ||
  match hay with
  | EmptyString => false
  | String _ hay' => str_contains needle hay'
  end.

(** The longest run of digits at the front of [s], and what follows it. *)
Fixpoint span_digits (s : string) : string * string :=
  match s with
  | String c s' =>
      if is_digit c
      then let '(ds, rest) := span_digits s' in (String c ds, rest)
      else (EmptyString, s)
  | EmptyString => (EmptyString, EmptyString)
  end.

(** [\d+(?:\.\d+)?] matched greedily at the front of [s]: the text matched *)
Definition match_number (s : string) : option string :=
  let '(ip, rest) := span_digits s in
  match ip with
  | EmptyString => None
  | _ =>
      match rest with
      | String "."%char rest' =>
          let '(fp, _) := span_digits rest' in
          match fp with
          | EmptyString => Some ip
          | _ => Some (ip +:+ "." +:+ fp)
          end
      | _ => Some ip
      end
  end.

Definition is_class_letter (c : ascii) : bool :=
  Ascii.eqb c "C" || Ascii.eqb c "X" || Ascii.eqb c "M" || Ascii.eqb c "B".

(** [re.match(r"([CXMB])(\d+(?:\.\d+)?)", s)]: groups 1 and 2 *)
Definition re_match_flare (s : string) : option (string * string) :=
  match s with
  | String c rest =>
      if is_class_letter c
      then g2 ← match_number rest; Some (String c EmptyString, g2)
      else None
  | EmptyString => None
  end.

(** The number a run of digits denotes. *)
Fixpoint digits_value (acc : N) (s : string) : N :=
  match s with
  | String c s' => digits_value (10 * acc + (N.of_nat (nat_of_ascii c) - 48)) s'
  | EmptyString => acc
  end.

(** [float(s)] on the literals [D+], [D+.], [D+.D+] and [.D+]; the value is
    the exact decimal (Python rounds it to the nearest double, which keeps
    its sign).  Signs, exponents, [inf], [nan], underscores and blanks are
    not modelled: [py_float] answers [ValueError] on them. *)
Definition py_float (s : string) : result Q :=
  let '(ip, rest) := span_digits s in
  match rest with
  | EmptyString =>
      match ip with
      | EmptyString => Raise ValueError
      | _ => Ok (inject_Z (Z.of_N (digits_value 0 ip)))
      end
  | String "."%char rest' =>
      let '(fp, tail) := span_digits rest' in
      match tail with
      | EmptyString =>
          match ip, fp with
          | EmptyString, EmptyString => Raise ValueError
          | _, _ =>
              Ok (Qmake (Z.of_N (digits_value (digits_value 0 ip) fp))
                        (Z.to_pos (10 ^ Z.of_nat (String.length fp))))
          end
      | _ => Raise ValueError
      end
  | _ => Raise ValueError
  end.

(** ** Functions that are the same text in both source files *)

(** [parse_flare_class]: the annotation says [str], the callers pass whatever
    the record holds *)
Definition parse_flare_class (flare_class : pyval) : result (option string * option Q) :=
  if negb (truthy flare_class) then Ok (None, None)
  else
    s ← py_upper flare_class;
    match re_match_flare s with
    | Some (g1, g2) => f ← py_float g2; Ok (Some g1, Some f)
    | None => Ok (None, None)
    end.

(** [class_letter in ("M", "X")] *)
Definition letter_in_M_X (class_letter : option string) : bool :=
  match class_letter with
  | Some l => String.eqb l "M" || String.eqb l "X"
  | None => false
  end.

Definition is_m_or_x_class (flare_class : pyval) : result bool :=
  '(class_letter, _) ← parse_flare_class flare_class;
  Ok (letter_in_M_X class_letter).

(** ** The feed and the clock *)

Definition ENDPOINTS_alerts : string := "https://services.swpc.noaa.gov/products/alerts.json".
Definition ENDPOINTS_flare_latest : string :=
  "https://services.swpc.noaa.gov/json/goes/primary/xray-flares-latest.json".
Definition ENDPOINTS_flare_forecast : string :=
  "https://services.swpc.noaa.gov/json/solar_probabilities.json".

(** What a task reads off [now_est]: [.hour], [.minute] and
    [.strftime("%Y-%m-%d")]. *)
Record Clock : Type := {
  hour : Z;
  minute : Z;
  date_str : string;
}.

(** The outside world both bots share during one task run. *)
Record Feed : Type := {
  (** [await http.get_json(url)]: the decoded payload, or the exception of
      the transport, of the status check or of the JSON decoder *)
  http_get_json : string → result json;
  (** the date arithmetic inside [convert_to_est] on a [str]; the function
      catches every exception itself and then appends " (UTC)" *)
  convert_str_to_est : string → string;
  (** [utcnow_iso_with_est()]: the zone lookup is not caught when the zone
      is missing from the time-zone database *)
  utcnow_iso_with_est : result string;
  (** [datetime.now(timezone.utc).astimezone(ZoneInfo("America/New_York"))] *)
  now_est : result Clock;
}.

Definition json_get (j : json) (k : string) : result pyval :=
  match j with
  | JDict d => Ok (dict_get d k)
  | _ => Raise AttributeError
  end.

Definition json_get_default (j : json) (k : string) (dflt : pyval) : result pyval :=
  match j with
  | JDict d => Ok (dict_get_default d k dflt)
  | _ => Raise AttributeError
  end.

Definition fetch_latest_flare (w : Feed) : result json :=
  try_result
    (data ← http_get_json w ENDPOINTS_flare_latest;
     match data with
     | JList (first :: _) => Ok first
     | _ => Ok (JAtom PNone)
     end)
    Exception (λ _, Ok (JAtom PNone)).

Definition fetch_flare_forecast (w : Feed) : result (list json) :=
  try_result
    (data ← http_get_json w ENDPOINTS_flare_forecast;
     match data with
     | JList l => Ok (take 3 l)
     | _ => Ok []
     end)
    Exception (λ _, Ok []).

(** [l[start:]] *)
Definition slice_from {A} (start : Z) (l : list A) : list A :=
  let n := Z.of_nat (length l) in
  let i := if (start <? 0)%Z then Z.max 0 (start + n) else Z.min start n in
  drop (Z.to_nat i) l.

(** One turn of the [for a in arr] loop of [fetch_alerts]. *)
Definition fetch_alerts_step (flare_alerts : list json) (a : json) : result (list json) :=
  message ← json_get a "message";
  summary ← json_get a "summary";
  msg ← py_lower (py_or (py_or message summary) (PStr ""));
  if str_contains "flare" msg || str_contains "x-ray" msg || str_contains "xray" msg
  then Ok (flare_alerts ++ [a])
  else Ok flare_alerts.

Fixpoint fetch_alerts_loop (flare_alerts : list json) (arr : list json) : result (list json) :=
  match arr with
  | [] => Ok flare_alerts
  | a :: arr' => acc ← fetch_alerts_step flare_alerts a; fetch_alerts_loop acc arr'
  end.

Definition fetch_alerts (w : Feed) (limit : Z) : result (list json) :=
  try_result
    (arr ← http_get_json w ENDPOINTS_alerts;
     match arr with
     | JList l => flare_alerts ← fetch_alerts_loop [] l; Ok (slice_from (- limit) flare_alerts)
     | _ => Ok []
     end)
    Exception (λ _, Ok []).

(** [get_sdo_aia_image]: the date it computes is not used, and the parse of
    [time] sits in a bare [except] *)
Definition get_sdo_aia_image (time : pyval) (wavelength : Z) : option string :=
  Some ("https://sdo.gsfc.nasa.gov/assets/img/latest/latest_" +:+ pretty wavelength +:+ ".jpg").

Definition convert_to_est (w : Feed) (utc_time_str : pyval) : string :=
  match utc_time_str with
  | PStr s => convert_str_to_est w s
  | v => py_str v +:+ " (UTC)"
  end.

(** [a == b] *)
Definition py_eq (a b : pyval) : bool :=
  match a, b with
  | PNone, PNone => true
  | PBool x, PBool y => Bool.eqb x y
  | PInt x, PInt y => (x =? y)%Z
  | PBool x, PInt y | PInt y, PBool x => ((if x then 1 else 0) =? y)%Z
  | PStr x, PStr y => String.eqb x y
  | _, _ => false
  end.

Definition format_time_est (w : Feed) (utc_time_str : pyval) : string :=
  if negb (truthy utc_time_str) || py_eq utc_time_str (PStr "Unknown")
  then "Unknown"
  else convert_to_est w utc_time_str.

(** [f"{flare_time}_{flare_class}"] *)
Definition make_flare_id (flare_time flare_class : pyval) : string :=
  py_str flare_time +:+ "_" +:+ py_str flare_class.

(** ** State, log and exceptions threaded through a task *)

Definition PyM (S E A : Type) : Type := S → S * list E * result A.

#[global] Instance pym_ret {S E} : MRet (PyM S E) := λ A a s, (s, [], Ok a).

#[global] Instance pym_bind {S E} : MBind (PyM S E) := λ A B f m s,
  let '(s1, w1, r) := m s in
  match r with
  | Ok a => let '(s2, w2, r2) := f a s1 in (s2, w1 ++ w2, r2)
  | Raise e => (s1, w1, Raise e)
  end.

Definition get_state {S E} : PyM S E S := λ s, (s, [], Ok s).
Definition modify {S E} (f : S → S) : PyM S E unit := λ s, (f s, [], Ok tt).
Definition emit {S E} (e : E) : PyM S E unit := λ s, (s, [e], Ok tt).
Definition lift {S E A} (r : result A) : PyM S E A := λ s, (s, [], r).

Definition try_except {S E A} (m : PyM S E A) (catches : exn → bool) (h : exn → PyM S E A) :
    PyM S E A := λ s,
  let '(s1, w1, r) := m s in
  match r with
  | Ok a => (s1, w1, Ok a)
  | Raise e =>
      if catches e
      then let '(s2, w2, r2) := h e s1 in (s2, w1 ++ w2, r2)
      else (s1, w1, Raise e)
  end.

(** [for x in l: body(x)] *)
Fixpoint for_each {S E X} (l : list X) (body : X → PyM S E unit) : PyM S E unit :=
  match l with
  | [] => mret tt
  | x :: l' => body x ;; for_each l' body
  end.

Definition final_state {S E A} (out : S * list E * result A) : S := fst (fst out).
Definition events {S E A} (out : S * list E * result A) : list E := snd (fst out).
Definition outcome {S E A} (out : S * list E * result A) : result A := snd out.

(** [class_letter == l] *)
Definition letter_is (class_letter : option string) (l : string) : bool :=
  match class_letter with
  | Some x => String.eqb x l
  | None => false
  end.

(** ** The Discord bot ([spaceweatherbot.py]) *)

Module Discord.

(** The class of what [get_channel] or [interaction.channel] gives. *)
Inductive channel_class : Type := TextChannel | Thread | OtherChannel.

(** [isinstance(ch, (discord.TextChannel, discord.Thread))] *)
Definition is_text_or_thread (ch : option channel_class) : bool :=
  match ch with
  | Some TextChannel | Some Thread => true
  | _ => false
  end.

Inductive Colour : Type := Red | Orange | Blue.

Record Embed : Type := {
  title : string;
  colour : Colour;
  fields : list (string * string * bool);   (* name, value, inline *)
  image : option string;
  footer : string;
}.

(** The log of a task: an id entering [seen_flare_ids], a flare message
    completed, [_last_daily_date] set to a date (a digest starts), a
    [ch.send] with its outcome, a reply to a command. *)
Inductive event : Type :=
  | EvAccept (flare_id : string)
  | EvBuilt (embed : Embed)
  | EvMark (today : string)
  | EvSend (ch_id : Z) (embed : Embed) (r : result unit)
  | EvReply (text : string) (ephemeral : bool).

Record Env : Type := {
  feed : Feed;
  (** [self.get_channel(ch_id)]: [None] when the id is not in the cache *)
  get_channel : Z → option channel_class;
  (** [await ch.send(embed=embed)] on the channel with this id *)
  channel_send : Z → Embed → result unit;
  (** [build_daily_summary_embed(now_est)]: fetches and formats the
      digest; its content is not modelled *)
  build_daily_summary_embed : Clock → result Embed;
}.

Record FlareBot : Type := {
  seen_flare_ids : gset string;
  subscribed_flares : gset Z;
  subscribed_daily : gset Z;
  _last_flare_time : pyval;
  _last_daily_date : option string;
}.

Definition init : FlareBot :=
  {| seen_flare_ids := ∅; subscribed_flares := ∅; subscribed_daily := ∅;
     _last_flare_time := PNone; _last_daily_date := None |}.

Definition set_seen_flare_ids (f : gset string → gset string) (self : FlareBot) : FlareBot :=
  {| seen_flare_ids := f (seen_flare_ids self);
     subscribed_flares := subscribed_flares self;
     subscribed_daily := subscribed_daily self;
     _last_flare_time := _last_flare_time self;
     _last_daily_date := _last_daily_date self |}.

Definition set_subscribed_flares (f : gset Z → gset Z) (self : FlareBot) : FlareBot :=
  {| seen_flare_ids := seen_flare_ids self;
     subscribed_flares := f (subscribed_flares self);
     subscribed_daily := subscribed_daily self;
     _last_flare_time := _last_flare_time self;
     _last_daily_date := _last_daily_date self |}.

Definition set_subscribed_daily (f : gset Z → gset Z) (self : FlareBot) : FlareBot :=
  {| seen_flare_ids := seen_flare_ids self;
     subscribed_flares := subscribed_flares self;
     subscribed_daily := f (subscribed_daily self);
     _last_flare_time := _last_flare_time self;
     _last_daily_date := _last_daily_date self |}.

Definition set_last_flare_time (v : pyval) (self : FlareBot) : FlareBot :=
  {| seen_flare_ids := seen_flare_ids self;
     subscribed_flares := subscribed_flares self;
     subscribed_daily := subscribed_daily self;
     _last_flare_time := v;
     _last_daily_date := _last_daily_date self |}.

Definition set_last_daily_date (d : option string) (self : FlareBot) : FlareBot :=
  {| seen_flare_ids := seen_flare_ids self;
     subscribed_flares := subscribed_flares self;
     subscribed_daily := subscribed_daily self;
     _last_flare_time := _last_flare_time self;
     _last_daily_date := d |}.

Definition format_flare_embed (w : Feed) (flare : json) : result Embed :=
  max_class_field ← json_get flare "max_class";
  current_class ← json_get_default flare "current_class" (PStr "Unknown");
  let max_class := py_or max_class_field current_class in
  begin_time ← json_get_default flare "begin_time" (PStr "Unknown");
  max_time ← json_get_default flare "max_time" (PStr "Unknown");
  end_time ← json_get_default flare "end_time" (PStr "Unknown");
  begin_class ← json_get_default flare "begin_class" (PStr "Unknown");
  end_class ← json_get_default flare "end_class" (PStr "Unknown");
  satellite ← json_get_default flare "satellite" (PStr "GOES");
  '(class_letter, class_num) ← parse_flare_class max_class;
  let '(colour, title) :=
    if letter_is class_letter "X" then (Red, "🚨 X-Class Solar Flare Detected")
    else if letter_is class_letter "M" then (Orange, "⚠️ M-Class Solar Flare Detected")
    else (Blue, "Solar Flare Event") in
  let fields1 :=
    [("Peak Class", "**" +:+ py_str max_class +:+ "**", true);
     ("Satellite", "GOES-" +:+ py_str satellite, true);
     ("Begin", format_time_est w begin_time, false);
     ("Peak Time", format_time_est w max_time, true);
     ("End", format_time_est w end_time, true)] in
  let fields2 :=
    if negb (py_eq begin_class max_class)
    then [("Class Evolution",
           py_str begin_class +:+ " → " +:+ py_str max_class +:+ " → " +:+ py_str end_class,
           false)]
    else [] in
  let '(image, fields3) :=
    match get_sdo_aia_image (py_or max_time begin_time) 193 with
    | Some image_url =>
        (Some image_url, [("SDO AIA 193Å", "[View on SDO](https://sdo.gsfc.nasa.gov/)", false)])
    | None => (None, [])
    end in
  now ← utcnow_iso_with_est w;
  Ok {| title := title; colour := colour;
        fields := fields1 ++ fields2 ++ fields3;
        image := image;
        footer := "SWPC • " +:+ now |}.

(** The body of [for ch_id in list(self.subscribed_flares)]. *)
Definition flare_poll_send (env : Env) (embed : Embed) (ch_id : Z) : PyM FlareBot event unit :=
  if is_text_or_thread (get_channel env ch_id) then
    try_except
      (emit (EvSend ch_id embed (channel_send env ch_id embed));;
       lift (channel_send env ch_id embed))
      Exception
      (λ _, modify (set_subscribed_flares (λ subs, subs ∖ {[ch_id]})))
  else mret tt.

(** The body of [for ch_id in list(self.subscribed_daily)]. *)
Definition daily_summary_send (env : Env) (embed : Embed) (ch_id : Z) : PyM FlareBot event unit :=
  if is_text_or_thread (get_channel env ch_id) then
    try_except
      (emit (EvSend ch_id embed (channel_send env ch_id embed));;
       lift (channel_send env ch_id embed))
      Exception
      (λ _, modify (set_subscribed_daily (λ subs, subs ∖ {[ch_id]})))
  else mret tt.

(** One run of the [@tasks.loop(seconds=CHECK_INTERVAL_SEC)] body. *)
Definition flare_poll_task (env : Env) : PyM FlareBot event unit :=
  self ← get_state;
  if bool_decide (subscribed_flares self = ∅) then mret tt else
  try_except
    (flare ← lift (fetch_latest_flare (feed env));
     if negb (json_truthy flare) then mret tt else
     max_class ← lift (json_get flare "max_class");
     current_class ← lift (json_get flare "current_class");
     let flare_class := py_or max_class current_class in
     qualifies ← lift (is_m_or_x_class (py_or flare_class (PStr "")));
     if negb qualifies then mret tt else
     max_time ← lift (json_get flare "max_time");
     time_tag ← lift (json_get flare "time_tag");
     begin_time ← lift (json_get flare "begin_time");
     let flare_time := py_or (py_or max_time time_tag) begin_time in
     let flare_id := make_flare_id flare_time flare_class in
     self ← get_state;
     if bool_decide (flare_id ∈ seen_flare_ids self) then mret tt else
     modify (set_seen_flare_ids (λ ids, {[flare_id]} ∪ ids));;
     emit (EvAccept flare_id);;
     modify (set_last_flare_time flare_time);;
     embed ← lift (format_flare_embed (feed env) flare);
     emit (EvBuilt embed);;
     self ← get_state;
     for_each (elements (subscribed_flares self)) (flare_poll_send env embed))
    Exception
    (λ _, mret tt).

(** [now_est.hour == 13 and now_est.minute < 5]; the comment on this line
    of the source reads "Check if it's 5pm EST/EDT (17:00)" *)
Definition in_window (now : Clock) : bool :=
  (hour now =? 13)%Z && (minute now <? 5)%Z.

(** One run of the [@tasks.loop(minutes=5)] body. *)
Definition daily_summary_task (env : Env) : PyM FlareBot event unit :=
  self ← get_state;
  if bool_decide (subscribed_daily self = ∅) then mret tt else
  try_except
    (now ← lift (now_est (feed env));
     if in_window now then
       let today := date_str now in
       self ← get_state;
       if bool_decide (_last_daily_date self = Some today) then mret tt else
       modify (set_last_daily_date (Some today));;
       emit (EvMark today);;
       embed ← lift (build_daily_summary_embed env now);
       self ← get_state;
       for_each (elements (subscribed_daily self)) (daily_summary_send env embed)
     else mret tt)
    Exception
    (λ _, mret tt).

(** [interaction.channel]: its class and its [id], when there is one *)
Record Interaction : Type := {
  channel : option (channel_class * Z);
}.

Definition subscribe_flares_cmd (interaction : Interaction) : PyM FlareBot event unit :=
  match channel interaction with
  | Some (TextChannel, id) | Some (Thread, id) =>
      modify (set_subscribed_flares (λ subs, {[id]} ∪ subs));;
      emit (EvReply "✅ Subscribed: I'll notify you when M- or X-class flares are detected!" false)
  | _ =>
      emit (EvReply "This command only works in text channels or threads." true)
  end.

Definition unsubscribe_flares_cmd (interaction : Interaction) : PyM FlareBot event unit :=
  self ← get_state;
  match channel interaction with
  | Some (TextChannel, id) | Some (Thread, id) =>
      if bool_decide (id ∈ subscribed_flares self) then
        modify (set_subscribed_flares (λ subs, subs ∖ {[id]}));;
        emit (EvReply "Unsubscribed from flare notifications." false)
      else
        emit (EvReply "This channel isn't subscribed for flare notifications." true)
  | _ =>
      emit (EvReply "This channel isn't subscribed for flare notifications." true)
  end.

Definition subscribe_daily_cmd (interaction : Interaction) : PyM FlareBot event unit :=
  match channel interaction with
  | Some (TextChannel, id) | Some (Thread, id) =>
      modify (set_subscribed_daily (λ subs, {[id]} ∪ subs));;
      emit (EvReply "✅ Subscribed: I'll post a daily summary at 5pm EST/EDT with today's forecast and events!" false)
  | _ =>
      emit (EvReply "This command only works in text channels or threads." true)
  end.

Definition unsubscribe_daily_cmd (interaction : Interaction) : PyM FlareBot event unit :=
  self ← get_state;
  match channel interaction with
  | Some (TextChannel, id) | Some (Thread, id) =>
      if bool_decide (id ∈ subscribed_daily self) then
        modify (set_subscribed_daily (λ subs, subs ∖ {[id]}));;
        emit (EvReply "Unsubscribed from daily summaries." false)
      else
        emit (EvReply "This channel isn't subscribed for daily summaries." true)
  | _ =>
      emit (EvReply "This channel isn't subscribed for daily summaries." true)
  end.

(** What the event loop can run next: a tick of one of the two tasks or a
    slash command. *)
Inductive action : Type :=
  | Flare_poll (env : Env)
  | Daily_summary (env : Env)
  | Subscribe_flares (i : Interaction)
  | Unsubscribe_flares (i : Interaction)
  | Subscribe_daily (i : Interaction)
  | Unsubscribe_daily (i : Interaction).

Definition step (a : action) : PyM FlareBot event unit :=
  match a with
  | Flare_poll env => flare_poll_task env
  | Daily_summary env => daily_summary_task env
  | Subscribe_flares i => subscribe_flares_cmd i
  | Unsubscribe_flares i => unsubscribe_flares_cmd i
  | Subscribe_daily i => subscribe_daily_cmd i
  | Unsubscribe_daily i => unsubscribe_daily_cmd i
  end.

Definition run (acts : list action) : PyM FlareBot event unit := for_each acts step.

(** The sends in a log: destination and message. *)
Definition sends (log : list event) : list (Z * Embed) :=
  omap (λ ev, match ev with EvSend ch_id embed _ => Some (ch_id, embed) | _ => None end) log.

End Discord.

(** ** The Slack bot ([spaceweatherbot_slack.py]) *)

Module Slack.

Definition nl : string := String (ascii_of_nat 10) EmptyString.

(** The Block Kit blocks the formatters build. *)
Inductive block : Type :=
  | Header (text : string)
  | SectionFields (texts : list string)
  | SectionText (text : string)
  | Context (text : string).

(** The log of a task: an id entering [seen_flare_ids], a flare message
    completed, [_last_daily_date] set to a date (a digest starts), a
    [chat_postMessage] with its outcome. *)
Inductive event : Type :=
  | EvAccept (flare_id : string)
  | EvBuilt (blocks : list block)
  | EvMark (today : string)
  | EvPost (channel : string) (text : string) (blocks : option (list block)) (r : result unit).

Record Env : Type := {
  feed : Feed;
  (** [self.client.chat_postMessage(channel=, text=, blocks=)] *)
  chat_postMessage : string → string → option (list block) → result unit;
  (** [self._build_daily_summary_blocks(now_est)]: fetches and formats the
      digest; its content is not modelled *)
  _build_daily_summary_blocks : Clock → result (list block);
}.

Record FlareSlackBot : Type := {
  seen_flare_ids : gset string;
  subscribed_channels : gset string;
  subscribed_daily : gset string;
  _last_flare_time : pyval;
  _last_daily_date : option string;
}.

Definition init : FlareSlackBot :=
  {| seen_flare_ids := ∅; subscribed_channels := ∅; subscribed_daily := ∅;
     _last_flare_time := PNone; _last_daily_date := None |}.

Definition set_seen_flare_ids (f : gset string → gset string) (self : FlareSlackBot) :
    FlareSlackBot :=
  {| seen_flare_ids := f (seen_flare_ids self);
     subscribed_channels := subscribed_channels self;
     subscribed_daily := subscribed_daily self;
     _last_flare_time := _last_flare_time self;
     _last_daily_date := _last_daily_date self |}.

Definition set_subscribed_channels (f : gset string → gset string) (self : FlareSlackBot) :
    FlareSlackBot :=
  {| seen_flare_ids := seen_flare_ids self;
     subscribed_channels := f (subscribed_channels self);
     subscribed_daily := subscribed_daily self;
     _last_flare_time := _last_flare_time self;
     _last_daily_date := _last_daily_date self |}.

Definition set_subscribed_daily (f : gset string → gset string) (self : FlareSlackBot) :
    FlareSlackBot :=
  {| seen_flare_ids := seen_flare_ids self;
     subscribed_channels := subscribed_channels self;
     subscribed_daily := f (subscribed_daily self);
     _last_flare_time := _last_flare_time self;
     _last_daily_date := _last_daily_date self |}.

Definition set_last_daily_date (d : option string) (self : FlareSlackBot) : FlareSlackBot :=
  {| seen_flare_ids := seen_flare_ids self;
     subscribed_channels := subscribed_channels self;
     subscribed_daily := subscribed_daily self;
     _last_flare_time := _last_flare_time self;
     _last_daily_date := d |}.

Definition _send_message (env : Env) (channel text : string) (blocks : option (list block)) :
    PyM FlareSlackBot event unit :=
  try_except
    (emit (EvPost channel text blocks (chat_postMessage env channel text blocks));;
     lift (chat_postMessage env channel text blocks))
    is_SlackApiError
    (λ _, mret tt).

Definition _format_flare_blocks (w : Feed) (flare : json) : result (list block) :=
  max_class_field ← json_get flare "max_class";
  current_class ← json_get_default flare "current_class" (PStr "Unknown");
  let max_class := py_or max_class_field current_class in
  begin_field ← json_get_default flare "begin_time" (PStr "Unknown");
  let begin_time := format_time_est w begin_field in
  max_field ← json_get_default flare "max_time" (PStr "Unknown");
  let max_time := format_time_est w max_field in
  end_field ← json_get_default flare "end_time" (PStr "Unknown");
  let end_time := format_time_est w end_field in
  '(class_letter, _) ← parse_flare_class max_class;
  let emoji :=
    if letter_is class_letter "X" then "🚨"
    else if letter_is class_letter "M" then "⚠️" else "⚡" in
  satellite ← json_get_default flare "satellite" (PStr "Unknown");
  let blocks1 :=
    [Header (emoji +:+ " " +:+ py_str max_class +:+ " Solar Flare");
     SectionFields
       ["*Peak Class:*" +:+ nl +:+ py_str max_class;
        "*Satellite:*" +:+ nl +:+ "GOES-" +:+ py_str satellite;
        "*Begin:*" +:+ nl +:+ begin_time;
        "*Peak Time:*" +:+ nl +:+ max_time;
        "*End:*" +:+ nl +:+ end_time]] in
  begin_again ← json_get flare "begin_time";
  let blocks2 :=
    match get_sdo_aia_image (py_or (PStr max_time) begin_again) 193 with
    | Some image_url =>
        [SectionText ("*SDO AIA 193Å Image:* <" +:+ image_url +:+
           "|View Image> | <https://sdo.gsfc.nasa.gov/assets/img/latest/|View Latest SDO Images>")]
    | None => []
    end in
  now ← utcnow_iso_with_est w;
  Ok (blocks1 ++ blocks2 ++ [Context ("SWPC • " +:+ now)]).

Definition _cmd_subscribe_flares (env : Env) (channel : string) : PyM FlareSlackBot event unit :=
  modify (set_subscribed_channels (λ subs, {[channel]} ∪ subs));;
  _send_message env channel
    "✅ Subscribed: I'll notify you when M- or X-class flares are detected!" None.

Definition _cmd_unsubscribe_flares (env : Env) (channel : string) : PyM FlareSlackBot event unit :=
  self ← get_state;
  if bool_decide (channel ∈ subscribed_channels self) then
    modify (set_subscribed_channels (λ subs, subs ∖ {[channel]}));;
    _send_message env channel "Unsubscribed from flare notifications." None
  else
    _send_message env channel "This channel isn't subscribed for flare notifications." None.

Definition _cmd_subscribe_daily (env : Env) (channel : string) : PyM FlareSlackBot event unit :=
  modify (set_subscribed_daily (λ subs, {[channel]} ∪ subs));;
  _send_message env channel
    "✅ Subscribed: I'll post a daily summary at 5pm EST/EDT with today's forecast and events!"
    None.

Definition _cmd_unsubscribe_daily (env : Env) (channel : string) : PyM FlareSlackBot event unit :=
  self ← get_state;
  if bool_decide (channel ∈ subscribed_daily self) then
    modify (set_subscribed_daily (λ subs, subs ∖ {[channel]}));;
    _send_message env channel "Unsubscribed from daily summaries." None
  else
    _send_message env channel "This channel isn't subscribed for daily summaries." None.

(** One turn of the [while True] loop of [_flare_poll_task]; the two
    [asyncio.sleep] calls only wait. *)
Definition _flare_poll_turn (env : Env) : PyM FlareSlackBot event unit :=
  try_except
    (self ← get_state;
     if bool_decide (subscribed_channels self = ∅) then mret tt else
     flare ← lift (fetch_latest_flare (feed env));
     if negb (json_truthy flare) then mret tt else
     max_class ← lift (json_get flare "max_class");
     current_class ← lift (json_get flare "current_class");
     let flare_class := py_or max_class current_class in
     qualifies ← lift (is_m_or_x_class (py_or flare_class (PStr "")));
     if negb qualifies then mret tt else
     max_time ← lift (json_get flare "max_time");
     time_tag ← lift (json_get flare "time_tag");
     begin_time ← lift (json_get flare "begin_time");
     let flare_time := py_or (py_or max_time time_tag) begin_time in
     let flare_id := make_flare_id flare_time flare_class in
     self ← get_state;
     if bool_decide (flare_id ∈ seen_flare_ids self) then mret tt else
     modify (set_seen_flare_ids (λ ids, {[flare_id]} ∪ ids));;
     emit (EvAccept flare_id);;
     blocks ← lift (_format_flare_blocks (feed env) flare);
     emit (EvBuilt blocks);;
     self ← get_state;
     for_each (elements (subscribed_channels self)) (λ ch_id,
       _send_message env ch_id "🚨 New Flare Detected!" (Some blocks)))
    Exception
    (λ _, mret tt).

(** The loop itself, for as many turns as there are environments. *)
Definition _flare_poll_task (envs : list Env) : PyM FlareSlackBot event unit :=
  for_each envs _flare_poll_turn.

(** [now_est.hour == 17 and now_est.minute < 5] *)
Definition in_window (now : Clock) : bool :=
  (hour now =? 17)%Z && (minute now <? 5)%Z.

(** One turn of the [while True] loop of [_daily_summary_task]. *)
Definition _daily_summary_turn (env : Env) : PyM FlareSlackBot event unit :=
  try_except
    (now ← lift (now_est (feed env));
     if in_window now then
       let today := date_str now in
       self ← get_state;
       if negb (bool_decide (_last_daily_date self = Some today))
          && negb (bool_decide (subscribed_daily self = ∅))
       then
         modify (set_last_daily_date (Some today));;
         emit (EvMark today);;
         blocks ← lift (_build_daily_summary_blocks env now);
         self ← get_state;
         for_each (elements (subscribed_daily self)) (λ ch_id,
           _send_message env ch_id "📊 Daily Solar Flare Summary" (Some blocks))
       else mret tt
     else mret tt)
    Exception
    (λ _, mret tt).

Definition _daily_summary_task (envs : list Env) : PyM FlareSlackBot event unit :=
  for_each envs _daily_summary_turn.

(** What the event loop can run next: a turn of one of the two tasks or a
    slash command. *)
Inductive action : Type :=
  | Flare_poll (env : Env)
  | Daily_summary (env : Env)
  | Subscribe_flares (env : Env) (channel : string)
  | Unsubscribe_flares (env : Env) (channel : string)
  | Subscribe_daily (env : Env) (channel : string)
  | Unsubscribe_daily (env : Env) (channel : string).

(** A command runs under the handler of [_handle_slash_command], which
    reports an exception to the channel. *)
Definition handled (env : Env) (channel : string) (m : PyM FlareSlackBot event unit) :
    PyM FlareSlackBot event unit :=
  try_except m Exception (λ e, _send_message env channel ("Error: " +:+ exn_text e) None).

(** One action of the event loop; an exception that leaves a command
    handler ends that handler only. *)
Definition step (a : action) : PyM FlareSlackBot event unit :=
  try_except
    match a with
    | Flare_poll env => _flare_poll_turn env
    | Daily_summary env => _daily_summary_turn env
    | Subscribe_flares env c => handled env c (_cmd_subscribe_flares env c)
    | Unsubscribe_flares env c => handled env c (_cmd_unsubscribe_flares env c)
    | Subscribe_daily env c => handled env c (_cmd_subscribe_daily env c)
    | Unsubscribe_daily env c => handled env c (_cmd_unsubscribe_daily env c)
    end
    Exception
    (λ _, mret tt).

Definition run (acts : list action) : PyM FlareSlackBot event unit := for_each acts step.

(** The posts in a log: destination, text and blocks. *)
Definition posts (log : list event) : list (string * string * option (list block)) :=
  omap (λ ev, match ev with EvPost c t b _ => Some (c, t, b) | _ => None end) log.

End Slack.

(** ** Strings of the messages the commands build *)

(** The characters below 256 that [str.strip()] removes. *)
Definition is_space (c : ascii) : bool :=
  let n := nat_of_ascii c in
  ((9 <=? n)%nat && (n <=? 13)%nat) || ((28 <=? n)%nat && (n <=? 32)%nat)
  || (n =? 133)%nat || (n =? 160)%nat.

Fixpoint lstrip (s : string) : string :=
  match s with
  | String c s' => if is_space c then lstrip s' else s
  | EmptyString => EmptyString
  end.

Fixpoint rstrip (s : string) : string :=
  match s with
  | String c s' =>
      let r := rstrip s' in
      if is_space c && String.eqb r "" then EmptyString else String c r
  | EmptyString => EmptyString
  end.

(** [s.strip()] *)
Definition strip (s : string) : string := rstrip (lstrip s).

(** [v.strip()]: only [str] has the method *)
Definition py_strip (v : pyval) : result string :=
  match v with
  | PStr s => Ok (strip s)
  | _ => Raise AttributeError
  end.

(** [s[:n]] for [n] that is not negative *)
Fixpoint str_take (n : nat) (s : string) : string :=
  match n, s with
  | S n', String c s' => String c (str_take n' s')
  | _, _ => EmptyString
  end.

(** [[f(x) for x in l]] *)
Fixpoint map_result {A B} (f : A → result B) (l : list A) : result (list B) :=
  match l with
  | [] => Ok []
  | x :: l' => y ← f x; ys ← map_result f l'; Ok (y :: ys)
  end.

(** [if image_url:] on what [get_sdo_aia_image] gives *)
Definition url_truthy (image_url : option string) : bool :=
  match image_url with
  | Some url => truthy (PStr url)
  | None => false
  end.

(** ** The presence task of the Discord bot *)

Module DiscordStatus.

(** The log of the task: a [change_presence] with the name of the activity
    and its outcome. *)
Inductive event : Type :=
  | EvPresence (name : string) (r : result unit).

Record Env : Type := {
  feed : Feed;
  (** [await self.change_presence(activity=discord.Activity(type=watching, name=name))] *)
  change_presence : string → result unit;
}.

(** The text of the presence and the cascade of [if len(text) > 128]. *)
Definition status_text (flare_class m_chance x_chance : pyval) : string :=
  let text := "Current Flare: " +:+ py_str flare_class +:+ " | M: " +:+ py_str m_chance
              +:+ "% | X: " +:+ py_str x_chance +:+ "%" in
  if (128 <? String.length text)%nat then
    let text := "Flare: " +:+ py_str flare_class +:+ " | M: " +:+ py_str m_chance
                +:+ "% | X: " +:+ py_str x_chance +:+ "%" in
    if (128 <? String.length text)%nat then
      let text := py_str flare_class +:+ " | M:" +:+ py_str m_chance
                  +:+ "% X:" +:+ py_str x_chance +:+ "%" in
      if (128 <? String.length text)%nat then "Flare: " +:+ py_str flare_class
      else text
    else text
  else text.

(** One run of the [@tasks.loop(minutes=10)] body; the inner [except:] is
    bare. *)
Definition status_task (env : Env) : PyM Discord.FlareBot event unit :=
  try_except
    (flare ← lift (fetch_latest_flare (feed env));
     flare_class ← lift
       (if json_truthy flare then
          max_class ← json_get flare "max_class";
          current_class ← json_get_default flare "current_class" (PStr "None");
          Ok (py_or max_class current_class)
        else Ok (PStr "None"));
     forecast_data ← lift (fetch_flare_forecast (feed env));
     chances ← lift
       (match forecast_data with
        | latest_forecast :: _ =>
            m_chance ← json_get_default latest_forecast "m_class_1_day" (PInt 0);
            x_chance ← json_get_default latest_forecast "x_class_1_day" (PInt 0);
            Ok (m_chance, x_chance)
        | [] => Ok (PInt 0, PInt 0)
        end);
     let text := status_text flare_class chances.1 chances.2 in
     emit (EvPresence text (change_presence env text));;
     lift (change_presence env text))
    Exception
    (λ _,
       try_except
         (emit (EvPresence "Solar flares" (change_presence env "Solar flares"));;
          lift (change_presence env "Solar flares"))
         Exception
         (λ _, mret tt)).

End DiscordStatus.

(** ** The commands of the Discord bot that only read the feed *)

Module DiscordCommands.

(** [discord.Colour.red()] and the like, or [colour=0x...] *)
Inductive Colour : Type :=
  | Red
  | Orange
  | Yellow
  | Blue
  | Rgb (value : Z).

Record Embed : Type := {
  title : string;
  description : option string;
  colour : Colour;
  fields : list (string * string * bool);   (* name, value, inline *)
  image : option string;
  footer : string;
}.

(** What a command hands to [interaction.followup.send] after deferring;
    the command raises when computing it raises. *)
Inductive followup : Type :=
  | SendContent (content : string)
  | SendFlare (embed : Discord.Embed)      (* the embed of [format_flare_embed] *)
  | SendEmbed (embed : Embed)
  | SendEmbeds (embeds : list Embed).

Definition flare_latest_cmd (w : Feed) : result followup :=
  flare ← fetch_latest_flare w;
  if negb (json_truthy flare) then Ok (SendContent "No flare data available.")
  else
    embed ← Discord.format_flare_embed w flare;
    Ok (SendFlare embed).

(** [format_alert_embed]; a record holds scalars, so [regions] is never a
    list here and the field shows [str(regions)].  [discord.Embed] and
    [add_field] apply [str] to what they are given. *)
Definition format_alert_embed (w : Feed) (a : json) : result Embed :=
  message_type ← json_get a "message_type";
  type_field ← json_get a "type";
  let title := py_or (py_or message_type type_field) (PStr "SWPC Alert") in
  issue_datetime ← json_get a "issue_datetime";
  time_tag ← json_get a "time_tag";
  timestamp ← json_get a "timestamp";
  let issued := py_or (py_or issue_datetime time_tag) timestamp in
  message_field ← json_get a "message";
  summary ← json_get a "summary";
  product_text ← json_get a "product_text";
  let message :=
    py_or (py_or (py_or message_field summary) product_text) (PStr "(no text)") in
  regions_field ← json_get a "regions";
  affected_areas ← json_get a "affected_areas";
  let regions := py_or regions_field affected_areas in
  product_id ← json_get a "product_id";
  id_field ← json_get a "id";
  let pid := py_or product_id id_field in
  msg_lower ← py_lower message;
  let colour :=
    if str_contains "x-class" msg_lower || str_contains "x class" msg_lower then Red
    else if str_contains "m-class" msg_lower || str_contains "m class" msg_lower then Orange
    else Blue in
  desc ← py_strip message;
  let desc :=
    if (3800 <? String.length desc)%nat then str_take 3800 desc +:+ "..." else desc in
  let fields1 :=
    if truthy issued then [("Issued", format_time_est w (PStr (py_str issued)), true)] else [] in
  let fields2 :=
    if truthy regions then [("Regions", py_str regions, true)] else [] in
  now ← utcnow_iso_with_est w;
  let footer := if truthy pid then py_str pid +:+ " • " +:+ now else now in
  Ok {| title := py_str title; description := Some desc; colour := colour;
        fields := fields1 ++ fields2; image := None; footer := footer |}.

(** [limit] is declared [app_commands.Range[int, 1, 10]]. *)
Definition flare_alerts_cmd (w : Feed) (limit : Z) : result followup :=
  items ← fetch_alerts w limit;
  if bool_decide (items = []) then Ok (SendContent "No flare alerts found.")
  else
    embeds ← map_result (format_alert_embed w) items;
    Ok (SendEmbeds (take 10 embeds)).

Definition latest_image_cmd (w : Feed) (wavelength : Z) : result followup :=
  flare ← fetch_latest_flare w;
  flare_time ←
    (if json_truthy flare then
       max_time ← json_get flare "max_time";
       time_tag ← json_get flare "time_tag";
       begin_time ← json_get flare "begin_time";
       Ok (py_or (py_or max_time time_tag) begin_time)
     else Ok PNone);
  let image_url := get_sdo_aia_image flare_time wavelength in
  if url_truthy image_url then
    let fields1 := [("Wavelength", pretty wavelength +:+ " Å", true)] in
    let fields2 :=
      if truthy flare_time then [("Time", format_time_est w flare_time, true)] else [] in
    let fields3 := [("Source", "[SDO/NASA](https://sdo.gsfc.nasa.gov/)", false)] in
    now ← utcnow_iso_with_est w;
    Ok (SendEmbed
          {| title := "SDO AIA " +:+ pretty wavelength +:+ "Å Solar Image";
             description := None; colour := Rgb 0x4a90e2;
             fields := fields1 ++ fields2 ++ fields3;
             image := image_url;
             footer := "SWPC • " +:+ now |})
  else
    Ok (SendContent
          ("Could not retrieve SDO AIA " +:+ pretty wavelength +:+
           "Å image. [View on SDO website](https://sdo.gsfc.nasa.gov/assets/img/latest/)")).

Definition latest_flare_class_cmd (w : Feed) : result followup :=
  flare ← fetch_latest_flare w;
  if negb (json_truthy flare) then Ok (SendContent "No flare data available.")
  else
    max_class_field ← json_get flare "max_class";
    current_class ← json_get_default flare "current_class" (PStr "None");
    let max_class := py_or max_class_field current_class in
    begin_class ← json_get_default flare "begin_class" (PStr "None");
    end_class ← json_get_default flare "end_class" (PStr "None");
    max_time_field ← json_get flare "max_time";
    time_tag ← json_get_default flare "time_tag" (PStr "Unknown");
    let max_time := py_or max_time_field time_tag in
    '(class_letter, class_num) ← parse_flare_class max_class;
    let '(colour, emoji) :=
      if letter_is class_letter "X" then (Red, "🚨")
      else if letter_is class_letter "M" then (Orange, "⚠️")
      else if letter_is class_letter "C" then (Yellow, "⚡")
      else (Blue, "☀️") in
    let fields1 :=
      [("Peak Class", "**" +:+ py_str max_class +:+ "**", true);
       ("Peak Time", format_time_est w max_time, true)] in
    let fields2 :=
      if negb (py_eq begin_class max_class) || negb (py_eq end_class max_class)
      then [("Evolution",
             py_str begin_class +:+ " → " +:+ py_str max_class +:+ " → " +:+ py_str end_class,
             false)]
      else [] in
    now ← utcnow_iso_with_est w;
    Ok (SendEmbed
          {| title := emoji +:+ " Latest Flare Class: " +:+ py_str max_class;
             description := None; colour := colour;
             fields := fields1 ++ fields2;
             image := None;
             footer := "SWPC • " +:+ now |}).

End DiscordCommands.

(** ** The commands of the Slack bot that only read the feed *)

Module SlackCommands.
Import Slack.

Definition _format_image_blocks (w : Feed) (wavelength : Z) (image_url : option string)
    (time : pyval) : result (list block) :=
  let blocks1 := [Header ("🖼️ SDO AIA " +:+ pretty wavelength +:+ "Å Solar Image")] in
  let blocks2 :=
    if url_truthy image_url then
      [SectionText ("*Image:* <" +:+ default "" image_url +:+ "|View SDO AIA " +:+
         pretty wavelength +:+
         "Å Image> | <https://sdo.gsfc.nasa.gov/assets/img/latest/|View All Latest Images>")]
    else
      [SectionText
         "*SDO AIA Images:* <https://sdo.gsfc.nasa.gov/assets/img/latest/|View Latest SDO Images>"]
    in
  let blocks3 :=
    if truthy time then [Context ("Time: " +:+ format_time_est w time)] else [] in
  now ← utcnow_iso_with_est w;
  Ok (blocks1 ++ blocks2 ++ blocks3 ++ [Context ("SWPC • " +:+ now)]).

Definition _format_flare_class_blocks (w : Feed) (flare : json) : result (list block) :=
  max_class_field ← json_get flare "max_class";
  current_class ← json_get_default flare "current_class" (PStr "None");
  let max_class := py_or max_class_field current_class in
  max_time_field ← json_get flare "max_time";
  time_tag ← json_get_default flare "time_tag" (PStr "Unknown");
  let max_time := format_time_est w (py_or max_time_field time_tag) in
  '(class_letter, _) ← parse_flare_class max_class;
  let emoji :=
    if letter_is class_letter "X" then "🚨"
    else if letter_is class_letter "M" then "⚠️"
    else if letter_is class_letter "C" then "⚡"
    else "☀️" in
  now ← utcnow_iso_with_est w;
  Ok [Header (emoji +:+ " Latest Flare Class: " +:+ py_str max_class);
      SectionFields
        ["*Peak Class:*" +:+ nl +:+ py_str max_class;
         "*Peak Time:*" +:+ nl +:+ max_time];
      Context ("SWPC • " +:+ now)].

Definition _cmd_flare_latest (env : Env) (channel : string) : PyM FlareSlackBot event unit :=
  flare ← lift (fetch_latest_flare (feed env));
  if negb (json_truthy flare) then
    _send_message env channel "No flare data available." None
  else
    blocks ← lift (_format_flare_blocks (feed env) flare);
    _send_message env channel "Latest Solar Flare Event" (Some blocks).

Definition _cmd_latest_image (env : Env) (channel : string) (wavelength : Z) :
    PyM FlareSlackBot event unit :=
  flare ← lift (fetch_latest_flare (feed env));
  flare_time ← lift
    (if json_truthy flare then
       max_time ← json_get flare "max_time";
       time_tag ← json_get flare "time_tag";
       begin_time ← json_get flare "begin_time";
       Ok (py_or (py_or max_time time_tag) begin_time)
     else Ok PNone);
  let image_url := get_sdo_aia_image flare_time wavelength in
  blocks ← lift (_format_image_blocks (feed env) wavelength image_url flare_time);
  _send_message env channel ("SDO AIA " +:+ pretty wavelength +:+ "Å Solar Image") (Some blocks).

Definition _cmd_latest_flare_class (env : Env) (channel : string) :
    PyM FlareSlackBot event unit :=
  flare ← lift (fetch_latest_flare (feed env));
  if negb (json_truthy flare) then
    _send_message env channel "No flare data available." None
  else
    blocks ← lift (_format_flare_class_blocks (feed env) flare);
    _send_message env channel "Latest Flare Class" (Some blocks).

End SlackCommands.

(** ** Exceptions that [exn] does not list *)

(** [TypeError] is what ["T" in x] raises on an [x] that is not a string;
    the functions below that can meet it answer in [result_more]. *)
Inductive exn_more : Type :=
  | Listed (e : exn)
  | TypeError.

Inductive result_more (A : Type) : Type :=
  | Returns (a : A)
  | Raises (e : exn_more).
Arguments Returns {A} a.
Arguments Raises {A} e.

#[global] Instance result_more_ret : MRet result_more := fun A a => Returns a.
#[global] Instance result_more_bind : MBind result_more := fun A B f m =>
  match m with
  | Returns a => f a
  | Raises e => Raises e
  end.

(** A computation that raises listed exceptions only. *)
Definition listed {A} (r : result A) : result_more A :=
  match r with
  | Ok a => Returns a
  | Raise e => Raises (Listed e)
  end.

(** [s.split("T")[0]] *)
Fixpoint before_T (s : string) : string :=
  match s with
  | String c s' => if Ascii.eqb c "T" then EmptyString else String c (before_T s')
  | EmptyString => EmptyString
  end.

(** [if "T" in x: x = x.split("T")[0]], then [x] *)
Definition date_part (x : pyval) : result_more string :=
  match x with
  | PStr s => Returns (if str_contains "T" s then before_T s else s)
  | _ => Raises TypeError
  end.

(** ** The forecast commands and the daily digest of the Discord bot *)

Module DiscordDigest.
Import DiscordCommands.

Definition nl : string := String (ascii_of_nat 10) EmptyString.

(** ["\n".join(lines)] *)
Fixpoint join_lines (lines : list string) : string :=
  match lines with
  | [] => EmptyString
  | [l] => l
  | l :: rest => l +:+ nl +:+ join_lines rest
  end.

(** One turn of [for day_data in forecast] in [flare_forecast_cmd]: the
    three lines it appends. *)
Definition forecast_day_lines (day_data : json) : result_more (list string) :=
  date_field ← listed (json_get_default day_data "date" (PStr "Unknown"));
  date_str ← date_part date_field;
  m_1d ← listed (json_get_default day_data "m_class_1_day" (PInt 0));
  x_1d ← listed (json_get_default day_data "x_class_1_day" (PInt 0));
  Returns ["**" +:+ date_str +:+ "**";
           "M-class: " +:+ py_str m_1d +:+ "% | X-class: " +:+ py_str x_1d +:+ "%";
           ""].

Fixpoint forecast_lines (forecast : list json) : result_more (list string) :=
  match forecast with
  | [] => Returns []
  | day_data :: rest =>
      lines ← forecast_day_lines day_data;
      more ← forecast_lines rest;
      Returns (lines ++ more)
  end.

Definition flare_forecast_cmd (w : Feed) : result_more followup :=
  forecast ← listed (fetch_flare_forecast w);
  if bool_decide (forecast = []) then Returns (SendContent "No forecast data available.")
  else
    desc_lines ← forecast_lines forecast;
    now ← listed (utcnow_iso_with_est w);
    Returns (SendEmbed
      {| title := "Solar Flare Probability Forecast";
         description := Some (join_lines desc_lines);
         colour := Rgb 0xff6b35;
         fields := [];
         image := None;
         footer := "SWPC • " +:+ now |}).

(** [f"{latest.get(key, 0)}%"] *)
Definition percent (latest : json) (key : string) : result string :=
  v ← json_get_default latest key (PInt 0);
  Ok (py_str v +:+ "%").

Definition latest_forecast_cmd (w : Feed) : result_more followup :=
  forecast ← listed (fetch_flare_forecast w);
  match forecast with
  | [] => Returns (SendContent "No forecast data available.")
  | latest :: _ =>
      if negb (json_truthy latest) then Returns (SendContent "No forecast data available.")
      else
        date_field ← listed (json_get_default latest "date" (PStr "Unknown"));
        date_str ← date_part date_field;
        m1 ← listed (percent latest "m_class_1_day");
        x1 ← listed (percent latest "x_class_1_day");
        m2 ← listed (percent latest "m_class_2_day");
        x2 ← listed (percent latest "x_class_2_day");
        m3 ← listed (percent latest "m_class_3_day");
        x3 ← listed (percent latest "x_class_3_day");
        now ← listed (utcnow_iso_with_est w);
        Returns (SendEmbed
          {| title := "Latest Solar Flare Forecast";
             description := None;
             colour := Rgb 0xff6b35;
             fields := [("Date", date_str, false);
                        ("M-Class (1 day)", m1, true);
                        ("X-Class (1 day)", x1, true);
                        ("M-Class (2 day)", m2, true);
                        ("X-Class (2 day)", x2, true);
                        ("M-Class (3 day)", m3, true);
                        ("X-Class (3 day)", x3, true)];
             image := None;
             footer := "SWPC • " +:+ now |})
  end.

(** The search [for day_data in forecast_data: ... break] of the digest:
    the entry found, or [None]. *)
Fixpoint find_today_forecast (date_str : string) (forecast_data : list json) :
    result_more json :=
  match forecast_data with
  | [] => Returns (JAtom PNone)
  | day_data :: rest =>
      date_field ← listed (json_get_default day_data "date" (PStr ""));
      day_date ← date_part date_field;
      if String.eqb day_date date_str then Returns day_data
      else find_today_forecast date_str rest
  end.

(** [if "T" in str(x): ... str(x).split("T")[0] == date_str] on a truthy
    [x]; the bare [except] around it has nothing to catch. *)
Definition dated_today (date_str : string) (x : pyval) : bool :=
  truthy x && str_contains "T" (py_str x) && String.eqb (before_T (py_str x)) date_str.

(** The loop [for alert in all_alerts] of the digest. *)
Fixpoint today_alerts_loop (date_str : string) (all_alerts : list json) : result (list json) :=
  match all_alerts with
  | [] => Ok []
  | alert :: rest =>
      issue_datetime ← json_get alert "issue_datetime";
      time_tag ← json_get alert "time_tag";
      timestamp ← json_get alert "timestamp";
      let issued := py_or (py_or issue_datetime time_tag) timestamp in
      today_alerts ← today_alerts_loop date_str rest;
      Ok (if dated_today date_str issued then alert :: today_alerts else today_alerts)
  end.

(** The three lines of the forecast field. *)
Definition forecast_text (today_forecast : json) : result string :=
  m_1d ← json_get_default today_forecast "m_class_1_day" (PInt 0);
  x_1d ← json_get_default today_forecast "x_class_1_day" (PInt 0);
  m_2d ← json_get_default today_forecast "m_class_2_day" (PInt 0);
  x_2d ← json_get_default today_forecast "x_class_2_day" (PInt 0);
  m_3d ← json_get_default today_forecast "m_class_3_day" (PInt 0);
  x_3d ← json_get_default today_forecast "x_class_3_day" (PInt 0);
  Ok ("**Today (1 day):** M-class: " +:+ py_str m_1d +:+ "% | X-class: " +:+ py_str x_1d
      +:+ "%" +:+ nl +:+
      "**Tomorrow (2 day):** M-class: " +:+ py_str m_2d +:+ "% | X-class: " +:+ py_str x_2d
      +:+ "%" +:+ nl +:+
      "**Day 3:** M-class: " +:+ py_str m_3d +:+ "% | X-class: " +:+ py_str x_3d +:+ "%").

(** One turn of [for alert in today_alerts[:5]]: the line it appends. *)
Definition alert_line (w : Feed) (alert : json) : result string :=
  message_type ← json_get alert "message_type";
  type_field ← json_get_default alert "type" (PStr "Alert");
  let alert_type := py_or message_type type_field in
  issue_datetime ← json_get alert "issue_datetime";
  time_tag ← json_get_default alert "time_tag" (PStr "");
  let issued := format_time_est w (PStr (py_str (py_or issue_datetime time_tag))) in
  Ok ("• **" +:+ py_str alert_type +:+ "** - " +:+ issued +:+ nl).

Fixpoint alert_lines (w : Feed) (alerts : list json) : result string :=
  match alerts with
  | [] => Ok EmptyString
  | alert :: rest =>
      line ← alert_line w alert;
      more ← alert_lines w rest;
      Ok (line +:+ more)
  end.

(** [build_daily_summary_embed(date_est)]; [date_display] is
    [date_est.strftime("%B %d, %Y")], which the clock record does not
    hold. *)
Definition build_daily_summary_embed (w : Feed) (date_est : Clock) (date_display : string) :
    result_more Embed :=
  let date_str := date_str date_est in
  forecast_data ← listed (fetch_flare_forecast w);
  today_forecast ←
    match forecast_data with
    | [] => Returns (JAtom PNone)
    | first :: _ =>
        found ← find_today_forecast date_str forecast_data;
        Returns (if negb (json_truthy found) then first else found)
    end;
  all_alerts ← listed (fetch_alerts w 20);
  today_alerts ← listed (today_alerts_loop date_str all_alerts);
  latest_flare ← listed (fetch_latest_flare w);
  today_flare ← listed
    (if json_truthy latest_flare then
       max_time ← json_get latest_flare "max_time";
       time_tag ← json_get latest_flare "time_tag";
       begin_time ← json_get latest_flare "begin_time";
       let flare_time := py_or (py_or max_time time_tag) begin_time in
       Ok (if dated_today date_str flare_time then latest_flare else JAtom PNone)
     else Ok (JAtom PNone));
  forecast_field ← listed
    (if json_truthy today_forecast then
       text ← forecast_text today_forecast;
       Ok ("📈 Forecast Probabilities", text, false)
     else Ok ("📈 Forecast Probabilities", "No forecast data available", false));
  flare_field ← listed
    (if json_truthy today_flare then
       max_class ← json_get today_flare "max_class";
       current_class ← json_get_default today_flare "current_class" (PStr "Unknown");
       let flare_class := py_or max_class current_class in
       max_time ← json_get today_flare "max_time";
       time_tag ← json_get_default today_flare "time_tag" (PStr "");
       let flare_time := format_time_est w (py_or max_time time_tag) in
       '(class_letter, _) ← parse_flare_class flare_class;
       let flare_emoji :=
         if letter_is class_letter "X" then "🚨"
         else if letter_is class_letter "M" then "⚠️"
         else "⚡" in
       Ok (flare_emoji +:+ " Today's Flare Event",
           "**Class:** " +:+ py_str flare_class +:+ nl +:+ "**Peak Time:** " +:+ flare_time,
           false)
     else Ok ("⚡ Today's Flare Event", "No significant flares detected today", false));
  alerts_field ← listed
    (if negb (bool_decide (today_alerts = [])) then
       alert_text ← alert_lines w (take 5 today_alerts);
       let alert_text :=
         if (5 <? length today_alerts)%nat
         then alert_text +:+ nl +:+ "*...and " +:+ pretty (length today_alerts - 5)%nat
              +:+ " more*"
         else alert_text in
       Ok ("📢 Today's Alerts", alert_text, false)
     else Ok ("📢 Today's Alerts", "No alerts issued today", false));
  now ← listed (utcnow_iso_with_est w);
  Returns
    {| title := "📊 Daily Solar Flare Summary - " +:+ date_display;
       description := Some "Summary of today's solar flare activity and forecast";
       colour := Rgb 0x5865F2;
       fields := [forecast_field; flare_field; alerts_field];
       image := None;
       footer := "SWPC • Daily Summary • " +:+ now |}.

End DiscordDigest.


(** * Vocabulary of the statements *)

(** Every character of [s] is a digit. *)
Fixpoint all_digits (s : string) : bool :=
  match s with
  | EmptyString => true
  | String c s' => is_digit c && all_digits s'
  end.

(** [s] is empty or starts with a character that is not a digit. *)
Definition starts_nondigit (s : string) : Prop :=
  match s with
  | EmptyString => True
  | String c _ => is_digit c = false
  end.

(** A class string is recognised when, in upper case, it starts with one of
    the four class letters followed by a digit. *)
Definition recognised (s : string) : Prop :=
  ∃ c d rest, upper s = String c (String d rest) ∧ is_class_letter c = true ∧ is_digit d = true.

(** The three outcomes of [http.get_json] that carry no data: an exception
    (transport, status, timeout, decoding), a payload that is not a list,
    an empty list. *)
Definition no_data_outcome (r : result json) : Prop :=
  (∃ e, r = Raise e) ∨ (∃ d, r = Ok d ∧ ∀ l, d ≠ JList l) ∨ r = Ok (JList []).

(** [flare.get("max_class") or flare.get("current_class")] *)
Definition flare_class_of (flare : gmap string pyval) : pyval :=
  py_or (dict_get flare "max_class") (dict_get flare "current_class").

(** [flare.get("max_time") or flare.get("time_tag") or flare.get("begin_time")] *)
Definition flare_time_of (flare : gmap string pyval) : pyval :=
  py_or (py_or (dict_get flare "max_time") (dict_get flare "time_tag"))
        (dict_get flare "begin_time").

(** The deduplication id the poll task derives from a record. *)
Definition flare_id_of (flare : gmap string pyval) : string :=
  make_flare_id (flare_time_of flare) (flare_class_of flare).

(** The record passes [is_m_or_x_class(flare_class or "")]. *)
Definition qualifies (flare : gmap string pyval) : Prop :=
  is_m_or_x_class (py_or (flare_class_of flare) (PStr "")) = Ok true.

(** The call raised. *)
Definition is_Raise {A} (r : result A) : bool :=
  match r with
  | Raise _ => true
  | Ok _ => false
  end.

Module DiscordSpec.
Import Discord.

(** Destinations a send is attempted for: the cache gives a text channel
    or a thread. *)
Definition deliverable (env : Env) (ch_id : Z) : bool :=
  is_text_or_thread (get_channel env ch_id).

(** A send to the destination is attempted and raises. *)
Definition send_fails (env : Env) (embed : Embed) (ch_id : Z) : bool :=
  deliverable env ch_id && is_Raise (channel_send env ch_id embed).

(** The log of a fan-out over [l]: one send for each deliverable id. *)
Definition fanout_log (env : Env) (embed : Embed) (l : list Z) : list event :=
  (λ ch_id, EvSend ch_id embed (channel_send env ch_id embed)) <$> List.filter (deliverable env) l.

(** The state a new qualifying record leaves before the message is built. *)
Definition accepted (flare : gmap string pyval) (s : FlareBot) : FlareBot :=
  set_last_flare_time (flare_time_of flare)
    (set_seen_flare_ids (λ ids, {[flare_id_of flare]} ∪ ids) s).

(** How many sends a log holds for one destination. *)
Definition sends_to (ch_id : Z) (log : list event) : nat :=
  length (List.filter (λ p, bool_decide (p.1 = ch_id)) (sends log)).

End DiscordSpec.

Module DiscordDailySpec.
Import Discord DiscordSpec.

(** The dates a log starts a digest for. *)
Definition marks (log : list event) : list string :=
  omap (λ ev, match ev with EvMark today => Some today | _ => None end) log.

(** The date the clock shows at a tick of the daily task. *)
Definition date_of (a : action) : option string :=
  match a with
  | Daily_summary env =>
      match now_est (feed env) with
      | Ok now => Some (date_str now)
      | Raise _ => None
      end
  | _ => None
  end.

End DiscordDailySpec.

Module SlackSpec.
Import Slack.

(** A send that raises something [_send_message] does not catch. *)
Definition escapes (r : result unit) : bool :=
  match r with
  | Raise e => negb (is_SlackApiError e)
  | Ok _ => false
  end.

(** The channels of [l] a fan-out reaches: all of them up to the first
    send whose exception leaves [_send_message]. *)
Fixpoint attempts (env : Env) (text : string) (blocks : list block) (l : list string) :
    list string :=
  match l with
  | [] => []
  | c :: l' =>
      c :: (if escapes (chat_postMessage env c text (Some blocks)) then []
            else attempts env text blocks l')
  end.

(** The log of a fan-out over [l]: one post for each channel reached. *)
Definition post_log (env : Env) (text : string) (blocks : list block) (l : list string) :
    list event :=
  (λ c, EvPost c text (Some blocks) (chat_postMessage env c text (Some blocks)))
    <$> attempts env text blocks l.

(** The state a new qualifying record leaves before the message is built. *)
Definition accepted (flare : gmap string pyval) (s : FlareSlackBot) : FlareSlackBot :=
  set_seen_flare_ids (λ ids, {[flare_id_of flare]} ∪ ids) s.

(** How many posts a log holds for one channel. *)
Definition posts_to (c : string) (log : list event) : nat :=
  length (List.filter (λ p, bool_decide (p.1.1 = c)) (posts log)).

(** The dates a log starts a digest for. *)
Definition marks (log : list event) : list string :=
  omap (λ ev, match ev with EvMark today => Some today | _ => None end) log.

(** The date the clock shows at a turn of the daily task. *)
Definition date_of (a : action) : option string :=
  match a with
  | Daily_summary env =>
      match now_est (feed env) with
      | Ok now => Some (date_str now)
      | Raise _ => None
      end
  | _ => None
  end.

(** The fallback texts of the two notifications. *)
Definition flare_text : string := "🚨 New Flare Detected!".
Definition daily_text : string := "📊 Daily Solar Flare Summary".

End SlackSpec.

(** The class string of the record parses to one of the given letters. *)
Definition class_parses_as (flare : gmap string pyval) (letters : list string) : Prop :=
  ∃ l m, parse_flare_class (flare_class_of flare) = Ok (Some l, m) ∧ l ∈ letters.

(** None of the three timestamp fields is in the record. *)
Definition timestampless (flare : gmap string pyval) : Prop :=
  flare !! "max_time" = None ∧ flare !! "time_tag" = None ∧ flare !! "begin_time" = None.

Module CompareSpec.

(** The ids a log accepts, the messages it completes, and the destinations
    whose send raised. *)
Definition discord_accepts (log : list Discord.event) : list string :=
  omap (λ ev, match ev with Discord.EvAccept id => Some id | _ => None end) log.

Definition slack_accepts (log : list Slack.event) : list string :=
  omap (λ ev, match ev with Slack.EvAccept id => Some id | _ => None end) log.

Definition discord_built (log : list Discord.event) : nat :=
  length (omap (λ ev, match ev with Discord.EvBuilt _ => Some tt | _ => None end) log).

Definition slack_built (log : list Slack.event) : nat :=
  length (omap (λ ev, match ev with Slack.EvBuilt _ => Some tt | _ => None end) log).

Definition discord_failed_sends (log : list Discord.event) : list Z :=
  omap (λ ev, match ev with Discord.EvSend ch_id _ (Raise _) => Some ch_id | _ => None end) log.

(** What the two poll tasks have in common on one cycle. *)
Definition poll_agreement (ι : Z → string) (envD : Discord.Env) (envS : Slack.Env)
    (sD : Discord.FlareBot) (sS : Slack.FlareSlackBot) : Prop :=
  let outD := Discord.flare_poll_task envD sD in
  let outS := Slack._flare_poll_turn envS sS in
  discord_accepts (events outD) = slack_accepts (events outS) ∧
  Discord.seen_flare_ids (final_state outD) = Slack.seen_flare_ids (final_state outS) ∧
  discord_built (events outD) = slack_built (events outS) ∧
  ((∀ ch_id, ch_id ∈ Discord.subscribed_flares sD → DiscordSpec.deliverable envD ch_id = true) →
   (∀ c t b, SlackSpec.escapes (Slack.chat_postMessage envS c t b) = false) →
   ∀ ch_id, DiscordSpec.sends_to ch_id (events outD) = SlackSpec.posts_to (ι ch_id) (events outS)) ∧
  Discord.subscribed_flares (final_state outD)
    = Discord.subscribed_flares sD ∖ list_to_set (discord_failed_sends (events outD)) ∧
  Slack.subscribed_channels (final_state outS) = Slack.subscribed_channels sS.

End CompareSpec.

(** [a.get("message") or a.get("summary") or ""] when that is a [str]:
    the text [fetch_alerts] searches. *)
Definition alert_text (a : json) : option string :=
  match a with
  | JDict d =>
      match py_or (py_or (dict_get d "message") (dict_get d "summary")) (PStr "") with
      | PStr s => Some s
      | _ => None
      end
  | _ => None
  end.

(** The text of the alert, in lower case, holds one of the three keywords. *)
Definition mentions_flare (a : json) : bool :=
  match alert_text a with
  | Some s =>
      str_contains "flare" (lower s) || str_contains "x-ray" (lower s)
      || str_contains "xray" (lower s)
  | None => false
  end.

(** What follows the digits of a class string starts no fraction: it is
    empty, or starts with a character that is neither a digit nor a dot, or
    with a dot that no digit follows. *)
Definition no_fraction (tail : string) : Prop :=
  match tail with
  | EmptyString => True
  | String c rest => is_digit c = false ∧ (c = "."%char → starts_nondigit rest)
  end.

Module RunSpec.

(** The action is a subscribe command issued from the Discord channel with
    this id. *)
Definition discord_subscribes (d : Z) (a : Discord.action) : bool :=
  match a with
  | Discord.Subscribe_flares i | Discord.Subscribe_daily i =>
      match Discord.channel i with
      | Some (_, id) => bool_decide (id = d)
      | None => false
      end
  | _ => false
  end.

(** The action is a command issued from this Slack channel. *)
Definition slack_command_from (c : string) (a : Slack.action) : bool :=
  match a with
  | Slack.Subscribe_flares _ c' | Slack.Unsubscribe_flares _ c'
  | Slack.Subscribe_daily _ c' | Slack.Unsubscribe_daily _ c' => bool_decide (c' = c)
  | _ => false
  end.

End RunSpec.

(** A truthy value that is not a string: [.upper()] and [.lower()] raise
    on it. *)
Definition not_text (v : pyval) : bool :=
  match v with
  | PStr _ => false
  | PNone => false
  | PBool b => b
  | PInt n => negb (n =? 0)%Z
  end.

(** The class a formatter reads off a record,
    [flare.get("max_class") or flare.get("current_class", "Unknown")], is a
    truthy value that is not a string. *)
Definition class_not_text (r : gmap string pyval) : bool :=
  not_text (py_or (dict_get r "max_class")
                  (dict_get_default r "current_class" (PStr "Unknown"))).

(** The text [format_alert_embed] shows:
    [a.get("message") or a.get("summary") or a.get("product_text") or "(no text)"]. *)
Definition alert_message (d : gmap string pyval) : pyval :=
  py_or (py_or (py_or (dict_get d "message") (dict_get d "summary"))
               (dict_get d "product_text"))
        (PStr "(no text)").

(** The address [get_sdo_aia_image] answers with. *)
Definition latest_image_url (wavelength : Z) : string :=
  "https://sdo.gsfc.nasa.gov/assets/img/latest/latest_" +:+ pretty wavelength +:+ ".jpg".

Module DigestSpec.

(** A forecast entry the digest can read: a record whose date is a string
    or missing. *)
Definition dated_entry (day_data : json) : Prop :=
  ∃ d s, day_data = JDict d ∧ dict_get_default d "date" (PStr "") = PStr s.

(** The entry is a record whose date, cut at the first "T", is the given
    date. *)
Definition forecast_for (date_str : string) (day_data : json) : bool :=
  match day_data with
  | JDict d =>
      match dict_get_default d "date" (PStr "") with
      | PStr s => String.eqb (if str_contains "T" s then before_T s else s) date_str
      | _ => false
      end
  | _ => false
  end.

(** The alert is a record whose issue time
    ([issue_datetime], else [time_tag], else [timestamp]) holds a "T" and
    shows the given date before it. *)
Definition issued_on (date_str : string) (alert : json) : bool :=
  match alert with
  | JDict d =>
      DiscordDigest.dated_today date_str
        (py_or (py_or (dict_get d "issue_datetime") (dict_get d "time_tag"))
               (dict_get d "timestamp"))
  | _ => false
  end.

(** The latest flare of the feed is a record whose time holds a "T" and
    shows the given date before it. *)
Definition flare_on (w : Feed) (date_str : string) : bool :=
  match fetch_latest_flare w with
  | Ok (JDict r) => DiscordDigest.dated_today date_str (flare_time_of r)
  | _ => false
  end.

End DigestSpec.

(** * Worked data *)

(** The X2.5 flare of the first end-to-end scenario, and a feed that
    returns it. *)
Definition example_flare : gmap string pyval :=
  {[ "max_class" := PStr "X2.5";
     "max_time" := PStr "2025-01-10T14:32:00Z";
     "satellite" := PStr "16" ]}.

Definition example_feed : Feed :=
  {| http_get_json := λ url,
       if String.eqb url ENDPOINTS_flare_latest then Ok (JList [JDict example_flare])
       else Raise ClientError;
     convert_str_to_est := λ s, s +:+ " (UTC)";
     utcnow_iso_with_est := Ok "2025-01-10 14:33 UTC / 09:33 EST";
     now_est := Ok {| hour := 9; minute := 33; date_str := "2025-01-10" |} |}.

(** A Discord bot with channel 7 subscribed, once with the channel in the
    cache and once without it. *)
Definition example_discord_bot : Discord.FlareBot :=
  Discord.set_subscribed_flares (λ _, {[7%Z]}) Discord.init.

Definition example_discord_env : Discord.Env :=
  {| Discord.feed := example_feed;
     Discord.get_channel := λ _, Some Discord.TextChannel;
     Discord.channel_send := λ _ _, Ok tt;
     Discord.build_daily_summary_embed := λ _, Raise ClientError |}.

Definition example_discord_env_uncached : Discord.Env :=
  {| Discord.feed := example_feed;
     Discord.get_channel := λ _, None;
     Discord.channel_send := λ _ _, Ok tt;
     Discord.build_daily_summary_embed := λ _, Raise ClientError |}.

Definition example_slack_bot : Slack.FlareSlackBot :=
  Slack.set_subscribed_channels (λ _, {["C7"]}) Slack.init.

Definition example_slack_env : Slack.Env :=
  {| Slack.feed := example_feed;
     Slack.chat_postMessage := λ _ _ _, Ok tt;
     Slack._build_daily_summary_blocks := λ _, Raise ClientError |}.

(** The feed of the worked example on a host whose time-zone database lacks
    America/New_York: [utcnow_iso_with_est] raises. *)
Definition example_feed_no_zone : Feed :=
  {| http_get_json := http_get_json example_feed;
     convert_str_to_est := convert_str_to_est example_feed;
     utcnow_iso_with_est := Raise ZoneInfoNotFoundError;
     now_est := Raise ZoneInfoNotFoundError |}.

Definition example_discord_env_no_zone : Discord.Env :=
  {| Discord.feed := example_feed_no_zone;
     Discord.get_channel := λ _, Some Discord.TextChannel;
     Discord.channel_send := λ _ _, Ok tt;
     Discord.build_daily_summary_embed := λ _, Raise ZoneInfoNotFoundError |}.

(** The X2.5 flare of the worked example with its timestamp removed. *)
Definition example_flare_timestampless : gmap string pyval :=
  {[ "max_class" := PStr "X2.5"; "satellite" := PStr "16" ]}.

Definition example_feed_timestampless : Feed :=
  {| http_get_json := λ url,
       if String.eqb url ENDPOINTS_flare_latest
       then Ok (JList [JDict example_flare_timestampless])
       else Raise ClientError;
     convert_str_to_est := convert_str_to_est example_feed;
     utcnow_iso_with_est := utcnow_iso_with_est example_feed;
     now_est := now_est example_feed |}.

Definition example_discord_env_timestampless : Discord.Env :=
  {| Discord.feed := example_feed_timestampless;
     Discord.get_channel := λ _, Some Discord.TextChannel;
     Discord.channel_send := λ _ _, Ok tt;
     Discord.build_daily_summary_embed := λ _, Raise ClientError |}.

Definition example_slack_env_timestampless : Slack.Env :=
  {| Slack.feed := example_feed_timestampless;
     Slack.chat_postMessage := λ _ _ _, Ok tt;
     Slack._build_daily_summary_blocks := λ _, Raise ClientError |}.

Definition example_discord_env_timestampless_uncached : Discord.Env :=
  {| Discord.feed := example_feed_timestampless;
     Discord.get_channel := λ _, None;
     Discord.channel_send := λ _ _, Ok tt;
     Discord.build_daily_summary_embed := λ _, Raise ClientError |}.

(** Two Slack channels subscribed while the Web API cannot be reached:
    [chat_postMessage] raises [URLError], which is not a [SlackApiError]. *)
Definition example_slack_bot_two : Slack.FlareSlackBot :=
  Slack.set_subscribed_channels (λ _, {["C7"; "C8"]}) Slack.init.

Definition example_slack_env_unreachable : Slack.Env :=
  {| Slack.feed := example_feed;
     Slack.chat_postMessage := λ _ _ _, Raise URLError;
     Slack._build_daily_summary_blocks := λ _, Raise ClientError |}.

(** The same on Discord: two channels subscribed, every send refused. *)
Definition example_discord_bot_two : Discord.FlareBot :=
  Discord.set_subscribed_flares (λ _, {[7%Z; 8%Z]}) Discord.init.

Definition example_discord_env_refused : Discord.Env :=
  {| Discord.feed := example_feed;
     Discord.get_channel := λ _, Some Discord.TextChannel;
     Discord.channel_send := λ _ _, Raise HTTPException;
     Discord.build_daily_summary_embed := λ _, Raise ClientError |}.

Definition example_clock_13 : Clock := {| hour := 13; minute := 2; date_str := "2025-01-10" |}.
Definition example_clock_17 : Clock := {| hour := 17; minute := 2; date_str := "2025-01-10" |}.

Definition example_feed_at (now : Clock) : Feed :=
  {| http_get_json := http_get_json example_feed;
     convert_str_to_est := convert_str_to_est example_feed;
     utcnow_iso_with_est := utcnow_iso_with_est example_feed;
     now_est := Ok now |}.

Definition example_discord_env_at (now : Clock) : Discord.Env :=
  {| Discord.feed := example_feed_at now;
     Discord.get_channel := λ _, Some Discord.TextChannel;
     Discord.channel_send := λ _ _, Raise HTTPException;
     Discord.build_daily_summary_embed := λ _, Raise ClientError |}.

Definition example_slack_env_at (now : Clock) : Slack.Env :=
  {| Slack.feed := example_feed_at now;
     Slack.chat_postMessage := λ _ _ _, Raise SlackApiError;
     Slack._build_daily_summary_blocks := λ _, Ok [] |}.

Definition example_discord_bot_daily : Discord.FlareBot :=
  Discord.set_subscribed_daily (λ _, {[7%Z]}) Discord.init.

Definition example_slack_bot_daily : Slack.FlareSlackBot :=
  Slack.set_subscribed_daily (λ _, {["C7"]}) Slack.init.

Definition example_clock_13_next : Clock :=
  {| hour := 13; minute := 4; date_str := "2025-01-11" |}.
Definition example_clock_17_next : Clock :=
  {| hour := 17; minute := 4; date_str := "2025-01-11" |}.

(** One destination subscribed on each side, and a platform that refuses
    the send: Discord raises [HTTPException], Slack [SlackApiError]. *)
Definition example_slack_env_refused : Slack.Env :=
  {| Slack.feed := example_feed;
     Slack.chat_postMessage := λ _ _ _, Raise SlackApiError;
     Slack._build_daily_summary_blocks := λ _, Raise ClientError |}.

(** * Tactics *)

#[local] Arguments String.append !_ _ / : simpl nomatch.

(** Runs the state-and-log monad of a task one layer down. *)
Ltac pym_unfold :=
  cbv [mbind mret pym_bind pym_ret get_state modify emit lift try_except
       result_bind result_ret final_state events outcome].

Ltac pym_run :=
  cbv [mbind mret pym_bind pym_ret get_state modify emit lift try_except
       result_bind result_ret final_state events outcome Exception
       json_get json_get_default json_truthy negb].

(** Settles a closed decidable statement by evaluation. *)
Ltac decide_compute :=
  match goal with
  | |- ?P => apply (bool_decide_unpack P); vm_compute; exact I
  end.

(** * Properties *)

(** ** The flare-class parser *)

Section Parser.

Lemma span_digits_split s ds rest :
  span_digits s = (ds, rest) →
  s = ds +:+ rest ∧ all_digits ds = true ∧ starts_nondigit rest.
Proof.
  revert ds rest. induction s as [|c s IH]; intros ds rest; simpl.
  - intros [= <- <-]. done.
  - destruct (is_digit c) eqn:Hc.
    + destruct (span_digits s) as [ds' rest'] eqn:Hs.
      intros [= <- <-]. destruct (IH _ _ eq_refl) as (-> & Hd & Hr).
      simpl. rewrite Hc, Hd. done.
    + intros [= <- <-]. simpl. done.
Qed.

Lemma span_digits_app ds rest :
  all_digits ds = true → starts_nondigit rest → span_digits (ds +:+ rest) = (ds, rest).
Proof.
  induction ds as [|c ds IH]; simpl; intros Hd Hr.
  - destruct rest as [|c rest]; [done|]. simpl in Hr |- *. by rewrite Hr.
  - apply andb_prop in Hd as [Hc Hd]. rewrite Hc, (IH Hd Hr). done.
Qed.

Lemma span_digits_all ds : all_digits ds = true → span_digits ds = (ds, EmptyString).
Proof.
  intros Hd. pose proof (span_digits_app ds EmptyString Hd I) as H.
  assert (ds +:+ EmptyString = ds) as Heq.
  { clear. induction ds as [|c ds IH]; simpl; [done|]. by rewrite IH. }
  by rewrite Heq in H.
Qed.

Lemma prefix_app a t : String.prefix a (a +:+ t) = true.
Proof.
  induction a as [|c a IH]; simpl; [by destruct t|].
  destruct (ascii_dec c c); [done|congruence].
Qed.

Lemma prefix_app_app a b t : String.prefix (a +:+ b) (a +:+ b +:+ t) = true.
Proof.
  induction a as [|c a IH]; simpl; [apply prefix_app|].
  destruct (ascii_dec c c); [done|congruence].
Qed.

Lemma Qle_0_decimal (n : N) (d : positive) : (0 <= Z.of_N n # d)%Q.
Proof. unfold Qle. simpl. lia. Qed.

(** What [\d+(?:\.\d+)?] matches is a literal [float] accepts, it denotes a
    number that is not negative, and it is a prefix of the text. *)
Lemma match_number_float s g2 :
  match_number s = Some g2 →
  ∃ q, py_float g2 = Ok q ∧ (0 <= q)%Q ∧ String.prefix g2 s = true.
Proof.
  unfold match_number. destruct (span_digits s) as [ip rest] eqn:Hs.
  apply span_digits_split in Hs as (-> & Hip & Hrest).
  destruct ip as [|c ip]; [done|].
  assert (Hfl : py_float (String c ip) = Ok (inject_Z (Z.of_N (digits_value 0 (String c ip))))).
  { unfold py_float. rewrite (span_digits_all _ Hip). done. }
  assert (Hplain : Some (String c ip) = Some g2 →
    ∃ q, py_float g2 = Ok q ∧ (0 <= q)%Q ∧ String.prefix g2 (String c ip +:+ rest) = true).
  { intros [= <-]. eexists. split; [exact Hfl|]. split; [apply Qle_0_decimal|apply prefix_app]. }
  destruct rest as [|d rest]; [done|].
  destruct (decide (d = "."%char)) as [->|Hd]; cycle 1.
  { revert Hplain. clear -Hd.
    destruct d as [[] [] [] [] [] [] [] []]; try done. }
  destruct (span_digits rest) as [fp tl] eqn:Hf.
  apply span_digits_split in Hf as (-> & Hfp & Htl).
  destruct fp as [|f fp]; [done|].
  intros [= <-]. eexists. split; [|split].
  - unfold py_float.
    pose proof (span_digits_app (String c ip) (String "."%char (String f fp)) Hip eq_refl) as E.
    simpl in E |- *. rewrite E. cbv beta iota.
    rewrite (span_digits_all _ Hfp). reflexivity.
  - apply Qle_0_decimal.
  - apply (prefix_app_app (String c ip) (String "."%char (String f fp)) tl).
Qed.

End Parser.

Section Classifier.

Lemma match_number_none s :
  match_number s = None ↔ starts_nondigit s.
Proof.
  unfold match_number. destruct s as [|d s]; simpl; [done|].
  destruct (is_digit d) eqn:Hd; [|done].
  destruct (span_digits s) as [ds rest].
  split; [|done]. destruct rest as [|e rest]; [done|].
  destruct (decide (e = "."%char)) as [->|He].
  - destruct (span_digits rest) as [[] ?]; done.
  - clear -He. destruct e as [[] [] [] [] [] [] [] []]; done.
Qed.

Lemma is_class_letter_cases c :
  is_class_letter c = true → String c EmptyString ∈ ["B"; "C"; "M"; "X"].
Proof.
  unfold is_class_letter. intros H.
  repeat (apply orb_prop in H as [H|H]); apply Ascii.eqb_eq in H as ->; set_solver.
Qed.

Lemma re_match_flare_none u :
  re_match_flare u = None ↔
  ¬ ∃ c d rest, u = String c (String d rest) ∧ is_class_letter c = true ∧ is_digit d = true.
Proof.
  destruct u as [|c u]; simpl.
  { split; [|done]. intros _ (? & ? & ? & ? & _). done. }
  destruct (is_class_letter c) eqn:Hc; cycle 1.
  { split; [|done]. intros _ (? & ? & ? & [= <- _] & ? & _). congruence. }
  destruct (match_number u) as [g2|] eqn:Hm; simpl.
  - split; [done|]. intros Hn. exfalso. apply Hn.
    assert (¬ starts_nondigit u) as Hs by (rewrite <- match_number_none; congruence).
    destruct u as [|d u]; [by destruct Hs|]. simpl in Hs.
    exists c, d, u. destruct (is_digit d); done.
  - split; [|done]. intros _ (? & d & rest & [= <- ->] & _ & Hd).
    apply match_number_none in Hm. simpl in Hm. congruence.
Qed.

Lemma parse_flare_class_str s :
  (¬ recognised s ∧ parse_flare_class (PStr s) = Ok (None, None)) ∨
  (∃ l q g2, recognised s ∧ parse_flare_class (PStr s) = Ok (Some l, Some q) ∧
     l ∈ ["B"; "C"; "M"; "X"] ∧ (0 <= q)%Q ∧
     String.prefix (l +:+ g2) (upper s) = true ∧ py_float g2 = Ok q).
Proof.
  unfold parse_flare_class, recognised. simpl.
  destruct (re_match_flare (upper s)) as [[g1 g2]|] eqn:Hm.
  - right.
    destruct (upper s) as [|c u] eqn:Hu; [done|]. simpl in Hm.
    destruct (is_class_letter c) eqn:Hc; [|done].
    destruct (match_number u) as [g|] eqn:Hn; [|done]. simpl in Hm.
    injection Hm as <- <-.
    assert (¬ starts_nondigit u) as Hs by (rewrite <- match_number_none; congruence).
    destruct u as [|d u]; [by destruct Hs|]. simpl in Hs.
    destruct (match_number_float _ _ Hn) as (q & Hq & Hnn & Hp).
    exists (String c EmptyString), q, g.
    destruct s as [|a s]; [done|]. simpl. rewrite Hq. simpl.
    repeat split; try done.
    + exists c, d, u. destruct (is_digit d); done.
    + by apply is_class_letter_cases.
    + simpl. destruct (ascii_dec c c); [done|congruence].
  - left. apply re_match_flare_none in Hm. split; [done|].
    by destruct s.
Qed.

End Classifier.

(** C7.  For every class string, the empty one included, [parse_flare_class]
    returns without raising; the answer is either the none variant, exactly
    when the string is not recognised, or one of the letters B, C, M, X
    paired with a magnitude that is not negative, the letter and the number
    being read off the front of the upper-cased string. *)
Theorem parse_flare_class_total (s : string) :
  ∃ class_letter magnitude,
    parse_flare_class (PStr s) = Ok (class_letter, magnitude) ∧
    ((¬ recognised s ∧ class_letter = None ∧ magnitude = None) ∨
     (∃ l q g2, recognised s ∧ class_letter = Some l ∧ magnitude = Some q ∧
        l ∈ ["B"; "C"; "M"; "X"] ∧ (0 <= q)%Q ∧
        String.prefix (l +:+ g2) (upper s) = true ∧ py_float g2 = Ok q)).
Proof.
  destruct (parse_flare_class_str s) as [[Hn E]|(l & q & g2 & Hr & E & H)].
  - exists None, None. split; [done|]. by left.
  - exists (Some l), (Some q). split; [done|]. right. exists l, q, g2. naive_solver.
Qed.

(** C8.  The membership test behind [is_m_or_x_class] is true for M and X,
    false for B, C and the none variant, and on every class string
    [is_m_or_x_class] answers true exactly when the parsed letter is M or X. *)
Theorem is_m_or_x_class_iff :
  letter_in_M_X (Some "B") = false ∧ letter_in_M_X (Some "C") = false ∧
  letter_in_M_X (Some "M") = true ∧ letter_in_M_X (Some "X") = true ∧
  letter_in_M_X None = false ∧
  (∀ class_letter, letter_in_M_X class_letter = true ↔
     class_letter = Some "M" ∨ class_letter = Some "X") ∧
  (∀ s, ∃ class_letter magnitude,
     parse_flare_class (PStr s) = Ok (class_letter, magnitude) ∧
     is_m_or_x_class (PStr s) =
       Ok (bool_decide (class_letter = Some "M" ∨ class_letter = Some "X"))).
Proof.
  assert (Hiff : ∀ class_letter, letter_in_M_X class_letter = true ↔
            class_letter = Some "M" ∨ class_letter = Some "X").
  { intros [l|]; simpl; [|naive_solver].
    rewrite orb_true_iff, !String.eqb_eq. naive_solver. }
  repeat split; try done; try apply Hiff.
  intros s.
  assert (∃ l m, parse_flare_class (PStr s) = Ok (l, m)) as (l & m & E).
  { destruct (parse_flare_class_str s) as [[_ E]|(l & q & _ & _ & E & _)]; eauto. }
  exists l, m. split; [done|]. unfold is_m_or_x_class. rewrite E. simpl. f_equal.
  destruct (letter_in_M_X l) eqn:Hl.
  - symmetry. apply bool_decide_eq_true. by apply Hiff.
  - symmetry. apply bool_decide_eq_false. rewrite <- Hiff. congruence.
Qed.

(** ** The feed fetchers *)

Section Fetch.

Lemma try_result_Exception_Ok {A} (m : result A) (dflt : A) :
  ∃ a, try_result m Exception (λ _, Ok dflt) = Ok a.
Proof. destruct m; simpl; eauto. Qed.

End Fetch.

(** C6.  Each fetcher returns normally whatever [http.get_json] does, and on
    an exception, a payload that is not a list or an empty list it returns
    its no-data value: [None] for the latest flare, the empty list for the
    forecast and for the alerts. *)
Theorem fetch_no_data (w : Feed) (limit : Z) :
  (∃ flare, fetch_latest_flare w = Ok flare) ∧
  (∃ forecast, fetch_flare_forecast w = Ok forecast) ∧
  (∃ alerts, fetch_alerts w limit = Ok alerts) ∧
  (no_data_outcome (http_get_json w ENDPOINTS_flare_latest) →
     fetch_latest_flare w = Ok (JAtom PNone)) ∧
  (no_data_outcome (http_get_json w ENDPOINTS_flare_forecast) →
     fetch_flare_forecast w = Ok []) ∧
  (no_data_outcome (http_get_json w ENDPOINTS_alerts) →
     fetch_alerts w limit = Ok []).
Proof.
  unfold fetch_latest_flare, fetch_flare_forecast, fetch_alerts.
  split; [apply try_result_Exception_Ok|].
  split; [apply try_result_Exception_Ok|].
  split; [apply try_result_Exception_Ok|].
  unfold no_data_outcome.
  split; [|split]; (intros [[e ->]|[(d & -> & Hd)| ->]]; simpl).
  all: try done.
  4: { unfold slice_from. by rewrite drop_nil. }
  all: destruct d as [v|d|l]; try done; by destruct (Hd l).
Qed.

Lemma fetch_no_data_witness :
  let w := {| http_get_json := λ _, Raise ClientError;
              convert_str_to_est := λ s, s;
              utcnow_iso_with_est := Ok "2025-01-10 14:35 UTC / 09:35 EST";
              now_est := Raise ZoneInfoNotFoundError |} in
  fetch_latest_flare w = Ok (JAtom PNone) ∧
  fetch_flare_forecast w = Ok [] ∧
  fetch_alerts w 5 = Ok [].
Proof.
  intros w. destruct (fetch_no_data w 5) as (_ & _ & _ & H1 & H2 & H3).
  split; [apply H1|split; [apply H2|apply H3]]; left; by exists ClientError.
Defined.

(** ** The subscription commands *)

Section Commands.

Lemma discord_set_subscribed_flares_id (s : Discord.FlareBot) (f : gset Z → gset Z) :
  f (Discord.subscribed_flares s) = Discord.subscribed_flares s →
  Discord.set_subscribed_flares f s = s.
Proof. destruct s. unfold Discord.set_subscribed_flares. simpl. by intros ->. Qed.

Lemma slack_set_subscribed_channels_id (s : Slack.FlareSlackBot) (f : gset string → gset string) :
  f (Slack.subscribed_channels s) = Slack.subscribed_channels s →
  Slack.set_subscribed_channels f s = s.
Proof. destruct s. unfold Slack.set_subscribed_channels. simpl. by intros ->. Qed.

Lemma slack_send_message_run env c t b (s : Slack.FlareSlackBot) :
  ∃ r, Slack._send_message env c t b s
       = (s, [Slack.EvPost c t b (Slack.chat_postMessage env c t b)], r) ∧
       ((r = Ok tt ∧ ∀ e, Slack.chat_postMessage env c t b = Raise e →
                          is_SlackApiError e = true) ∨
        ∃ e, r = Raise e ∧ Slack.chat_postMessage env c t b = Raise e
             ∧ is_SlackApiError e = false).
Proof.
  unfold Slack._send_message. pym_unfold.
  destruct (Slack.chat_postMessage env c t b) as [[]|e] eqn:E; simpl.
  { eexists. split; [done|]. left. done. }
  destruct (is_SlackApiError e) eqn:He; simpl.
  - eexists. split; [done|]. left. split; [done|]. by intros ? [= <-].
  - eexists. split; [done|]. right. eauto.
Qed.

End Commands.

(** C9.  In both bots, subscribing a destination a second time leaves the
    bot as the first subscription left it, and unsubscribing a destination
    that is not subscribed leaves the bot unchanged and answers that the
    channel is not subscribed. *)
Theorem subscribe_twice_unsubscribe_absent :
  (∀ i (s : Discord.FlareBot),
     final_state (Discord.subscribe_flares_cmd i (final_state (Discord.subscribe_flares_cmd i s)))
     = final_state (Discord.subscribe_flares_cmd i s)) ∧
  (∀ i (s : Discord.FlareBot),
     (∀ c id, Discord.channel i = Some (c, id) → id ∉ Discord.subscribed_flares s) →
     final_state (Discord.unsubscribe_flares_cmd i s) = s ∧
     events (Discord.unsubscribe_flares_cmd i s)
     = [Discord.EvReply "This channel isn't subscribed for flare notifications." true]) ∧
  (∀ env1 env2 c (s : Slack.FlareSlackBot),
     final_state (Slack._cmd_subscribe_flares env2 c
                    (final_state (Slack._cmd_subscribe_flares env1 c s)))
     = final_state (Slack._cmd_subscribe_flares env1 c s)) ∧
  (∀ env c (s : Slack.FlareSlackBot),
     c ∉ Slack.subscribed_channels s →
     final_state (Slack._cmd_unsubscribe_flares env c s) = s ∧
     Slack.posts (events (Slack._cmd_unsubscribe_flares env c s))
     = [(c, "This channel isn't subscribed for flare notifications.", None)]).
Proof.
  split; [|split; [|split]].
  - intros [[[[] id]|]] s; try done;
      unfold Discord.subscribe_flares_cmd; pym_unfold; simpl;
      apply discord_set_subscribed_flares_id; simpl; set_solver.
  - intros [[[[] id]|]] s Hn; try done;
      unfold Discord.unsubscribe_flares_cmd; pym_unfold; simpl;
      try rewrite bool_decide_eq_false_2 by eauto; done.
  - intros env1 env2 c s. unfold Slack._cmd_subscribe_flares. pym_unfold.
    destruct (slack_send_message_run env1 c
      "✅ Subscribed: I'll notify you when M- or X-class flares are detected!" None
      (Slack.set_subscribed_channels (λ subs, {[c]} ∪ subs) s)) as (r1 & -> & _).
    simpl.
    destruct (slack_send_message_run env2 c
      "✅ Subscribed: I'll notify you when M- or X-class flares are detected!" None
      (Slack.set_subscribed_channels (λ subs, {[c]} ∪ subs)
         (Slack.set_subscribed_channels (λ subs, {[c]} ∪ subs) s))) as (r2 & -> & _).
    simpl. apply slack_set_subscribed_channels_id. simpl. set_solver.
  - intros env c s Hn. unfold Slack._cmd_unsubscribe_flares. pym_unfold.
    rewrite bool_decide_eq_false_2 by done.
    destruct (slack_send_message_run env c
      "This channel isn't subscribed for flare notifications." None s) as (r & -> & _).
    done.
Qed.

Lemma subscribe_twice_unsubscribe_absent_witness :
  final_state (Discord.unsubscribe_flares_cmd
                 {| Discord.channel := Some (Discord.TextChannel, 42%Z) |} Discord.init)
  = Discord.init ∧
  final_state (Slack._cmd_unsubscribe_flares
                 {| Slack.feed := {| http_get_json := λ _, Raise ClientError;
                                     convert_str_to_est := λ s, s;
                                     utcnow_iso_with_est := Ok "now";
                                     now_est := Raise ZoneInfoNotFoundError |};
                    Slack.chat_postMessage := λ _ _ _, Ok tt;
                    Slack._build_daily_summary_blocks := λ _, Ok [] |}
                 "C042" Slack.init)
  = Slack.init.
Proof.
  destruct subscribe_twice_unsubscribe_absent as (_ & Hd & _ & Hs).
  split.
  - apply Hd. intros c id [= <- <-]. simpl. set_solver.
  - apply Hs. simpl. set_solver.
Defined.

(** ** The Discord poll task *)

Section DiscordPoll.
Import Discord DiscordSpec.

Lemma flare_fanout env embed l (s : FlareBot) :
  for_each l (flare_poll_send env embed) s =
    (set_subscribed_flares
       (λ subs, subs ∖ list_to_set (List.filter (send_fails env embed) l)) s,
     fanout_log env embed l, Ok tt).
Proof.
  revert s. induction l as [|a l IH]; intros s.
  - simpl. pym_run. f_equal. f_equal. destruct s; unfold set_subscribed_flares; simpl.
    f_equal. set_solver.
  - simpl. pym_run. unfold flare_poll_send at 1, fanout_log. simpl.
    unfold send_fails at 1. unfold deliverable at 1 2.
    destruct (is_text_or_thread (get_channel env a)) eqn:Hd; simpl.
    + pym_run. destruct (channel_send env a embed) as [[]|e] eqn:Hs; simpl.
      * rewrite IH. simpl. done.
      * rewrite IH. simpl. f_equal. f_equal.
        destruct s; unfold set_subscribed_flares; simpl. f_equal.
        unfold send_fails. set_solver.
    + pym_run. rewrite IH. done.
Qed.

End DiscordPoll.

Section DiscordPollTask.
Import Discord DiscordSpec.

Lemma fetch_latest_flare_first w r rest :
  http_get_json w ENDPOINTS_flare_latest = Ok (JList (JDict r :: rest)) →
  fetch_latest_flare w = Ok (JDict r).
Proof. unfold fetch_latest_flare. by intros ->. Qed.

Lemma fetch_latest_flare_Ok w : ∃ flare, fetch_latest_flare w = Ok flare.
Proof. apply try_result_Exception_Ok. Qed.

Lemma qualifies_class_str r :
  qualifies r → ∃ cls, flare_class_of r = PStr cls ∧ truthy (PStr cls) = true.
Proof.
  unfold qualifies. destruct (flare_class_of r) as [|b|n|cls].
  - done.
  - by destruct b.
  - unfold py_or, is_m_or_x_class, parse_flare_class.
    cbv [truthy]. destruct (n =? 0)%Z eqn:E; simpl; rewrite ?E; simpl; intros [=].
  - unfold py_or. destruct (truthy (PStr cls)) eqn:Ht; [eauto|done].
Qed.

Lemma qualifies_nonempty r : qualifies r → r ≠ ∅.
Proof.
  intros (cls & Hc & Ht)%qualifies_class_str ->.
  unfold flare_class_of, dict_get in Hc. rewrite !lookup_empty in Hc. done.
Qed.

Lemma qualifies_py_or r :
  qualifies r → py_or (flare_class_of r) (PStr "") = flare_class_of r.
Proof.
  intros (cls & Hc & Ht)%qualifies_class_str. unfold py_or at 1. by rewrite Hc, Ht.
Qed.

(** A new qualifying record: the id is accepted, then the message is built,
    then it goes to every deliverable subscriber. *)
Lemma flare_poll_task_new env (s : FlareBot) r :
  subscribed_flares s ≠ ∅ →
  fetch_latest_flare (feed env) = Ok (JDict r) →
  qualifies r →
  flare_id_of r ∉ seen_flare_ids s →
  flare_poll_task env s =
    match format_flare_embed (feed env) (JDict r) with
    | Ok embed =>
        (set_subscribed_flares
           (λ subs, subs ∖ list_to_set
              (List.filter (send_fails env embed) (elements (subscribed_flares s))))
           (accepted r s),
         EvAccept (flare_id_of r) :: EvBuilt embed
           :: fanout_log env embed (elements (subscribed_flares s)),
         Ok tt)
    | Raise e => (accepted r s, [EvAccept (flare_id_of r)], Ok tt)
    end.
Proof.
  intros Hsub Hfetch Hq Hnew. unfold flare_poll_task. pym_run.
  case_bool_decide; [done|]. rewrite Hfetch. pym_run.
  case_bool_decide; [by destruct (qualifies_nonempty r)|]. pym_run.
  fold (flare_class_of r). unfold qualifies in Hq. rewrite Hq. pym_run.
  fold (flare_time_of r). fold (flare_id_of r).
  case_bool_decide; [done|]. pym_run.
  fold (accepted r s).
  destruct (format_flare_embed (feed env) (JDict r)) as [embed|e]; [|done].
  rewrite flare_fanout. done.
Qed.

(** Every other run does nothing. *)
Lemma flare_poll_task_cases env (s : FlareBot) :
  flare_poll_task env s = (s, [], Ok tt) ∨
  ∃ r, subscribed_flares s ≠ ∅ ∧ fetch_latest_flare (feed env) = Ok (JDict r) ∧
       qualifies r ∧ flare_id_of r ∉ seen_flare_ids s.
Proof.
  destruct (decide (subscribed_flares s = ∅)) as [He|Hne].
  { left. unfold flare_poll_task. pym_run. by case_bool_decide. }
  destruct (fetch_latest_flare_Ok (feed env)) as [flare Hf].
  destruct flare as [v|r|l].
  - left. unfold flare_poll_task. pym_run. case_bool_decide; [done|].
    rewrite Hf. pym_run. by destruct (truthy v).
  - destruct (decide (r = ∅)) as [->|Hr].
    { left. unfold flare_poll_task. pym_run. case_bool_decide; [done|].
      rewrite Hf. pym_run. by case_bool_decide. }
    destruct (is_m_or_x_class (py_or (flare_class_of r) (PStr ""))) as [[]|e] eqn:Hq.
    + destruct (decide (flare_id_of r ∈ seen_flare_ids s)) as [Hin|Hnew].
      * left. unfold flare_poll_task. pym_run. case_bool_decide; [done|].
        rewrite Hf. pym_run. case_bool_decide; [done|]. pym_run.
        fold (flare_class_of r). rewrite Hq. pym_run.
        fold (flare_time_of r). fold (flare_id_of r).
        by case_bool_decide.
      * right. exists r. done.
    + left. unfold flare_poll_task. pym_run. case_bool_decide; [done|].
      rewrite Hf. pym_run. case_bool_decide; [done|]. pym_run.
      fold (flare_class_of r). by rewrite Hq.
    + left. unfold flare_poll_task. pym_run. case_bool_decide; [done|].
      rewrite Hf. pym_run. case_bool_decide; [done|]. pym_run.
      fold (flare_class_of r). by rewrite Hq.
  - left. unfold flare_poll_task. pym_run. case_bool_decide; [done|].
    rewrite Hf. pym_run. by destruct (bool_decide (l = [])).
Qed.

Lemma flare_poll_task_skip env (s : FlareBot) r :
  fetch_latest_flare (feed env) = Ok (JDict r) →
  ¬ qualifies r ∨ flare_id_of r ∈ seen_flare_ids s →
  flare_poll_task env s = (s, [], Ok tt).
Proof.
  intros Hf Hskip. destruct (flare_poll_task_cases env s) as [?|(r' & _ & Hf' & Hq & Hn)]; [done|].
  rewrite Hf in Hf'. injection Hf' as <-. by destruct Hskip.
Qed.

End DiscordPollTask.

Section DiscordDaily.
Import Discord DiscordSpec DiscordDailySpec.

Lemma daily_fanout env embed l (s : FlareBot) :
  for_each l (daily_summary_send env embed) s =
    (set_subscribed_daily
       (λ subs, subs ∖ list_to_set (List.filter (send_fails env embed) l)) s,
     fanout_log env embed l, Ok tt).
Proof.
  revert s. induction l as [|a l IH]; intros s.
  - simpl. pym_run. f_equal. f_equal. destruct s; unfold set_subscribed_daily; simpl.
    f_equal. set_solver.
  - simpl. pym_run. unfold daily_summary_send at 1, fanout_log. simpl.
    unfold send_fails at 1. unfold deliverable at 1 2.
    destruct (is_text_or_thread (get_channel env a)) eqn:Hd; simpl.
    + pym_run. destruct (channel_send env a embed) as [[]|e] eqn:Hs; simpl.
      * rewrite IH. simpl. done.
      * rewrite IH. simpl. f_equal. f_equal.
        destruct s; unfold set_subscribed_daily; simpl. f_equal.
        unfold send_fails. set_solver.
    + pym_run. rewrite IH. done.
Qed.

Lemma daily_summary_task_fire env (s : FlareBot) now :
  subscribed_daily s ≠ ∅ →
  now_est (feed env) = Ok now →
  in_window now = true →
  _last_daily_date s ≠ Some (date_str now) →
  daily_summary_task env s =
    match build_daily_summary_embed env now with
    | Ok embed =>
        (set_subscribed_daily
           (λ subs, subs ∖ list_to_set
              (List.filter (send_fails env embed) (elements (subscribed_daily s))))
           (set_last_daily_date (Some (date_str now)) s),
         EvMark (date_str now) :: fanout_log env embed (elements (subscribed_daily s)),
         Ok tt)
    | Raise e => (set_last_daily_date (Some (date_str now)) s, [EvMark (date_str now)], Ok tt)
    end.
Proof.
  intros Hsub Hnow Hw Hm. unfold daily_summary_task. pym_run.
  case_bool_decide; [done|]. rewrite Hnow. pym_run. rewrite Hw.
  case_bool_decide; [done|]. pym_run.
  destruct (build_daily_summary_embed env now) as [embed|e]; [|done].
  rewrite daily_fanout. done.
Qed.

Lemma daily_summary_task_cases env (s : FlareBot) :
  daily_summary_task env s = (s, [], Ok tt) ∨
  ∃ now, subscribed_daily s ≠ ∅ ∧ now_est (feed env) = Ok now ∧
         in_window now = true ∧ _last_daily_date s ≠ Some (date_str now).
Proof.
  destruct (decide (subscribed_daily s = ∅)) as [He|Hne].
  { left. unfold daily_summary_task. pym_run. by case_bool_decide. }
  destruct (now_est (feed env)) as [now|e] eqn:Hnow; cycle 1.
  { left. unfold daily_summary_task. pym_run. case_bool_decide; [done|]. by rewrite Hnow. }
  destruct (in_window now) eqn:Hw; cycle 1.
  { left. unfold daily_summary_task. pym_run. case_bool_decide; [done|].
    rewrite Hnow. pym_run. by rewrite Hw. }
  destruct (decide (_last_daily_date s = Some (date_str now))) as [Hm|Hm].
  { left. unfold daily_summary_task. pym_run. case_bool_decide; [done|].
    rewrite Hnow. pym_run. rewrite Hw. by case_bool_decide. }
  right. by exists now.
Qed.

End DiscordDaily.

(** ** Schedules: a list of actions run one after the other *)

Section Run.
Context {S E A : Type} (step : A → PyM S E unit).
Hypothesis step_ok : ∀ a s, outcome (step a s) = Ok tt.

Lemma for_each_cons a l s :
  for_each (a :: l) step s =
    (final_state (for_each l step (final_state (step a s))),
     events (step a s) ++ events (for_each l step (final_state (step a s))),
     outcome (for_each l step (final_state (step a s)))).
Proof.
  simpl. pym_run. pose proof (step_ok a s) as Hok. unfold outcome in Hok.
  destruct (step a s) as [[s1 w1] r1]. simpl in *. subst r1.
  by destruct (for_each l step s1) as [[s2 w2] r2].
Qed.

Lemma run_events_cons a l s :
  events (for_each (a :: l) step s) =
    events (step a s) ++ events (for_each l step (final_state (step a s))).
Proof. by rewrite for_each_cons. Qed.

Lemma run_final_state_cons a l s :
  final_state (for_each (a :: l) step s) =
    final_state (for_each l step (final_state (step a s))).
Proof. by rewrite for_each_cons. Qed.

Lemma run_ok l s : outcome (for_each l step s) = Ok tt.
Proof.
  revert s. induction l as [|a l IH]; intros s; [done|].
  rewrite for_each_cons. apply IH.
Qed.

Lemma run_invariant (P : S → Prop) :
  (∀ a s, P s → P (final_state (step a s))) →
  ∀ l s, P s → P (final_state (for_each l step s)).
Proof.
  intros Hstep l. induction l as [|a l IH]; intros s Hs; [done|].
  rewrite run_final_state_cons. apply IH, Hstep, Hs.
Qed.

(** The once-a-day marker, seen from outside: a step either starts no
    digest and keeps the marker, or starts the digest of the date its
    clock shows, which the marker did not hold, and stores that date. *)
Context (marker : S → option string) (date_of : A → option string)
        (marks : list E → list string).
Hypothesis marks_app : ∀ w1 w2, marks (w1 ++ w2) = marks w1 ++ marks w2.
Hypothesis marks_nil : marks [] = [].
Hypothesis step_mark : ∀ a s,
  (marks (events (step a s)) = [] ∧ marker (final_state (step a s)) = marker s) ∨
  (∃ D, date_of a = Some D ∧ marker s ≠ Some D ∧
        marks (events (step a s)) = [D] ∧ marker (final_state (step a s)) = Some D).

Lemma run_marks_bounded l s :
  StronglySorted String.le (omap date_of l) →
  (∀ m, marker s = Some m → Forall (String.le m) (omap date_of l)) →
  NoDup (marks (events (for_each l step s))) ∧
  (∀ m, marker s = Some m →
     Forall (λ D, String.le m D ∧ D ≠ m) (marks (events (for_each l step s)))).
Proof.
  revert s. induction l as [|a l IH]; intros s Hsort Hlow.
  { change (events (for_each [] step s)) with (@nil E). rewrite marks_nil.
    split; [constructor|]. intros; constructor. }
  rewrite run_events_cons, marks_app.
  destruct (step_mark a s) as [[Hm Hk]|(D & Hd & Hne & Hm & Hk)]; rewrite Hm.
  - simpl. rewrite <- Hk. assert (StronglySorted String.le (omap date_of l)) as Hsort'.
    { simpl in Hsort. destruct (date_of a); [by inversion Hsort|done]. }
    apply IH; [done|]. rewrite Hk. intros m Hmm. specialize (Hlow m Hmm).
    simpl in Hlow. destruct (date_of a); [by inversion Hlow|done].
  - simpl in Hsort, Hlow. rewrite Hd in Hsort, Hlow.
    apply StronglySorted_inv in Hsort as [Hsort HD].
    destruct (IH (final_state (step a s)) Hsort) as [Hnd Hb].
    { rewrite Hk. by intros m [= <-]. }
    specialize (Hb D Hk). split.
    + simpl. constructor; [|done]. intros Hin.
      rewrite Forall_forall in Hb. by destruct (Hb D Hin).
    + intros m Hmm. specialize (Hlow m Hmm). apply Forall_cons_1 in Hlow as [HmD _].
      simpl. constructor.
      * split; [done|]. congruence.
      * eapply Forall_impl; [exact Hb|]. simpl. intros x [Hx Hxn]. split.
        -- by etrans.
        -- intros ->. assert (m = D) as -> by (by apply (anti_symm String.le)). done.
Qed.

(** While every clock that is read shows the date the marker holds, no
    digest starts. *)
Lemma run_marks_same_date l s D :
  marker s = Some D →
  Forall (λ a, date_of a = None ∨ date_of a = Some D) l →
  marks (events (for_each l step s)) = [] ∧
  marker (final_state (for_each l step s)) = Some D.
Proof.
  revert s. induction l as [|a l IH]; intros s Hm Hl.
  { change (events (for_each [] step s)) with (@nil E). by rewrite marks_nil. }
  apply Forall_cons_1 in Hl as [Ha Hl].
  rewrite run_events_cons, run_final_state_cons, marks_app.
  destruct (step_mark a s) as [[Hn Hk]|(D' & Hd & Hne & _)].
  - rewrite Hn. simpl. apply IH; [congruence|done].
  - destruct Ha as [Ha|Ha]; congruence.
Qed.

End Run.

Section DiscordRun.
Import Discord DiscordSpec DiscordDailySpec.

Lemma fanout_log_sends env embed l :
  sends (fanout_log env embed l) = (λ ch_id, (ch_id, embed)) <$> List.filter (deliverable env) l.
Proof.
  unfold fanout_log, sends. induction (List.filter (deliverable env) l) as [|a l' IH]; [done|].
  rewrite !fmap_cons. simpl. f_equal. exact IH.
Qed.

Lemma fanout_log_marks env embed l : marks (fanout_log env embed l) = [].
Proof.
  unfold fanout_log, marks. by induction (List.filter (deliverable env) l).
Qed.

(** What one run of the poll task does to the bot. *)
Lemma flare_poll_task_summary env (s : FlareBot) :
  outcome (flare_poll_task env s) = Ok tt ∧
  seen_flare_ids s ⊆ seen_flare_ids (final_state (flare_poll_task env s)) ∧
  _last_daily_date (final_state (flare_poll_task env s)) = _last_daily_date s ∧
  marks (events (flare_poll_task env s)) = [].
Proof.
  destruct (flare_poll_task_cases env s) as [->|(r & Hs & Hf & Hq & Hn)]; [done|].
  rewrite (flare_poll_task_new env s r) by done.
  destruct (format_flare_embed (feed env) (JDict r)) as [embed|e]; simpl.
  - repeat split; [set_solver|]. unfold marks. simpl. apply fanout_log_marks.
  - repeat split. set_solver.
Qed.

Lemma daily_summary_task_summary env (s : FlareBot) :
  outcome (daily_summary_task env s) = Ok tt ∧
  seen_flare_ids (final_state (daily_summary_task env s)) = seen_flare_ids s ∧
  ((marks (events (daily_summary_task env s)) = [] ∧
    _last_daily_date (final_state (daily_summary_task env s)) = _last_daily_date s) ∨
   (∃ D, date_of (Daily_summary env) = Some D ∧ _last_daily_date s ≠ Some D ∧
         marks (events (daily_summary_task env s)) = [D] ∧
         _last_daily_date (final_state (daily_summary_task env s)) = Some D)).
Proof.
  destruct (daily_summary_task_cases env s) as [->|(now & Hs & Hnow & Hw & Hm)].
  { repeat split. by left. }
  rewrite (daily_summary_task_fire env s now) by done.
  assert (date_of (Daily_summary env) = Some (date_str now)) as Hd.
  { simpl. by rewrite Hnow. }
  destruct (build_daily_summary_embed env now) as [embed|e]; simpl.
  - repeat split. right. exists (date_str now). repeat split; try done.
    unfold marks. simpl. f_equal. apply fanout_log_marks.
  - repeat split. right. exists (date_str now). done.
Qed.

Lemma discord_command_summary (a : action) (s : FlareBot) :
  (∀ env, a ≠ Flare_poll env) → (∀ env, a ≠ Daily_summary env) →
  outcome (step a s) = Ok tt ∧
  seen_flare_ids (final_state (step a s)) = seen_flare_ids s ∧
  _last_daily_date (final_state (step a s)) = _last_daily_date s ∧
  marks (events (step a s)) = [].
Proof.
  intros H1 H2. destruct a as [env|env|i|i|i|i]; try (by destruct (H1 env));
    try (by destruct (H2 env)); destruct i as [[[[] id]|]]; simpl;
    unfold subscribe_flares_cmd, unsubscribe_flares_cmd, subscribe_daily_cmd,
      unsubscribe_daily_cmd; pym_run; simpl; try case_bool_decide; done.
Qed.

Lemma discord_step_ok a (s : FlareBot) : outcome (step a s) = Ok tt.
Proof.
  destruct a as [env|env|i|i|i|i];
    [apply flare_poll_task_summary|apply daily_summary_task_summary|..];
    by apply discord_command_summary.
Qed.

Lemma discord_step_seen a (s : FlareBot) :
  seen_flare_ids s ⊆ seen_flare_ids (final_state (step a s)).
Proof.
  destruct a as [env|env|i|i|i|i].
  - apply flare_poll_task_summary.
  - unfold step. destruct (daily_summary_task_summary env s) as (_ & -> & _). done.
  - destruct (discord_command_summary (Subscribe_flares i) s) as (_ & -> & _); done.
  - destruct (discord_command_summary (Unsubscribe_flares i) s) as (_ & -> & _); done.
  - destruct (discord_command_summary (Subscribe_daily i) s) as (_ & -> & _); done.
  - destruct (discord_command_summary (Unsubscribe_daily i) s) as (_ & -> & _); done.
Qed.

Lemma discord_step_mark a (s : FlareBot) :
  (marks (events (step a s)) = [] ∧
   _last_daily_date (final_state (step a s)) = _last_daily_date s) ∨
  (∃ D, date_of a = Some D ∧ _last_daily_date s ≠ Some D ∧
        marks (events (step a s)) = [D] ∧
        _last_daily_date (final_state (step a s)) = Some D).
Proof.
  destruct a as [env|env|i|i|i|i].
  - left. unfold step. destruct (flare_poll_task_summary env s) as (_ & _ & ? & ?). done.
  - apply daily_summary_task_summary.
  - left. destruct (discord_command_summary (Subscribe_flares i) s) as (_ & _ & ? & ?); done.
  - left. destruct (discord_command_summary (Unsubscribe_flares i) s) as (_ & _ & ? & ?); done.
  - left. destruct (discord_command_summary (Subscribe_daily i) s) as (_ & _ & ? & ?); done.
  - left. destruct (discord_command_summary (Unsubscribe_daily i) s) as (_ & _ & ? & ?); done.
Qed.

Lemma discord_run_seen acts (s : FlareBot) id :
  id ∈ seen_flare_ids s → id ∈ seen_flare_ids (final_state (run acts s)).
Proof.
  apply (run_invariant step discord_step_ok (λ s, id ∈ seen_flare_ids s)).
  intros a s' Hin. by apply discord_step_seen.
Qed.

(** Once [flare_id_of r] is in the seen set, no later poll that fetches
    [r] sends anything. *)
Lemma flare_poll_task_later env acts (s : FlareBot) r rest :
  flare_id_of r ∈ seen_flare_ids s →
  http_get_json (feed env) ENDPOINTS_flare_latest = Ok (JList (JDict r :: rest)) →
  events (flare_poll_task env (final_state (run acts s))) = [].
Proof.
  intros Hin Hf. rewrite (flare_poll_task_skip env _ r); [done| |].
  - by eapply fetch_latest_flare_first.
  - right. by apply discord_run_seen.
Qed.

End DiscordRun.

Section SlackPoll.
Import Slack SlackSpec.

Lemma slack_fanout env text blocks l (s : FlareSlackBot) :
  ∃ r, for_each l (λ ch_id, _send_message env ch_id text (Some blocks)) s
       = (s, post_log env text blocks l, r).
Proof.
  revert s. induction l as [|c l IH]; intros s; [by exists (Ok tt)|].
  simpl. pym_run.
  destruct (slack_send_message_run env c text (Some blocks) s) as (r & -> & Hr).
  unfold post_log. simpl.
  destruct Hr as [[-> Hr]|(e & -> & -> & He)].
  - destruct (IH s) as [r' ->]. simpl. replace (escapes _) with false; [by exists r'|].
    destruct (chat_postMessage env c text (Some blocks)) as [[]|e] eqn:E; [done|].
    simpl. by rewrite (Hr e).
  - simpl. rewrite He. simpl. by exists (Raise e).
Qed.

End SlackPoll.

Section SlackTasks.
Import Slack SlackSpec.

Lemma flare_poll_turn_new env (s : FlareSlackBot) r :
  subscribed_channels s ≠ ∅ →
  fetch_latest_flare (feed env) = Ok (JDict r) →
  qualifies r →
  flare_id_of r ∉ seen_flare_ids s →
  _flare_poll_turn env s =
    match _format_flare_blocks (feed env) (JDict r) with
    | Ok blocks =>
        (accepted r s,
         EvAccept (flare_id_of r) :: EvBuilt blocks
           :: post_log env flare_text blocks (elements (subscribed_channels s)),
         Ok tt)
    | Raise e => (accepted r s, [EvAccept (flare_id_of r)], Ok tt)
    end.
Proof.
  intros Hsub Hfetch Hq Hnew. unfold _flare_poll_turn. pym_run.
  case_bool_decide; [done|]. rewrite Hfetch. pym_run.
  case_bool_decide; [by destruct (qualifies_nonempty r)|]. pym_run.
  fold (flare_class_of r). unfold qualifies in Hq. rewrite Hq. pym_run.
  fold (flare_time_of r). fold (flare_id_of r).
  case_bool_decide; [done|]. pym_run.
  fold (accepted r s).
  destruct (_format_flare_blocks (feed env) (JDict r)) as [blocks|e]; [|done].
  destruct (slack_fanout env flare_text blocks (elements (subscribed_channels s))
              (accepted r s)) as [r' E].
  unfold flare_text in E. simpl in E |- *. rewrite E.
  destruct r' as [[]|e]; simpl; by rewrite ?app_nil_r.
Qed.

Lemma flare_poll_turn_cases env (s : FlareSlackBot) :
  _flare_poll_turn env s = (s, [], Ok tt) ∨
  ∃ r, subscribed_channels s ≠ ∅ ∧ fetch_latest_flare (feed env) = Ok (JDict r) ∧
       qualifies r ∧ flare_id_of r ∉ seen_flare_ids s.
Proof.
  destruct (decide (subscribed_channels s = ∅)) as [He|Hne].
  { left. unfold _flare_poll_turn. pym_run. by case_bool_decide. }
  destruct (fetch_latest_flare_Ok (feed env)) as [flare Hf].
  destruct flare as [v|r|l].
  - left. unfold _flare_poll_turn. pym_run. case_bool_decide; [done|].
    rewrite Hf. pym_run. by destruct (truthy v).
  - destruct (decide (r = ∅)) as [->|Hr].
    { left. unfold _flare_poll_turn. pym_run. case_bool_decide; [done|].
      rewrite Hf. pym_run. by case_bool_decide. }
    destruct (is_m_or_x_class (py_or (flare_class_of r) (PStr ""))) as [[]|e] eqn:Hq.
    + destruct (decide (flare_id_of r ∈ seen_flare_ids s)) as [Hin|Hnew].
      * left. unfold _flare_poll_turn. pym_run. case_bool_decide; [done|].
        rewrite Hf. pym_run. case_bool_decide; [done|]. pym_run.
        fold (flare_class_of r). rewrite Hq. pym_run.
        fold (flare_time_of r). fold (flare_id_of r).
        by case_bool_decide.
      * right. exists r. done.
    + left. unfold _flare_poll_turn. pym_run. case_bool_decide; [done|].
      rewrite Hf. pym_run. case_bool_decide; [done|]. pym_run.
      fold (flare_class_of r). by rewrite Hq.
    + left. unfold _flare_poll_turn. pym_run. case_bool_decide; [done|].
      rewrite Hf. pym_run. case_bool_decide; [done|]. pym_run.
      fold (flare_class_of r). by rewrite Hq.
  - left. unfold _flare_poll_turn. pym_run. case_bool_decide; [done|].
    rewrite Hf. pym_run. by destruct (bool_decide (l = [])).
Qed.

Lemma flare_poll_turn_skip env (s : FlareSlackBot) r :
  fetch_latest_flare (feed env) = Ok (JDict r) →
  ¬ qualifies r ∨ flare_id_of r ∈ seen_flare_ids s →
  _flare_poll_turn env s = (s, [], Ok tt).
Proof.
  intros Hf Hskip. destruct (flare_poll_turn_cases env s) as [?|(r' & _ & Hf' & Hq & Hn)]; [done|].
  rewrite Hf in Hf'. injection Hf' as <-. by destruct Hskip.
Qed.

Lemma daily_summary_turn_fire env (s : FlareSlackBot) now :
  subscribed_daily s ≠ ∅ →
  now_est (feed env) = Ok now →
  in_window now = true →
  _last_daily_date s ≠ Some (date_str now) →
  _daily_summary_turn env s =
    match _build_daily_summary_blocks env now with
    | Ok blocks =>
        (set_last_daily_date (Some (date_str now)) s,
         EvMark (date_str now)
           :: post_log env daily_text blocks (elements (subscribed_daily s)),
         Ok tt)
    | Raise e => (set_last_daily_date (Some (date_str now)) s, [EvMark (date_str now)], Ok tt)
    end.
Proof.
  intros Hsub Hnow Hw Hm. unfold _daily_summary_turn. pym_run.
  rewrite Hnow. pym_run. rewrite Hw.
  do 2 (case_bool_decide; [done|]). simpl andb. pym_run.
  destruct (_build_daily_summary_blocks env now) as [blocks|e]; [|done].
  destruct (slack_fanout env daily_text blocks (elements (subscribed_daily s))
              (set_last_daily_date (Some (date_str now)) s)) as [r' E].
  unfold daily_text in E. simpl in E |- *. rewrite E.
  destruct r' as [[]|e]; simpl; by rewrite ?app_nil_r.
Qed.

Lemma daily_summary_turn_cases env (s : FlareSlackBot) :
  _daily_summary_turn env s = (s, [], Ok tt) ∨
  ∃ now, subscribed_daily s ≠ ∅ ∧ now_est (feed env) = Ok now ∧
         in_window now = true ∧ _last_daily_date s ≠ Some (date_str now).
Proof.
  destruct (now_est (feed env)) as [now|e] eqn:Hnow; cycle 1.
  { left. unfold _daily_summary_turn. pym_run. by rewrite Hnow. }
  destruct (in_window now) eqn:Hw; cycle 1.
  { left. unfold _daily_summary_turn. pym_run. rewrite Hnow. pym_run. by rewrite Hw. }
  destruct (decide (_last_daily_date s = Some (date_str now))) as [Hm|Hm].
  { left. unfold _daily_summary_turn. pym_run. rewrite Hnow. pym_run. rewrite Hw.
    by case_bool_decide. }
  destruct (decide (subscribed_daily s = ∅)) as [He|Hne].
  { left. unfold _daily_summary_turn. pym_run. rewrite Hnow. pym_run. rewrite Hw.
    do 2 case_bool_decide; done. }
  right. by exists now.
Qed.

End SlackTasks.

Section SlackRun.
Import Slack SlackSpec.

Lemma post_log_posts env text blocks l :
  posts (post_log env text blocks l) =
    (λ c, (c, text, Some blocks)) <$> attempts env text blocks l.
Proof.
  unfold post_log, posts. induction (attempts env text blocks l) as [|a l' IH]; [done|].
  rewrite !fmap_cons. simpl. f_equal. exact IH.
Qed.

Lemma post_log_marks env text blocks l : marks (post_log env text blocks l) = [].
Proof.
  unfold post_log, marks. by induction (attempts env text blocks l).
Qed.

Lemma flare_poll_turn_summary env (s : FlareSlackBot) :
  outcome (_flare_poll_turn env s) = Ok tt ∧
  seen_flare_ids s ⊆ seen_flare_ids (final_state (_flare_poll_turn env s)) ∧
  _last_daily_date (final_state (_flare_poll_turn env s)) = _last_daily_date s ∧
  marks (events (_flare_poll_turn env s)) = [].
Proof.
  destruct (flare_poll_turn_cases env s) as [->|(r & Hs & Hf & Hq & Hn)]; [done|].
  rewrite (flare_poll_turn_new env s r) by done.
  destruct (_format_flare_blocks (feed env) (JDict r)) as [blocks|e]; simpl.
  - repeat split; [set_solver|]. unfold marks. simpl. apply post_log_marks.
  - repeat split. set_solver.
Qed.

Lemma daily_summary_turn_summary env (s : FlareSlackBot) :
  outcome (_daily_summary_turn env s) = Ok tt ∧
  seen_flare_ids (final_state (_daily_summary_turn env s)) = seen_flare_ids s ∧
  ((marks (events (_daily_summary_turn env s)) = [] ∧
    _last_daily_date (final_state (_daily_summary_turn env s)) = _last_daily_date s) ∨
   (∃ D, date_of (Daily_summary env) = Some D ∧ _last_daily_date s ≠ Some D ∧
         marks (events (_daily_summary_turn env s)) = [D] ∧
         _last_daily_date (final_state (_daily_summary_turn env s)) = Some D)).
Proof.
  destruct (daily_summary_turn_cases env s) as [->|(now & Hs & Hnow & Hw & Hm)].
  { repeat split. by left. }
  rewrite (daily_summary_turn_fire env s now) by done.
  assert (date_of (Daily_summary env) = Some (date_str now)) as Hd.
  { simpl. by rewrite Hnow. }
  destruct (_build_daily_summary_blocks env now) as [blocks|e]; simpl.
  - repeat split. right. exists (date_str now). repeat split; try done.
    unfold marks. simpl. f_equal. apply post_log_marks.
  - repeat split. right. exists (date_str now). done.
Qed.

(** A task turn never raises, so the handler around it in [step] is idle. *)
Lemma try_except_idle {S E} (m : PyM S E unit) (s : S) :
  outcome (m s) = Ok tt → try_except m Exception (λ _, mret tt) s = m s.
Proof.
  unfold outcome, try_except. destruct (m s) as [[s1 w1] r]. simpl. by intros ->.
Qed.

Lemma step_flare_poll env (s : FlareSlackBot) :
  step (Flare_poll env) s = _flare_poll_turn env s.
Proof. apply try_except_idle, flare_poll_turn_summary. Qed.

Lemma step_daily_summary env (s : FlareSlackBot) :
  step (Daily_summary env) s = _daily_summary_turn env s.
Proof. apply try_except_idle, daily_summary_turn_summary. Qed.

Ltac split_posts :=
  repeat match goal with
  | |- context [chat_postMessage ?e ?c ?t ?b] =>
      destruct (chat_postMessage e c t b) as [[]|[]]; simpl
  end.

Lemma slack_command_summary (a : action) (s : FlareSlackBot) :
  (∀ env, a ≠ Flare_poll env) → (∀ env, a ≠ Daily_summary env) →
  outcome (step a s) = Ok tt ∧
  seen_flare_ids (final_state (step a s)) = seen_flare_ids s ∧
  _last_daily_date (final_state (step a s)) = _last_daily_date s ∧
  marks (events (step a s)) = [].
Proof.
  intros H1 H2. destruct a as [env|env|env c|env c|env c|env c];
    try (by destruct (H1 env)); try (by destruct (H2 env));
    unfold step, handled, _cmd_subscribe_flares, _cmd_unsubscribe_flares,
      _cmd_subscribe_daily, _cmd_unsubscribe_daily, _send_message;
    pym_run; try case_bool_decide; split_posts; done.
Qed.

Lemma slack_step_ok a (s : FlareSlackBot) : outcome (step a s) = Ok tt.
Proof.
  destruct a as [env|env|env c|env c|env c|env c].
  - rewrite step_flare_poll. apply flare_poll_turn_summary.
  - rewrite step_daily_summary. apply daily_summary_turn_summary.
  - by apply slack_command_summary.
  - by apply slack_command_summary.
  - by apply slack_command_summary.
  - by apply slack_command_summary.
Qed.

Lemma slack_step_seen a (s : FlareSlackBot) :
  seen_flare_ids s ⊆ seen_flare_ids (final_state (step a s)).
Proof.
  destruct a as [env|env|env c|env c|env c|env c].
  - rewrite step_flare_poll. apply flare_poll_turn_summary.
  - rewrite step_daily_summary.
    destruct (daily_summary_turn_summary env s) as (_ & -> & _). done.
  - destruct (slack_command_summary (Subscribe_flares env c) s) as (_ & -> & _); done.
  - destruct (slack_command_summary (Unsubscribe_flares env c) s) as (_ & -> & _); done.
  - destruct (slack_command_summary (Subscribe_daily env c) s) as (_ & -> & _); done.
  - destruct (slack_command_summary (Unsubscribe_daily env c) s) as (_ & -> & _); done.
Qed.

Lemma slack_step_mark a (s : FlareSlackBot) :
  (marks (events (step a s)) = [] ∧
   _last_daily_date (final_state (step a s)) = _last_daily_date s) ∨
  (∃ D, date_of a = Some D ∧ _last_daily_date s ≠ Some D ∧
        marks (events (step a s)) = [D] ∧
        _last_daily_date (final_state (step a s)) = Some D).
Proof.
  destruct a as [env|env|env c|env c|env c|env c].
  - left. rewrite step_flare_poll.
    destruct (flare_poll_turn_summary env s) as (_ & _ & ? & ?). done.
  - rewrite step_daily_summary. apply daily_summary_turn_summary.
  - left. destruct (slack_command_summary (Subscribe_flares env c) s) as (_ & _ & ? & ?); done.
  - left. destruct (slack_command_summary (Unsubscribe_flares env c) s) as (_ & _ & ? & ?); done.
  - left. destruct (slack_command_summary (Subscribe_daily env c) s) as (_ & _ & ? & ?); done.
  - left. destruct (slack_command_summary (Unsubscribe_daily env c) s) as (_ & _ & ? & ?); done.
Qed.

Lemma slack_run_seen acts (s : FlareSlackBot) id :
  id ∈ seen_flare_ids s → id ∈ seen_flare_ids (final_state (run acts s)).
Proof.
  apply (run_invariant step slack_step_ok (λ s, id ∈ seen_flare_ids s)).
  intros a s' Hin. by apply slack_step_seen.
Qed.

Lemma flare_poll_turn_later env acts (s : FlareSlackBot) r rest :
  flare_id_of r ∈ seen_flare_ids s →
  http_get_json (feed env) ENDPOINTS_flare_latest = Ok (JList (JDict r :: rest)) →
  events (_flare_poll_turn env (final_state (run acts s))) = [].
Proof.
  intros Hin Hf. rewrite (flare_poll_turn_skip env _ r); [done| |].
  - by eapply fetch_latest_flare_first.
  - right. by apply slack_run_seen.
Qed.

End SlackRun.

(** ** Qualifying records and their messages *)

Section Messages.

Lemma parse_Some_truthy v l m : parse_flare_class v = Ok (Some l, m) → truthy v = true.
Proof. unfold parse_flare_class. by destruct (truthy v). Qed.

Lemma class_parses_as_M_X r : class_parses_as r ["M"; "X"] → qualifies r.
Proof.
  intros (l & m & Hp & Hl). unfold qualifies, py_or.
  rewrite (parse_Some_truthy _ _ _ Hp). unfold is_m_or_x_class. rewrite Hp. simpl.
  apply list_elem_of_In in Hl. simpl in Hl. by destruct Hl as [<-|[<-|[]]].
Qed.

Lemma class_parses_as_B_C r : class_parses_as r ["B"; "C"] → ¬ qualifies r.
Proof.
  intros (l & m & Hp & Hl). unfold qualifies, py_or.
  rewrite (parse_Some_truthy _ _ _ Hp). unfold is_m_or_x_class. rewrite Hp. simpl.
  apply list_elem_of_In in Hl. simpl in Hl. by destruct Hl as [<-|[<-|[]]].
Qed.

(** On a qualifying record the formatters read the class the poll task
    read. *)
Lemma max_class_qualifying r :
  qualifies r →
  py_or (dict_get r "max_class") (dict_get_default r "current_class" (PStr "Unknown"))
  = flare_class_of r.
Proof.
  intros (cls & Hc & Ht)%qualifies_class_str. unfold flare_class_of in *.
  unfold py_or in *. destruct (truthy (dict_get r "max_class")); [done|].
  unfold dict_get, dict_get_default in *. by destruct (r !! "current_class").
Qed.

Lemma format_flare_embed_peak_class w r embed :
  qualifies r →
  Discord.format_flare_embed w (JDict r) = Ok embed →
  ("Peak Class", "**" +:+ py_str (flare_class_of r) +:+ "**", true) ∈ Discord.fields embed.
Proof.
  intros Hq. unfold Discord.format_flare_embed. pym_run.
  rewrite (max_class_qualifying r Hq).
  destruct (parse_flare_class (flare_class_of r)) as [[l m]|e]; [|done].
  destruct (if letter_is l "X" then _ else _) as [c t].
  unfold get_sdo_aia_image.
  destruct (utcnow_iso_with_est w) as [now|e]; [|done].
  intros [= <-]. simpl. set_solver.
Qed.

Lemma format_flare_blocks_peak_class w r blocks :
  qualifies r →
  Slack._format_flare_blocks w (JDict r) = Ok blocks →
  ∃ texts, Slack.SectionFields texts ∈ blocks ∧
           "*Peak Class:*" +:+ Slack.nl +:+ py_str (flare_class_of r) ∈ texts.
Proof.
  intros Hq. unfold Slack._format_flare_blocks. pym_run.
  rewrite (max_class_qualifying r Hq).
  destruct (parse_flare_class (flare_class_of r)) as [[l m]|e]; [|done].
  unfold get_sdo_aia_image.
  destruct (utcnow_iso_with_est w) as [now|e]; [|done].
  intros [= <-]. eexists. split; [apply list_elem_of_further, list_elem_of_here|].
  set_solver.
Qed.

(** The two formatters fail on the same records. *)
Lemma formatters_fail_together w r :
  is_Raise (Discord.format_flare_embed w (JDict r))
  = is_Raise (Slack._format_flare_blocks w (JDict r)).
Proof.
  unfold Discord.format_flare_embed, Slack._format_flare_blocks. pym_run.
  destruct (parse_flare_class _) as [[l m]|e]; [|done].
  destruct (if letter_is l "X" then _ else _) as [c t].
  unfold get_sdo_aia_image.
  by destruct (utcnow_iso_with_est w) as [now|e].
Qed.

Lemma count_once {A} `{EqDecision A} (P : A → bool) (l : list A) (a : A) :
  NoDup l →
  length (List.filter (λ x, bool_decide (x = a)) (List.filter P l))
  = if bool_decide (a ∈ l) && P a then 1%nat else 0%nat.
Proof.
  induction 1 as [|x l Hx Hnd IH]; [done|]. simpl.
  destruct (decide (x = a)) as [->|Hne].
  - rewrite bool_decide_eq_true_2 by set_solver. simpl.
    rewrite (bool_decide_eq_false_2 (a ∈ l)) in IH by done. simpl in IH.
    destruct (P a); simpl; [|done]. rewrite bool_decide_eq_true_2 by done. simpl.
    by rewrite IH.
  - assert (bool_decide (a ∈ x :: l) = bool_decide (a ∈ l)) as ->.
    { apply bool_decide_ext. set_solver. }
    destruct (P x); simpl; [|done]. by rewrite bool_decide_eq_false_2.
Qed.

Lemma count_fst_map {A B} `{EqDecision A} (b : B) (l : list A) (a : A) :
  length (List.filter (λ p : A * B, bool_decide (p.1 = a)) ((λ x, (x, b)) <$> l))
  = length (List.filter (λ x, bool_decide (x = a)) l).
Proof.
  induction l as [|x l IH]; [done|]. rewrite fmap_cons. simpl.
  destruct (bool_decide (x = a)); simpl; by rewrite IH.
Qed.

Lemma filter_true {A} (l : list A) : List.filter (λ _, true) l = l.
Proof. induction l; simpl; by f_equal. Qed.

Lemma attempts_all env text blocks l :
  (∀ c, c ∈ l → SlackSpec.escapes (Slack.chat_postMessage env c text (Some blocks)) = false) →
  SlackSpec.attempts env text blocks l = l.
Proof.
  induction l as [|c l IH]; intros H; [done|]. simpl.
  rewrite H by set_solver. f_equal. apply IH. intros; apply H. set_solver.
Qed.

End Messages.

(** ** The poll task notifies once *)

(** C1, as the spec states it, fails on the Discord bot: channel 7 is
    subscribed, the record is a new X2.5 flare, and no message is sent,
    because [get_channel] does not find the channel. *)
Lemma flare_poll_uncached_channel_counterexample :
  (Discord.subscribed_flares example_discord_bot ≠ ∅) ∧
  (fetch_latest_flare (Discord.feed example_discord_env_uncached) = Ok (JDict example_flare)) ∧
  (class_parses_as example_flare ["M"; "X"]) ∧
  (flare_id_of example_flare ∉ Discord.seen_flare_ids example_discord_bot) ∧
  (7%Z ∈ Discord.subscribed_flares example_discord_bot) ∧
  (DiscordSpec.sends_to 7
     (events (Discord.flare_poll_task example_discord_env_uncached example_discord_bot))
   = 0%nat).
Proof.
  split; [decide_compute|].
  split; [by vm_compute|].
  split.
  { exists "X", (Some (25 # 10)%Q). split; [by vm_compute|set_solver]. }
  split; [decide_compute|].
  split; [decide_compute|].
  by vm_compute.
Qed.

(** C1, amended.  When at least one destination is flare-subscribed, the
    fetched record's class parses as M or X, its event id is new and the
    message is computed without error, the poll task sends exactly one
    message, showing the record's class in its Peak Class field, to every
    subscribed destination it can send to (Discord: the ids [get_channel]
    resolves to a text channel or thread; Slack: every subscribed channel,
    provided no send raises an error other than SlackApiError) and none to
    anyone else; a later cycle fetching the same record sends nothing, and
    a record whose class parses as B or C causes no send whatever the seen
    set holds. *)
Theorem flare_poll_notifies_once :
  (∀ env (s : Discord.FlareBot) r rest embed,
     Discord.subscribed_flares s ≠ ∅ →
     http_get_json (Discord.feed env) ENDPOINTS_flare_latest = Ok (JList (JDict r :: rest)) →
     class_parses_as r ["M"; "X"] →
     flare_id_of r ∉ Discord.seen_flare_ids s →
     Discord.format_flare_embed (Discord.feed env) (JDict r) = Ok embed →
     (∀ ch_id, DiscordSpec.sends_to ch_id (events (Discord.flare_poll_task env s))
        = if bool_decide (ch_id ∈ Discord.subscribed_flares s) && DiscordSpec.deliverable env ch_id
          then 1%nat else 0%nat) ∧
     (∀ ch_id e, (ch_id, e) ∈ Discord.sends (events (Discord.flare_poll_task env s)) →
        e = embed) ∧
     ("Peak Class", "**" +:+ py_str (flare_class_of r) +:+ "**", true) ∈ Discord.fields embed ∧
     (∀ acts env' rest',
        http_get_json (Discord.feed env') ENDPOINTS_flare_latest
          = Ok (JList (JDict r :: rest')) →
        events (Discord.flare_poll_task env'
                  (final_state (Discord.run acts (final_state (Discord.flare_poll_task env s)))))
        = [])) ∧
  (∀ env (s : Discord.FlareBot) r rest,
     http_get_json (Discord.feed env) ENDPOINTS_flare_latest = Ok (JList (JDict r :: rest)) →
     class_parses_as r ["B"; "C"] →
     events (Discord.flare_poll_task env s) = []) ∧
  (∀ env (s : Slack.FlareSlackBot) r rest blocks,
     Slack.subscribed_channels s ≠ ∅ →
     http_get_json (Slack.feed env) ENDPOINTS_flare_latest = Ok (JList (JDict r :: rest)) →
     class_parses_as r ["M"; "X"] →
     flare_id_of r ∉ Slack.seen_flare_ids s →
     Slack._format_flare_blocks (Slack.feed env) (JDict r) = Ok blocks →
     (∀ c e, c ∈ Slack.subscribed_channels s →
        Slack.chat_postMessage env c SlackSpec.flare_text (Some blocks) = Raise e →
        e = SlackApiError) →
     (∀ c, SlackSpec.posts_to c (events (Slack._flare_poll_turn env s))
        = if bool_decide (c ∈ Slack.subscribed_channels s) then 1%nat else 0%nat) ∧
     (∀ c t b, (c, t, b) ∈ Slack.posts (events (Slack._flare_poll_turn env s)) →
        b = Some blocks) ∧
     (∃ texts, Slack.SectionFields texts ∈ blocks ∧
        "*Peak Class:*" +:+ Slack.nl +:+ py_str (flare_class_of r) ∈ texts) ∧
     (∀ acts env' rest',
        http_get_json (Slack.feed env') ENDPOINTS_flare_latest
          = Ok (JList (JDict r :: rest')) →
        events (Slack._flare_poll_turn env'
                  (final_state (Slack.run acts (final_state (Slack._flare_poll_turn env s)))))
        = [])) ∧
  (∀ env (s : Slack.FlareSlackBot) r rest,
     http_get_json (Slack.feed env) ENDPOINTS_flare_latest = Ok (JList (JDict r :: rest)) →
     class_parses_as r ["B"; "C"] →
     events (Slack._flare_poll_turn env s) = []).
Proof.
  split; [|split; [|split]].
  - intros env s r rest embed Hsub Hget Hcls Hnew Hfmt.
    pose proof (fetch_latest_flare_first _ _ _ Hget) as Hf.
    pose proof (class_parses_as_M_X _ Hcls) as Hq.
    rewrite (flare_poll_task_new env s r) by done. rewrite Hfmt.
    unfold events, final_state. simpl.
    split; [|split; [|split]].
    + intros ch_id. unfold DiscordSpec.sends_to. simpl. rewrite fanout_log_sends.
      rewrite count_fst_map, count_once by apply NoDup_elements.
      by rewrite (bool_decide_ext _ _ (elem_of_elements (Discord.subscribed_flares s) ch_id)).
    + intros ch_id e. simpl. rewrite fanout_log_sends. intros Hin.
      apply list_elem_of_fmap in Hin as (x & [= _ ->] & _). done.
    + by apply (format_flare_embed_peak_class (Discord.feed env)).
    + intros acts env' rest' Hget'. eapply flare_poll_task_later; [|done].
      simpl. set_solver.
  - intros env s r rest Hget Hcls.
    rewrite (flare_poll_task_skip env s r); [done|by eapply fetch_latest_flare_first|].
    left. by apply class_parses_as_B_C.
  - intros env s r rest blocks Hsub Hget Hcls Hnew Hfmt Hapi.
    pose proof (fetch_latest_flare_first _ _ _ Hget) as Hf.
    pose proof (class_parses_as_M_X _ Hcls) as Hq.
    rewrite (flare_poll_turn_new env s r) by done. rewrite Hfmt.
    unfold events, final_state. simpl.
    assert (SlackSpec.attempts env SlackSpec.flare_text blocks
              (elements (Slack.subscribed_channels s))
            = elements (Slack.subscribed_channels s)) as Hall.
    { apply attempts_all. intros c Hc. unfold SlackSpec.escapes.
      destruct (Slack.chat_postMessage env c SlackSpec.flare_text (Some blocks)) as [[]|e] eqn:E;
        [done|].
      rewrite (Hapi c e); [done|set_solver|done]. }
    split; [|split; [|split]].
    + intros c. unfold SlackSpec.posts_to. simpl. rewrite post_log_posts, Hall.
      pose proof (count_once (λ _, true) (elements (Slack.subscribed_channels s)) c
                    (NoDup_elements _)) as Hcount.
      rewrite filter_true, andb_true_r in Hcount.
      rewrite <- (bool_decide_ext _ _ (elem_of_elements (Slack.subscribed_channels s) c)).
      rewrite <- Hcount. clear.
      induction (elements (Slack.subscribed_channels s)) as [|x l IH]; [done|].
      rewrite fmap_cons. simpl. destruct (bool_decide (x = c)); simpl; by rewrite IH.
    + intros c t b. simpl. rewrite post_log_posts. intros Hin.
      apply list_elem_of_fmap in Hin as (x & [= _ _ ->] & _). done.
    + by apply (format_flare_blocks_peak_class (Slack.feed env)).
    + intros acts env' rest' Hget'. eapply flare_poll_turn_later; [|done].
      simpl. set_solver.
  - intros env s r rest Hget Hcls.
    rewrite (flare_poll_turn_skip env s r); [done|by eapply fetch_latest_flare_first|].
    left. by apply class_parses_as_B_C.
Qed.

Lemma flare_poll_notifies_once_witness :
  DiscordSpec.sends_to 7
    (events (Discord.flare_poll_task example_discord_env example_discord_bot)) = 1%nat ∧
  SlackSpec.posts_to "C7"
    (events (Slack._flare_poll_turn example_slack_env example_slack_bot)) = 1%nat.
Proof.
  destruct flare_poll_notifies_once as (HD & _ & HS & _). split.
  - edestruct (HD example_discord_env example_discord_bot example_flare []) as (Hc & _).
    + decide_compute.
    + vm_compute. reflexivity.
    + exists "X", (Some (25 # 10)%Q). split; [vm_compute; reflexivity|].
      apply list_elem_of_further, list_elem_of_here.
    + decide_compute.
    + vm_compute. reflexivity.
    + rewrite Hc. vm_compute. reflexivity.
  - edestruct (HS example_slack_env example_slack_bot example_flare []) as (Hc & _).
    + decide_compute.
    + vm_compute. reflexivity.
    + exists "X", (Some (25 # 10)%Q). split; [vm_compute; reflexivity|].
      apply list_elem_of_further, list_elem_of_here.
    + decide_compute.
    + vm_compute. reflexivity.
    + intros c e _ H. discriminate H.
    + rewrite Hc. vm_compute. reflexivity.
Defined.

(** ** The id is accepted before the message is built *)

(** C2, as the spec states it, fails: building the message raises, and the
    id of the flare is in the seen set all the same. *)
Lemma accept_after_message_counterexample :
  (Discord.format_flare_embed (Discord.feed example_discord_env_no_zone) (JDict example_flare)
   = Raise ZoneInfoNotFoundError) ∧
  (flare_id_of example_flare ∉ Discord.seen_flare_ids example_discord_bot) ∧
  (flare_id_of example_flare ∈
     Discord.seen_flare_ids
       (final_state (Discord.flare_poll_task example_discord_env_no_zone example_discord_bot))) ∧
  (events (Discord.flare_poll_task example_discord_env_no_zone example_discord_bot)
   = [Discord.EvAccept (flare_id_of example_flare)]).
Proof.
  split; [by vm_compute|]. split; [decide_compute|]. split; [decide_compute|].
  by vm_compute.
Qed.

(** C2, amended.  In every poll cycle of either bot that gets as far as a
    message, the event id enters the seen set first and the message is built
    after it: the log of the cycle is empty (and the bot unchanged), or it
    starts with the acceptance of the id of the fetched record, which is in
    the seen set afterwards, followed, only when the message was built
    without error, by the message and its sends.  When building the message
    fails the id stays in the seen set and nothing is sent. *)
Theorem accept_precedes_message :
  (∀ env (s : Discord.FlareBot),
     (events (Discord.flare_poll_task env s) = [] ∧
      final_state (Discord.flare_poll_task env s) = s) ∨
     (∃ r, fetch_latest_flare (Discord.feed env) = Ok (JDict r) ∧
           (flare_id_of r ∉ Discord.seen_flare_ids s) ∧
           (flare_id_of r ∈ Discord.seen_flare_ids (final_state (Discord.flare_poll_task env s))) ∧
           events (Discord.flare_poll_task env s) =
             Discord.EvAccept (flare_id_of r) ::
             match Discord.format_flare_embed (Discord.feed env) (JDict r) with
             | Ok embed =>
                 Discord.EvBuilt embed ::
                 DiscordSpec.fanout_log env embed (elements (Discord.subscribed_flares s))
             | Raise _ => []
             end)) ∧
  (∀ env (s : Slack.FlareSlackBot),
     (events (Slack._flare_poll_turn env s) = [] ∧
      final_state (Slack._flare_poll_turn env s) = s) ∨
     (∃ r, fetch_latest_flare (Slack.feed env) = Ok (JDict r) ∧
           (flare_id_of r ∉ Slack.seen_flare_ids s) ∧
           (flare_id_of r ∈ Slack.seen_flare_ids (final_state (Slack._flare_poll_turn env s))) ∧
           events (Slack._flare_poll_turn env s) =
             Slack.EvAccept (flare_id_of r) ::
             match Slack._format_flare_blocks (Slack.feed env) (JDict r) with
             | Ok blocks =>
                 Slack.EvBuilt blocks ::
                 SlackSpec.post_log env SlackSpec.flare_text blocks
                   (elements (Slack.subscribed_channels s))
             | Raise _ => []
             end)).
Proof.
  split.
  - intros env s. destruct (flare_poll_task_cases env s) as [->|(r & Hs & Hf & Hq & Hn)];
      [by left|].
    right. exists r. rewrite (flare_poll_task_new env s r) by done.
    destruct (Discord.format_flare_embed (Discord.feed env) (JDict r)) as [embed|e];
      simpl; repeat split; try done; set_solver.
  - intros env s. destruct (flare_poll_turn_cases env s) as [->|(r & Hs & Hf & Hq & Hn)];
      [by left|].
    right. exists r. rewrite (flare_poll_turn_new env s r) by done.
    destruct (Slack._format_flare_blocks (Slack.feed env) (JDict r)) as [blocks|e];
      simpl; repeat split; try done; set_solver.
Qed.

(** ** Records without a timestamp *)

Section Timestampless.

Lemma timestampless_flare_time r : timestampless r → flare_time_of r = PNone.
Proof.
  intros (H1 & H2 & H3). unfold flare_time_of, dict_get. by rewrite H1, H2, H3.
Qed.

Lemma timestampless_flare_id_of r :
  timestampless r → flare_id_of r = "None_" +:+ py_str (flare_class_of r).
Proof.
  intros H. unfold flare_id_of, make_flare_id. by rewrite (timestampless_flare_time r H).
Qed.

Lemma discord_poll_accepts env (s : Discord.FlareBot) r :
  Discord.subscribed_flares s ≠ ∅ →
  fetch_latest_flare (Discord.feed env) = Ok (JDict r) →
  qualifies r →
  flare_id_of r ∈ Discord.seen_flare_ids (final_state (Discord.flare_poll_task env s)).
Proof.
  intros Hs Hf Hq. destruct (decide (flare_id_of r ∈ Discord.seen_flare_ids s)) as [Hin|Hn].
  - rewrite (flare_poll_task_skip env s r); [done|done|by right].
  - rewrite (flare_poll_task_new env s r) by done.
    destruct (Discord.format_flare_embed _ _); simpl; set_solver.
Qed.

Lemma slack_poll_accepts env (s : Slack.FlareSlackBot) r :
  Slack.subscribed_channels s ≠ ∅ →
  fetch_latest_flare (Slack.feed env) = Ok (JDict r) →
  qualifies r →
  flare_id_of r ∈ Slack.seen_flare_ids (final_state (Slack._flare_poll_turn env s)).
Proof.
  intros Hs Hf Hq. destruct (decide (flare_id_of r ∈ Slack.seen_flare_ids s)) as [Hin|Hn].
  - rewrite (flare_poll_turn_skip env s r); [done|done|by right].
  - rewrite (flare_poll_turn_new env s r) by done.
    destruct (Slack._format_flare_blocks _ _); simpl; set_solver.
Qed.

End Timestampless.

(** C10, as the spec states it, fails on the Discord bot: channel 7 is
    subscribed, the record is a new X2.5 flare without timestamps, and the
    poll task notifies nobody, because [get_channel] does not find the
    channel; the id "None_X2.5" is marked as seen all the same. *)
Lemma timestampless_uncached_channel_counterexample :
  (Discord.subscribed_flares example_discord_bot ≠ ∅) ∧
  (fetch_latest_flare (Discord.feed example_discord_env_timestampless_uncached)
   = Ok (JDict example_flare_timestampless)) ∧
  (class_parses_as example_flare_timestampless ["M"; "X"]) ∧
  (timestampless example_flare_timestampless) ∧
  (flare_id_of example_flare_timestampless ∉ Discord.seen_flare_ids example_discord_bot) ∧
  (7%Z ∈ Discord.subscribed_flares example_discord_bot) ∧
  (Discord.sends
     (events (Discord.flare_poll_task example_discord_env_timestampless_uncached
                example_discord_bot)) = []) ∧
  ("None_X2.5" ∈ Discord.seen_flare_ids
     (final_state (Discord.flare_poll_task example_discord_env_timestampless_uncached
                     example_discord_bot))).
Proof.
  split; [decide_compute|].
  split; [by vm_compute|].
  split.
  { exists "X", (Some (25 # 10)%Q). split; [by vm_compute|set_solver]. }
  split; [repeat split; by vm_compute|].
  split; [decide_compute|].
  split; [decide_compute|].
  split; [by vm_compute|decide_compute].
Qed.

(** C10, amended.  A fetched record whose class parses as M or X and that
    has none of the fields max_time, time_tag and begin_time gets the id
    "None_" followed by its class string.  When a destination is
    flare-subscribed and that id is new, the poll task marks it as seen
    and, when the message is computed without error, sends it like that of
    any other new record to the subscribed destinations it can send to
    (Discord: the ids [get_channel] resolves to a text channel or thread;
    Slack: every subscribed channel, provided no send raises an error other
    than SlackApiError).  Every later cycle that fetches a record without
    timestamps and with the same class string maps it to the same id and
    sends nothing. *)
Theorem timestampless_flare_id :
  (∀ env (s : Discord.FlareBot) r rest,
     Discord.subscribed_flares s ≠ ∅ →
     http_get_json (Discord.feed env) ENDPOINTS_flare_latest = Ok (JList (JDict r :: rest)) →
     class_parses_as r ["M"; "X"] →
     timestampless r →
     flare_id_of r = "None_" +:+ py_str (flare_class_of r) ∧
     (("None_" +:+ py_str (flare_class_of r)) ∉ Discord.seen_flare_ids s →
      Discord.seen_flare_ids (final_state (Discord.flare_poll_task env s))
        = {["None_" +:+ py_str (flare_class_of r)]} ∪ Discord.seen_flare_ids s ∧
      ∀ embed, Discord.format_flare_embed (Discord.feed env) (JDict r) = Ok embed →
        Discord.sends (events (Discord.flare_poll_task env s))
        = (λ ch_id, (ch_id, embed))
            <$> List.filter (DiscordSpec.deliverable env) (elements (Discord.subscribed_flares s))) ∧
     (∀ acts env' r' rest',
        http_get_json (Discord.feed env') ENDPOINTS_flare_latest
          = Ok (JList (JDict r' :: rest')) →
        timestampless r' →
        flare_class_of r' = flare_class_of r →
        flare_id_of r' = flare_id_of r ∧
        events (Discord.flare_poll_task env'
                  (final_state (Discord.run acts (final_state (Discord.flare_poll_task env s)))))
        = [])) ∧
  (∀ env (s : Slack.FlareSlackBot) r rest,
     Slack.subscribed_channels s ≠ ∅ →
     http_get_json (Slack.feed env) ENDPOINTS_flare_latest = Ok (JList (JDict r :: rest)) →
     class_parses_as r ["M"; "X"] →
     timestampless r →
     flare_id_of r = "None_" +:+ py_str (flare_class_of r) ∧
     (("None_" +:+ py_str (flare_class_of r)) ∉ Slack.seen_flare_ids s →
      Slack.seen_flare_ids (final_state (Slack._flare_poll_turn env s))
        = {["None_" +:+ py_str (flare_class_of r)]} ∪ Slack.seen_flare_ids s ∧
      ∀ blocks, Slack._format_flare_blocks (Slack.feed env) (JDict r) = Ok blocks →
        (∀ c e, c ∈ Slack.subscribed_channels s →
           Slack.chat_postMessage env c SlackSpec.flare_text (Some blocks) = Raise e →
           e = SlackApiError) →
        Slack.posts (events (Slack._flare_poll_turn env s))
        = (λ c, (c, SlackSpec.flare_text, Some blocks))
            <$> elements (Slack.subscribed_channels s)) ∧
     (∀ acts env' r' rest',
        http_get_json (Slack.feed env') ENDPOINTS_flare_latest
          = Ok (JList (JDict r' :: rest')) →
        timestampless r' →
        flare_class_of r' = flare_class_of r →
        flare_id_of r' = flare_id_of r ∧
        events (Slack._flare_poll_turn env'
                  (final_state (Slack.run acts (final_state (Slack._flare_poll_turn env s)))))
        = [])).
Proof.
  split.
  - intros env s r rest Hsub Hget Hcls Hts.
    pose proof (fetch_latest_flare_first _ _ _ Hget) as Hf.
    pose proof (class_parses_as_M_X _ Hcls) as Hq.
    pose proof (timestampless_flare_id_of r Hts) as Hid.
    split; [done|]. rewrite <- Hid. split.
    + intros Hnew. rewrite (flare_poll_task_new env s r) by done.
      destruct (Discord.format_flare_embed (Discord.feed env) (JDict r)) as [embed|e]; simpl.
      * split; [done|]. intros ? [= <-]. apply fanout_log_sends.
      * split; [done|]. by intros ?.
    + intros acts env' r' rest' Hget' Hts' Hsame.
      assert (flare_id_of r' = flare_id_of r) as Hid'.
      { by rewrite Hid, (timestampless_flare_id_of r' Hts'), Hsame. }
      split; [done|]. eapply flare_poll_task_later; [|done].
      rewrite Hid'. by apply discord_poll_accepts.
  - intros env s r rest Hsub Hget Hcls Hts.
    pose proof (fetch_latest_flare_first _ _ _ Hget) as Hf.
    pose proof (class_parses_as_M_X _ Hcls) as Hq.
    pose proof (timestampless_flare_id_of r Hts) as Hid.
    split; [done|]. rewrite <- Hid. split.
    + intros Hnew. rewrite (flare_poll_turn_new env s r) by done.
      destruct (Slack._format_flare_blocks (Slack.feed env) (JDict r)) as [blocks|e]; simpl.
      * split; [done|]. intros ? [= <-] Hapi. unfold events. simpl.
        rewrite post_log_posts. f_equal. apply attempts_all. intros c Hc.
        unfold SlackSpec.escapes.
        destruct (Slack.chat_postMessage env c SlackSpec.flare_text (Some blocks))
          as [[]|e] eqn:E; [done|].
        rewrite (Hapi c e); [done|set_solver|done].
      * split; [done|]. by intros ?.
    + intros acts env' r' rest' Hget' Hts' Hsame.
      assert (flare_id_of r' = flare_id_of r) as Hid'.
      { by rewrite Hid, (timestampless_flare_id_of r' Hts'), Hsame. }
      split; [done|]. eapply flare_poll_turn_later; [|done].
      rewrite Hid'. by apply slack_poll_accepts.
Qed.

Lemma timestampless_flare_id_witness :
  flare_id_of example_flare_timestampless = "None_X2.5" ∧
  length (Discord.sends
            (events (Discord.flare_poll_task example_discord_env_timestampless
                       example_discord_bot))) = 1%nat ∧
  events (Discord.flare_poll_task example_discord_env_timestampless
            (final_state (Discord.flare_poll_task example_discord_env_timestampless
                            example_discord_bot))) = [] ∧
  events (Slack._flare_poll_turn example_slack_env_timestampless
            (final_state (Slack._flare_poll_turn example_slack_env_timestampless
                            example_slack_bot))) = [].
Proof.
  destruct timestampless_flare_id as (HD & HS).
  assert (class_parses_as example_flare_timestampless ["M"; "X"]) as Hcls.
  { exists "X", (Some (25 # 10)%Q). split; [vm_compute; reflexivity|].
    apply list_elem_of_further, list_elem_of_here. }
  assert (timestampless example_flare_timestampless) as Hts.
  { repeat split; vm_compute; reflexivity. }
  destruct (HD example_discord_env_timestampless example_discord_bot
              example_flare_timestampless []) as (Hid & Hnotify & Hlater);
    [decide_compute|vm_compute; reflexivity|exact Hcls|exact Hts|].
  destruct (HS example_slack_env_timestampless example_slack_bot
              example_flare_timestampless []) as (_ & _ & Hlater');
    [decide_compute|vm_compute; reflexivity|exact Hcls|exact Hts|].
  split; [rewrite Hid; vm_compute; reflexivity|]. split; [|split].
  - destruct Hnotify as [_ Hsends]; [decide_compute|].
    erewrite Hsends; [|vm_compute; reflexivity]. vm_compute. reflexivity.
  - apply (Hlater [] example_discord_env_timestampless example_flare_timestampless []);
      [vm_compute; reflexivity|exact Hts|reflexivity].
  - apply (Hlater' [] example_slack_env_timestampless example_flare_timestampless []);
      [vm_compute; reflexivity|exact Hts|reflexivity].
Defined.

(** ** A send that fails *)

(** On Discord a failed send never stops the fan-out and removes only the
    destination it failed for: every deliverable subscriber is tried, and
    the subscribers left are those whose send did not raise. *)
Lemma discord_send_failure_isolated env (s : Discord.FlareBot) r embed :
  Discord.subscribed_flares s ≠ ∅ →
  fetch_latest_flare (Discord.feed env) = Ok (JDict r) →
  qualifies r →
  flare_id_of r ∉ Discord.seen_flare_ids s →
  Discord.format_flare_embed (Discord.feed env) (JDict r) = Ok embed →
  outcome (Discord.flare_poll_task env s) = Ok tt ∧
  Discord.sends (events (Discord.flare_poll_task env s))
    = (λ ch_id, (ch_id, embed))
        <$> List.filter (DiscordSpec.deliverable env) (elements (Discord.subscribed_flares s)) ∧
  ∀ ch_id, ch_id ∈ Discord.subscribed_flares (final_state (Discord.flare_poll_task env s)) ↔
           ch_id ∈ Discord.subscribed_flares s ∧ DiscordSpec.send_fails env embed ch_id = false.
Proof.
  intros Hs Hf Hq Hn Hfmt. rewrite (flare_poll_task_new env s r) by done. rewrite Hfmt.
  split; [done|]. split; [apply fanout_log_sends|].
  intros ch_id. unfold final_state. simpl.
  rewrite elem_of_difference, elem_of_list_to_set, list_elem_of_In, filter_In,
    <- list_elem_of_In, elem_of_elements.
  destruct (DiscordSpec.send_fails env embed ch_id); naive_solver.
Qed.

(** C5 fails on the Slack bot: with two channels subscribed and the Web API
    unreachable, the first send raises out of [_send_message], the loop
    over the subscribers ends there, and the second channel is never tried.
    On Discord, by contrast, both channels are tried. *)
Theorem slack_fanout_stops_at_unreachable :
  size (Slack.subscribed_channels example_slack_bot_two) = 2%nat ∧
  length (Slack.posts
            (events (Slack._flare_poll_turn example_slack_env_unreachable
                       example_slack_bot_two))) = 1%nat ∧
  length (Discord.sends
            (events (Discord.flare_poll_task example_discord_env_refused
                       example_discord_bot_two))) = 2%nat.
Proof. by vm_compute. Qed.

(** ** The daily digest *)

(** C4, as the spec states it, fails: the tick is inside the window and the
    marker differs from today's date, yet no digest starts and the marker
    is not updated, because no destination is subscribed to the digest. *)
Lemma daily_digest_no_subscriber_counterexample :
  (Discord.in_window example_clock_13 = true ∧
   Discord._last_daily_date Discord.init ≠ Some (date_str example_clock_13) ∧
   DiscordDailySpec.marks
     (events (Discord.daily_summary_task (example_discord_env_at example_clock_13) Discord.init))
   = [] ∧
   Discord._last_daily_date
     (final_state (Discord.daily_summary_task (example_discord_env_at example_clock_13)
                     Discord.init))
   = None) ∧
  (Slack.in_window example_clock_17 = true ∧
   Slack._last_daily_date Slack.init ≠ Some (date_str example_clock_17) ∧
   SlackSpec.marks
     (events (Slack._daily_summary_turn (example_slack_env_at example_clock_17) Slack.init))
   = [] ∧
   Slack._last_daily_date
     (final_state (Slack._daily_summary_turn (example_slack_env_at example_clock_17) Slack.init))
   = None).
Proof. by vm_compute. Qed.

Section DailyOnce.

Lemma discord_marks_app w1 w2 :
  DiscordDailySpec.marks (w1 ++ w2) = DiscordDailySpec.marks w1 ++ DiscordDailySpec.marks w2.
Proof. apply omap_app. Qed.

Lemma slack_marks_app w1 w2 :
  SlackSpec.marks (w1 ++ w2) = SlackSpec.marks w1 ++ SlackSpec.marks w2.
Proof. apply omap_app. Qed.

(** When a tick of the Discord daily task starts a digest. *)
Lemma discord_daily_decision env (s : Discord.FlareBot) now :
  now_est (Discord.feed env) = Ok now →
  (Discord.subscribed_daily s ≠ ∅ ∧ Discord.in_window now = true ∧
   Discord._last_daily_date s ≠ Some (date_str now) →
   DiscordDailySpec.marks (events (Discord.daily_summary_task env s)) = [date_str now] ∧
   Discord._last_daily_date (final_state (Discord.daily_summary_task env s))
   = Some (date_str now)) ∧
  (¬ (Discord.subscribed_daily s ≠ ∅ ∧ Discord.in_window now = true ∧
      Discord._last_daily_date s ≠ Some (date_str now)) →
   DiscordDailySpec.marks (events (Discord.daily_summary_task env s)) = [] ∧
   final_state (Discord.daily_summary_task env s) = s).
Proof.
  intros Hnow. split.
  - intros (Hs & Hw & Hm). rewrite (daily_summary_task_fire env s now) by done.
    destruct (Discord.build_daily_summary_embed env now) as [embed|e]; simpl; [|done].
    split; [|done]. unfold DiscordDailySpec.marks. simpl. f_equal.
    apply fanout_log_marks.
  - intros Hno. destruct (daily_summary_task_cases env s) as [->|(now' & Hs & Hnow' & Hw & Hm)];
      [done|].
    rewrite Hnow in Hnow'. injection Hnow' as <-. by destruct Hno.
Qed.

(** When a turn of the Slack daily task starts a digest. *)
Lemma slack_daily_decision env (s : Slack.FlareSlackBot) now :
  now_est (Slack.feed env) = Ok now →
  (Slack.subscribed_daily s ≠ ∅ ∧ Slack.in_window now = true ∧
   Slack._last_daily_date s ≠ Some (date_str now) →
   SlackSpec.marks (events (Slack._daily_summary_turn env s)) = [date_str now] ∧
   Slack._last_daily_date (final_state (Slack._daily_summary_turn env s))
   = Some (date_str now)) ∧
  (¬ (Slack.subscribed_daily s ≠ ∅ ∧ Slack.in_window now = true ∧
      Slack._last_daily_date s ≠ Some (date_str now)) →
   SlackSpec.marks (events (Slack._daily_summary_turn env s)) = [] ∧
   final_state (Slack._daily_summary_turn env s) = s).
Proof.
  intros Hnow. split.
  - intros (Hs & Hw & Hm). rewrite (daily_summary_turn_fire env s now) by done.
    destruct (Slack._build_daily_summary_blocks env now) as [blocks|e]; simpl; [|done].
    split; [|done]. unfold SlackSpec.marks. simpl. f_equal.
    apply post_log_marks.
  - intros Hno. destruct (daily_summary_turn_cases env s) as [->|(now' & Hs & Hnow' & Hw & Hm)];
      [done|].
    rewrite Hnow in Hnow'. injection Hnow' as <-. by destruct Hno.
Qed.

End DailyOnce.

(** C4, amended.  In either bot a tick of the daily task starts the digest
    exactly when at least one destination is subscribed to it, the local
    time is inside the bot's window and the marker differs from today's
    local date; it then stores today's date in the marker whether or not
    the digest can be built and whatever the sends do, and otherwise leaves
    the bot as it was.  So no further tick showing the stored date starts a
    digest, a tick inside the window on another date starts one again, and
    over any schedule whose clock dates never go back the digests started
    are for distinct dates. *)
Theorem daily_digest_once :
  (∀ env (s : Discord.FlareBot) now,
     now_est (Discord.feed env) = Ok now →
     (Discord.subscribed_daily s ≠ ∅ ∧ Discord.in_window now = true ∧
      Discord._last_daily_date s ≠ Some (date_str now) →
      DiscordDailySpec.marks (events (Discord.daily_summary_task env s)) = [date_str now] ∧
      Discord._last_daily_date (final_state (Discord.daily_summary_task env s))
      = Some (date_str now)) ∧
     (¬ (Discord.subscribed_daily s ≠ ∅ ∧ Discord.in_window now = true ∧
         Discord._last_daily_date s ≠ Some (date_str now)) →
      DiscordDailySpec.marks (events (Discord.daily_summary_task env s)) = [] ∧
      final_state (Discord.daily_summary_task env s) = s)) ∧
  (∀ acts (s : Discord.FlareBot) D,
     Discord._last_daily_date s = Some D →
     Forall (λ a, DiscordDailySpec.date_of a = None ∨ DiscordDailySpec.date_of a = Some D) acts →
     DiscordDailySpec.marks (events (Discord.run acts s)) = [] ∧
     Discord._last_daily_date (final_state (Discord.run acts s)) = Some D) ∧
  (∀ acts (s : Discord.FlareBot),
     StronglySorted String.le (omap DiscordDailySpec.date_of acts) →
     (∀ m, Discord._last_daily_date s = Some m →
           Forall (String.le m) (omap DiscordDailySpec.date_of acts)) →
     NoDup (DiscordDailySpec.marks (events (Discord.run acts s)))) ∧
  (∀ env (s : Slack.FlareSlackBot) now,
     now_est (Slack.feed env) = Ok now →
     (Slack.subscribed_daily s ≠ ∅ ∧ Slack.in_window now = true ∧
      Slack._last_daily_date s ≠ Some (date_str now) →
      SlackSpec.marks (events (Slack._daily_summary_turn env s)) = [date_str now] ∧
      Slack._last_daily_date (final_state (Slack._daily_summary_turn env s))
      = Some (date_str now)) ∧
     (¬ (Slack.subscribed_daily s ≠ ∅ ∧ Slack.in_window now = true ∧
         Slack._last_daily_date s ≠ Some (date_str now)) →
      SlackSpec.marks (events (Slack._daily_summary_turn env s)) = [] ∧
      final_state (Slack._daily_summary_turn env s) = s)) ∧
  (∀ acts (s : Slack.FlareSlackBot) D,
     Slack._last_daily_date s = Some D →
     Forall (λ a, SlackSpec.date_of a = None ∨ SlackSpec.date_of a = Some D) acts →
     SlackSpec.marks (events (Slack.run acts s)) = [] ∧
     Slack._last_daily_date (final_state (Slack.run acts s)) = Some D) ∧
  (∀ acts (s : Slack.FlareSlackBot),
     StronglySorted String.le (omap SlackSpec.date_of acts) →
     (∀ m, Slack._last_daily_date s = Some m →
           Forall (String.le m) (omap SlackSpec.date_of acts)) →
     NoDup (SlackSpec.marks (events (Slack.run acts s)))).
Proof.
  split; [|split; [|split; [|split; [|split]]]].
  - apply discord_daily_decision.
  - intros acts s D. apply (run_marks_same_date Discord.step discord_step_ok
      Discord._last_daily_date DiscordDailySpec.date_of DiscordDailySpec.marks
      discord_marks_app eq_refl discord_step_mark).
  - intros acts s Hsort Hlow. apply (run_marks_bounded Discord.step discord_step_ok
      Discord._last_daily_date DiscordDailySpec.date_of DiscordDailySpec.marks
      discord_marks_app eq_refl discord_step_mark acts s Hsort Hlow).
  - apply slack_daily_decision.
  - intros acts s D. apply (run_marks_same_date Slack.step slack_step_ok
      Slack._last_daily_date SlackSpec.date_of SlackSpec.marks
      slack_marks_app eq_refl slack_step_mark).
  - intros acts s Hsort Hlow. apply (run_marks_bounded Slack.step slack_step_ok
      Slack._last_daily_date SlackSpec.date_of SlackSpec.marks
      slack_marks_app eq_refl slack_step_mark acts s Hsort Hlow).
Qed.

Lemma daily_digest_once_witness :
  (DiscordDailySpec.marks
     (events (Discord.daily_summary_task (example_discord_env_at example_clock_13)
                example_discord_bot_daily)) = ["2025-01-10"]) ∧
  (DiscordDailySpec.marks
     (events (Discord.run [Discord.Daily_summary (example_discord_env_at example_clock_13)]
                (Discord.set_last_daily_date (Some "2025-01-10") example_discord_bot_daily)))
   = []) ∧
  NoDup (DiscordDailySpec.marks
           (events (Discord.run
                      [Discord.Daily_summary (example_discord_env_at example_clock_13);
                       Discord.Daily_summary (example_discord_env_at example_clock_13_next)]
                      example_discord_bot_daily))) ∧
  (SlackSpec.marks
     (events (Slack._daily_summary_turn (example_slack_env_at example_clock_17)
                example_slack_bot_daily)) = ["2025-01-10"]) ∧
  (SlackSpec.marks
     (events (Slack.run [Slack.Daily_summary (example_slack_env_at example_clock_17)]
                (Slack.set_last_daily_date (Some "2025-01-10") example_slack_bot_daily)))
   = []) ∧
  NoDup (SlackSpec.marks
           (events (Slack.run
                      [Slack.Daily_summary (example_slack_env_at example_clock_17);
                       Slack.Daily_summary (example_slack_env_at example_clock_17_next)]
                      example_slack_bot_daily))).
Proof.
  destruct daily_digest_once as (D1 & D2 & D3 & S1 & S2 & S3).
  split; [|split; [|split; [|split; [|split]]]].
  - destruct (D1 (example_discord_env_at example_clock_13) example_discord_bot_daily
                example_clock_13 eq_refl) as [Hfire _].
    apply Hfire. split; [decide_compute|]. split; [reflexivity|discriminate].
  - apply (D2 _ _ "2025-01-10"); [reflexivity|].
    constructor; [right; reflexivity|constructor].
  - apply D3; [|intros m Hm; discriminate Hm].
    repeat constructor; vm_compute; exact I.
  - destruct (S1 (example_slack_env_at example_clock_17) example_slack_bot_daily
                example_clock_17 eq_refl) as [Hfire _].
    apply Hfire. split; [decide_compute|]. split; [reflexivity|discriminate].
  - apply (S2 _ _ "2025-01-10"); [reflexivity|].
    constructor; [right; reflexivity|constructor].
  - apply S3; [|intros m Hm; discriminate Hm].
    repeat constructor; vm_compute; exact I.
Defined.

(** ** The two bots side by side *)

(** C3, as the spec states it, fails: on the same feed, with one destination
    subscribed on each side and its send refused, the Discord bot drops the
    destination from its subscriptions and the Slack bot keeps it. *)
Lemma adapters_failure_policy_counterexample :
  (Discord.feed example_discord_env_refused = Slack.feed example_slack_env_refused) ∧
  (size (Discord.subscribed_flares example_discord_bot) = 1%nat) ∧
  (size (Slack.subscribed_channels example_slack_bot) = 1%nat) ∧
  (length (Discord.sends (events (Discord.flare_poll_task example_discord_env_refused
                                    example_discord_bot))) = 1%nat) ∧
  (length (Slack.posts (events (Slack._flare_poll_turn example_slack_env_refused
                                  example_slack_bot))) = 1%nat) ∧
  (size (Discord.subscribed_flares
           (final_state (Discord.flare_poll_task example_discord_env_refused
                           example_discord_bot))) = 0%nat) ∧
  (size (Slack.subscribed_channels
           (final_state (Slack._flare_poll_turn example_slack_env_refused example_slack_bot)))
   = 1%nat).
Proof. by vm_compute. Qed.

(** The window tests differ as well: at 17:02 local time the Slack test is
    true and the Discord test, which compares the hour with 13, is false. *)
Lemma daily_windows_differ :
  Slack.in_window example_clock_17 = true ∧ Discord.in_window example_clock_17 = false ∧
  Discord.in_window example_clock_13 = true ∧ Slack.in_window example_clock_13 = false.
Proof. done. Qed.

Section Compare.
Import CompareSpec.

Lemma failed_sends_fanout_log env embed l :
  discord_failed_sends (DiscordSpec.fanout_log env embed l)
  = List.filter (DiscordSpec.send_fails env embed) l.
Proof.
  unfold DiscordSpec.fanout_log, discord_failed_sends.
  induction l as [|a l IH]; [done|]. simpl. unfold DiscordSpec.send_fails at 1.
  destruct (DiscordSpec.deliverable env a); simpl; [|exact IH].
  destruct (Discord.channel_send env a embed) as [[]|e]; simpl; by rewrite <- IH.
Qed.

Lemma discord_built_fanout_log env embed l :
  discord_built (DiscordSpec.fanout_log env embed l) = 0%nat.
Proof.
  unfold discord_built, DiscordSpec.fanout_log.
  by induction (List.filter (DiscordSpec.deliverable env) l).
Qed.

Lemma discord_accepts_fanout_log env embed l :
  discord_accepts (DiscordSpec.fanout_log env embed l) = [].
Proof.
  unfold discord_accepts, DiscordSpec.fanout_log.
  by induction (List.filter (DiscordSpec.deliverable env) l).
Qed.

Lemma slack_built_post_log env text blocks l :
  slack_built (SlackSpec.post_log env text blocks l) = 0%nat.
Proof.
  unfold slack_built, SlackSpec.post_log.
  by induction (SlackSpec.attempts env text blocks l).
Qed.

Lemma slack_accepts_post_log env text blocks l :
  slack_accepts (SlackSpec.post_log env text blocks l) = [].
Proof.
  unfold slack_accepts, SlackSpec.post_log.
  by induction (SlackSpec.attempts env text blocks l).
Qed.

Lemma discord_new_log env embed l id :
  discord_accepts (Discord.EvAccept id :: Discord.EvBuilt embed
                     :: DiscordSpec.fanout_log env embed l) = [id] ∧
  discord_built (Discord.EvAccept id :: Discord.EvBuilt embed
                   :: DiscordSpec.fanout_log env embed l) = 1%nat ∧
  discord_failed_sends (Discord.EvAccept id :: Discord.EvBuilt embed
                          :: DiscordSpec.fanout_log env embed l)
  = List.filter (DiscordSpec.send_fails env embed) l.
Proof.
  split; [|split].
  - change (id :: discord_accepts (DiscordSpec.fanout_log env embed l) = [id]).
    by rewrite discord_accepts_fanout_log.
  - change (S (discord_built (DiscordSpec.fanout_log env embed l)) = 1%nat).
    by rewrite discord_built_fanout_log.
  - change (discord_failed_sends (DiscordSpec.fanout_log env embed l)
            = List.filter (DiscordSpec.send_fails env embed) l).
    apply failed_sends_fanout_log.
Qed.

Lemma slack_new_log env text blocks l id :
  slack_accepts (Slack.EvAccept id :: Slack.EvBuilt blocks
                   :: SlackSpec.post_log env text blocks l) = [id] ∧
  slack_built (Slack.EvAccept id :: Slack.EvBuilt blocks
                 :: SlackSpec.post_log env text blocks l) = 1%nat.
Proof.
  split.
  - change (id :: slack_accepts (SlackSpec.post_log env text blocks l) = [id]).
    by rewrite slack_accepts_post_log.
  - change (S (slack_built (SlackSpec.post_log env text blocks l)) = 1%nat).
    by rewrite slack_built_post_log.
Qed.

Lemma set_map_empty_iff (ι : Z → string) (X : gset Z) :
  (set_map ι X : gset string) = ∅ ↔ X = ∅.
Proof. set_solver. Qed.

End Compare.

Section Agreement.
Import CompareSpec.

Lemma poll_agreement_idle ι envD envS sD sS :
  Discord.seen_flare_ids sD = Slack.seen_flare_ids sS →
  Discord.flare_poll_task envD sD = (sD, [], Ok tt) →
  Slack._flare_poll_turn envS sS = (sS, [], Ok tt) →
  poll_agreement ι envD envS sD sS.
Proof.
  intros Hseen HD HS. unfold poll_agreement. rewrite HD, HS. simpl.
  repeat split; try done. set_solver.
Qed.

Lemma poll_agreement_new ι envD envS sD sS r :
  Inj (=) (=) ι →
  Discord.feed envD = Slack.feed envS →
  Discord.seen_flare_ids sD = Slack.seen_flare_ids sS →
  Slack.subscribed_channels sS = set_map ι (Discord.subscribed_flares sD) →
  Discord.subscribed_flares sD ≠ ∅ →
  fetch_latest_flare (Discord.feed envD) = Ok (JDict r) →
  qualifies r →
  flare_id_of r ∉ Discord.seen_flare_ids sD →
  poll_agreement ι envD envS sD sS.
Proof.
  intros Hinj Hfeed Hseen Hsubs Hne Hf Hq Hnew. unfold poll_agreement.
  rewrite (flare_poll_task_new envD sD r) by done.
  rewrite (flare_poll_turn_new envS sS r); cycle 1.
  { rewrite Hsubs. by rewrite set_map_empty_iff. }
  { by rewrite <- Hfeed. }
  { done. }
  { by rewrite <- Hseen. }
  pose proof (formatters_fail_together (Discord.feed envD) r) as Hfmt.
  rewrite <- Hfeed.
  destruct (Discord.format_flare_embed (Discord.feed envD) (JDict r)) as [embed|e];
    destruct (Slack._format_flare_blocks (Discord.feed envD) (JDict r)) as [blocks|e'];
    try discriminate Hfmt; unfold events, final_state; cbn [fst snd].
  - destruct (discord_new_log envD embed (elements (Discord.subscribed_flares sD))
                (flare_id_of r)) as (-> & -> & ->).
    destruct (slack_new_log envS SlackSpec.flare_text blocks
                (elements (Slack.subscribed_channels sS)) (flare_id_of r)) as (-> & ->).
    split; [done|]. split; [simpl; by rewrite Hseen|]. split; [done|].
    split; [|split; [done|done]].
    intros Hdel Hesc ch_id. unfold DiscordSpec.sends_to, SlackSpec.posts_to.
    change (Discord.sends (Discord.EvAccept (flare_id_of r) :: Discord.EvBuilt embed
              :: DiscordSpec.fanout_log envD embed (elements (Discord.subscribed_flares sD))))
      with (Discord.sends
              (DiscordSpec.fanout_log envD embed (elements (Discord.subscribed_flares sD)))).
    change (Slack.posts (Slack.EvAccept (flare_id_of r) :: Slack.EvBuilt blocks
              :: SlackSpec.post_log envS SlackSpec.flare_text blocks
                   (elements (Slack.subscribed_channels sS))))
      with (Slack.posts (SlackSpec.post_log envS SlackSpec.flare_text blocks
                           (elements (Slack.subscribed_channels sS)))).
    rewrite fanout_log_sends, post_log_posts.
    rewrite count_fst_map, count_once by apply NoDup_elements.
    rewrite attempts_all by (intros; apply Hesc).
    pose proof (count_once (λ _, true) (elements (Slack.subscribed_channels sS)) (ι ch_id)
                  (NoDup_elements _)) as Hcount.
    rewrite filter_true, andb_true_r in Hcount.
    assert (length (List.filter
              (λ p : string * string * option (list Slack.block), bool_decide (p.1.1 = ι ch_id))
              ((λ c, (c, SlackSpec.flare_text, Some blocks))
                 <$> elements (Slack.subscribed_channels sS)))
            = length (List.filter (λ x, bool_decide (x = ι ch_id))
                        (elements (Slack.subscribed_channels sS)))) as ->.
    { clear. induction (elements (Slack.subscribed_channels sS)) as [|x l IH]; [done|].
      rewrite fmap_cons. simpl. destruct (bool_decide (x = ι ch_id)); simpl; by rewrite IH. }
    rewrite Hcount.
    rewrite (bool_decide_ext _ _ (elem_of_elements (Discord.subscribed_flares sD) ch_id)).
    rewrite (bool_decide_ext _ _ (elem_of_elements (Slack.subscribed_channels sS) (ι ch_id))).
    rewrite Hsubs.
    destruct (decide (ch_id ∈ Discord.subscribed_flares sD)) as [Hin|Hnin].
    + rewrite !bool_decide_eq_true_2; [by rewrite Hdel|set_solver|done].
    + rewrite !bool_decide_eq_false_2; [done| |done].
      intros (x & Hx & Hin)%elem_of_map. apply Hinj in Hx as <-. done.
  - simpl. repeat split; try done; [by rewrite Hseen|set_solver].
Qed.

End Agreement.

(** C3, amended.  On the same feed, with equal seen sets and subscriptions
    that correspond under a one-to-one naming of the destinations, the
    Discord and the Slack poll task make the same classification and
    deduplication decisions: they accept the same event id or none, end
    with equal seen sets, and build a message in the same cycles.  When
    every subscribed Discord id resolves to a text channel or thread and no
    Slack send raises an error other than SlackApiError, they send to
    corresponding destinations, once each.  On a failed send they differ:
    Discord drops from its subscriptions exactly the destinations whose
    send raised, Slack keeps every subscription.  The two daily tasks apply
    the same rule for starting a digest (a subscriber exists, the tick is
    inside the bot's own window, the marker differs from today's date) and
    store the same marker, each tick being inside or outside its bot's own
    window alike. *)
Theorem adapters_agree :
  (∀ (ι : Z → string) envD envS (sD : Discord.FlareBot) (sS : Slack.FlareSlackBot),
     Inj (=) (=) ι →
     Discord.feed envD = Slack.feed envS →
     Discord.seen_flare_ids sD = Slack.seen_flare_ids sS →
     Slack.subscribed_channels sS = set_map ι (Discord.subscribed_flares sD) →
     CompareSpec.poll_agreement ι envD envS sD sS) ∧
  (∀ envD envS (sD : Discord.FlareBot) (sS : Slack.FlareSlackBot) nowD nowS,
     now_est (Discord.feed envD) = Ok nowD →
     now_est (Slack.feed envS) = Ok nowS →
     date_str nowD = date_str nowS →
     Discord.in_window nowD = Slack.in_window nowS →
     Discord._last_daily_date sD = Slack._last_daily_date sS →
     (Discord.subscribed_daily sD = ∅ ↔ Slack.subscribed_daily sS = ∅) →
     DiscordDailySpec.marks (events (Discord.daily_summary_task envD sD))
       = SlackSpec.marks (events (Slack._daily_summary_turn envS sS)) ∧
     Discord._last_daily_date (final_state (Discord.daily_summary_task envD sD))
       = Slack._last_daily_date (final_state (Slack._daily_summary_turn envS sS))).
Proof.
  split.
  - intros ι envD envS sD sS Hinj Hfeed Hseen Hsubs.
    assert (Discord.subscribed_flares sD = ∅ ↔ Slack.subscribed_channels sS = ∅) as Hempty.
    { rewrite Hsubs. by rewrite set_map_empty_iff. }
    destruct (flare_poll_task_cases envD sD) as [HD|(r & Hne & Hf & Hq & Hnew)].
    + destruct (flare_poll_turn_cases envS sS) as [HS|(r & Hne & Hf & Hq & Hnew)].
      * by apply poll_agreement_idle.
      * apply (poll_agreement_new ι envD envS sD sS r); try done.
        -- by rewrite Hempty.
        -- by rewrite Hfeed.
        -- by rewrite Hseen.
    + by apply (poll_agreement_new ι envD envS sD sS r).
  - intros envD envS sD sS nowD nowS HnowD HnowS Hdate Hwin Hmark Hsubs.
    destruct (discord_daily_decision envD sD nowD HnowD) as [HDfire HDidle].
    destruct (slack_daily_decision envS sS nowS HnowS) as [HSfire HSidle].
    destruct (decide (Discord.subscribed_daily sD ≠ ∅ ∧ Discord.in_window nowD = true ∧
                      Discord._last_daily_date sD ≠ Some (date_str nowD))) as [HC|HC].
    + destruct (HDfire HC) as [-> ->]. destruct HC as (H1 & H2 & H3).
      destruct HSfire as [-> ->]; [|by rewrite Hdate].
      split; [by rewrite <- Hsubs|]. split; [by rewrite <- Hwin|].
      by rewrite <- Hmark, <- Hdate.
    + destruct (HDidle HC) as [-> ->].
      destruct HSidle as [-> ->]; [|done].
      intros (H1 & H2 & H3). apply HC.
      split; [by rewrite Hsubs|]. split; [by rewrite Hwin|]. by rewrite Hmark, Hdate.
Qed.

Lemma adapters_agree_witness :
  (∀ ch_id,
     DiscordSpec.sends_to ch_id
       (events (Discord.flare_poll_task example_discord_env_refused example_discord_bot))
     = SlackSpec.posts_to ("C" +:+ pretty ch_id)
         (events (Slack._flare_poll_turn example_slack_env_refused example_slack_bot))) ∧
  DiscordDailySpec.marks
    (events (Discord.daily_summary_task (example_discord_env_at example_clock_13)
               example_discord_bot_daily))
  = SlackSpec.marks
      (events (Slack._daily_summary_turn (example_slack_env_at example_clock_17)
                 example_slack_bot_daily)).
Proof.
  destruct adapters_agree as [Hpoll Hdaily]. split.
  - destruct (Hpoll (λ n, "C" +:+ pretty n) example_discord_env_refused
                example_slack_env_refused example_discord_bot example_slack_bot)
      as (_ & _ & _ & Hsend & _).
    + intros x y Hxy. injection Hxy as Hxy. by apply (inj pretty).
    + reflexivity.
    + reflexivity.
    + vm_compute. reflexivity.
    + apply Hsend.
      * intros ch_id _. reflexivity.
      * intros c t b. reflexivity.
  - apply (Hdaily (example_discord_env_at example_clock_13)
             (example_slack_env_at example_clock_17) _ _ example_clock_13 example_clock_17).
    + reflexivity.
    + reflexivity.
    + reflexivity.
    + reflexivity.
    + reflexivity.
    + split; intros H; exfalso; revert H; decide_compute.
Defined.

(** * Further properties *)

Section Strings.

Lemma length_append a b : String.length (a +:+ b) = (String.length a + String.length b)%nat.
Proof. induction a as [|c a IH]; simpl; [done|]. by rewrite IH. Qed.

End Strings.

(** ** The alert and forecast fetchers *)

Section FetchAlerts.

Lemma fetch_alerts_step_text acc a s :
  alert_text a = Some s →
  fetch_alerts_step acc a = Ok (if mentions_flare a then acc ++ [a] else acc).
Proof.
  unfold mentions_flare. intros H. rewrite H. revert H.
  unfold alert_text, fetch_alerts_step.
  destruct a as [v|d|l]; try done. simpl.
  destruct (py_or (py_or (dict_get d "message") (dict_get d "summary")) (PStr "")); try done.
  intros [= <-]. simpl.
  by destruct (str_contains "flare" (lower s0) || str_contains "x-ray" (lower s0)
               || str_contains "xray" (lower s0)).
Qed.

Lemma fetch_alerts_step_raises acc a :
  alert_text a = None → ∃ e, fetch_alerts_step acc a = Raise e.
Proof.
  unfold alert_text, fetch_alerts_step.
  destruct a as [v|d|l]; simpl; eauto.
  destruct (py_or (py_or (dict_get d "message") (dict_get d "summary")) (PStr ""));
    simpl; eauto. done.
Qed.

Lemma fetch_alerts_loop_filter acc l :
  Forall (λ a, is_Some (alert_text a)) l →
  fetch_alerts_loop acc l = Ok (acc ++ List.filter mentions_flare l).
Proof.
  intros H. revert acc. induction H as [|a l [s Hs] _ IH]; intros acc; simpl.
  { by rewrite app_nil_r. }
  rewrite (fetch_alerts_step_text acc a s Hs). simpl.
  destruct (mentions_flare a); rewrite IH; [|done].
  by rewrite <- app_assoc.
Qed.

Lemma fetch_alerts_loop_raises acc l :
  Exists (λ a, alert_text a = None) l → ∃ e, fetch_alerts_loop acc l = Raise e.
Proof.
  intros H. revert acc. induction H as [a l Ha|a l _ IH]; intros acc; simpl.
  - destruct (fetch_alerts_step_raises acc a Ha) as [e ->]. simpl. eauto.
  - destruct (fetch_alerts_step acc a) as [acc'|e]; simpl; eauto.
Qed.

Lemma slice_from_last {A} (n : Z) (l : list A) :
  (0 < n)%Z → slice_from (- n) l = drop (length l - Z.to_nat n) l.
Proof.
  intros Hn. unfold slice_from.
  destruct (- n <? 0)%Z eqn:E; [|lia]. f_equal. lia.
Qed.

End FetchAlerts.

(** X1.  On a payload that is a list of records whose message (or summary)
    is a string or missing, [fetch_alerts] returns the alerts whose text
    mentions a flare keyword, in feed order, cut to the last [limit] of
    them when [limit] is positive. *)
Theorem fetch_alerts_last_matching (w : Feed) (limit : Z) (l : list json) :
  http_get_json w ENDPOINTS_alerts = Ok (JList l) →
  Forall (λ a, is_Some (alert_text a)) l →
  (0 < limit)%Z →
  ∃ alerts,
    fetch_alerts w limit = Ok alerts ∧
    alerts `suffix_of` List.filter mentions_flare l ∧
    length alerts = (Z.to_nat limit `min` length (List.filter mentions_flare l))%nat.
Proof.
  intros Hget Hl Hlim. unfold fetch_alerts. rewrite Hget. simpl.
  rewrite (fetch_alerts_loop_filter [] l Hl). simpl.
  rewrite slice_from_last by done.
  eexists. split; [done|]. split.
  - apply suffix_drop.
  - rewrite length_drop. lia.
Qed.

Lemma fetch_alerts_last_matching_witness :
  let w := {| http_get_json := λ _, Ok (JList
                [JDict {[ "message" := PStr "X-ray flare event" ]};
                 JDict {[ "message" := PStr "Geomagnetic storm watch" ]};
                 JDict {[ "summary" := PStr "M-class FLARE" ]};
                 JDict {[ "message" := PStr "Proton flare" ]}]);
              convert_str_to_est := λ s, s;
              utcnow_iso_with_est := Ok "now";
              now_est := Raise ZoneInfoNotFoundError |} in
  ∃ alerts, fetch_alerts w 2 = Ok alerts ∧ length alerts = 2%nat.
Proof.
  intros w.
  destruct (fetch_alerts_last_matching w 2 _ eq_refl) as (alerts & H & _ & Hlen).
  - repeat (apply Forall_cons; split; [eexists; vm_compute; reflexivity|]). apply Forall_nil_2.
  - lia.
  - exists alerts. split; [exact H|]. rewrite Hlen. by vm_compute.
Defined.

(** X2.  The limit is a slice bound, not a count: on such a payload a limit
    of 0 returns every matching alert, and a negative limit [-k] returns
    all but the first [k]. *)
Theorem fetch_alerts_limit_not_positive (w : Feed) (limit : Z) (l : list json) :
  http_get_json w ENDPOINTS_alerts = Ok (JList l) →
  Forall (λ a, is_Some (alert_text a)) l →
  (limit <= 0)%Z →
  fetch_alerts w limit = Ok (drop (Z.to_nat (- limit)) (List.filter mentions_flare l)) ∧
  (limit = 0%Z → fetch_alerts w limit = Ok (List.filter mentions_flare l)).
Proof.
  intros Hget Hl Hlim. unfold fetch_alerts. rewrite Hget. simpl.
  rewrite (fetch_alerts_loop_filter [] l Hl). simpl.
  assert (slice_from (- limit) (List.filter mentions_flare l)
          = drop (Z.to_nat (- limit)) (List.filter mentions_flare l)) as ->.
  { unfold slice_from. destruct (- limit <? 0)%Z eqn:E; [lia|].
    destruct (Z.min_spec (- limit) (Z.of_nat (length (List.filter mentions_flare l))))
      as [[? ->]|[? ->]]; [done|].
    rewrite Nat2Z.id, drop_all. symmetry. apply drop_ge. lia. }
  split; [done|]. by intros ->.
Qed.

Lemma fetch_alerts_limit_not_positive_witness :
  let w := {| http_get_json := λ _, Ok (JList
                [JDict {[ "message" := PStr "X-ray flare event" ]};
                 JDict {[ "message" := PStr "Proton flare" ]}]);
              convert_str_to_est := λ s, s;
              utcnow_iso_with_est := Ok "now";
              now_est := Raise ZoneInfoNotFoundError |} in
  ∃ alerts, fetch_alerts w 0 = Ok alerts ∧ length alerts = 2%nat.
Proof.
  intros w.
  destruct (fetch_alerts_limit_not_positive w 0 _ eq_refl) as [_ H].
  - repeat (apply Forall_cons; split; [eexists; vm_compute; reflexivity|]). apply Forall_nil_2.
  - lia.
  - eexists. split; [by apply H|]. by vm_compute.
Defined.

(** X3.  One entry of the payload that is not a record, or whose message
    (or summary) is a truthy value that is not a string, makes
    [fetch_alerts] return the empty list, whatever the other entries hold. *)
Theorem fetch_alerts_malformed_entry (w : Feed) (limit : Z) (l : list json) :
  http_get_json w ENDPOINTS_alerts = Ok (JList l) →
  Exists (λ a, alert_text a = None) l →
  fetch_alerts w limit = Ok [].
Proof.
  intros Hget Hl. unfold fetch_alerts. rewrite Hget. simpl.
  by destruct (fetch_alerts_loop_raises [] l Hl) as [e ->].
Qed.

Lemma fetch_alerts_malformed_entry_witness :
  let w := {| http_get_json := λ _, Ok (JList
                [JDict {[ "message" := PStr "X-ray flare event" ]};
                 JDict {[ "message" := PInt 7 ]}]);
              convert_str_to_est := λ s, s;
              utcnow_iso_with_est := Ok "now";
              now_est := Raise ZoneInfoNotFoundError |} in
  fetch_alerts w 5 = Ok [].
Proof.
  intros w. apply (fetch_alerts_malformed_entry w 5 _ eq_refl).
  apply Exists_cons_tl, Exists_cons_hd. by vm_compute.
Defined.

(** X4.  [fetch_flare_forecast] never raises and returns at most three
    entries: the first entries of the payload list, in feed order. *)
Theorem fetch_flare_forecast_first_three (w : Feed) :
  ∃ forecast,
    fetch_flare_forecast w = Ok forecast ∧
    (length forecast <= 3)%nat ∧
    (∀ l, http_get_json w ENDPOINTS_flare_forecast = Ok (JList l) →
          forecast `prefix_of` l ∧ length forecast = (3 `min` length l)%nat).
Proof.
  unfold fetch_flare_forecast.
  destruct (http_get_json w ENDPOINTS_flare_forecast) as [[v|d|l]|e]; simpl.
  1,2,4: (eexists; split; [done|]; split; [simpl; lia|done]).
  eexists. split; [done|]. split.
  - rewrite length_take. lia.
  - intros ? [= <-]. split; [apply prefix_take|]. by rewrite length_take.
Qed.

(** ** The magnitude the parser reads *)

Section Magnitude.

Lemma upper_app a b : upper (a +:+ b) = upper a +:+ upper b.
Proof. unfold upper. induction a as [|c a IH]; simpl; [done|]. by rewrite IH. Qed.

Lemma is_digit_upper_char c : is_digit (upper_char c) = is_digit c.
Proof. destruct c as [[] [] [] [] [] [] [] []]; reflexivity. Qed.

Lemma upper_char_digit c : is_digit c = true → upper_char c = c.
Proof. destruct c as [[] [] [] [] [] [] [] []]; simpl; done. Qed.

Lemma upper_digits ds : all_digits ds = true → upper ds = ds.
Proof.
  unfold upper. induction ds as [|c ds IH]; simpl; [done|].
  intros [Hc Hd]%andb_prop. by rewrite (upper_char_digit c Hc), IH.
Qed.

Lemma starts_nondigit_upper s : starts_nondigit s → starts_nondigit (upper s).
Proof. destruct s as [|c s]; simpl; [done|]. by rewrite is_digit_upper_char. Qed.

Lemma no_fraction_upper s : no_fraction s → no_fraction (upper s).
Proof.
  destruct s as [|c s]; simpl; [done|]. rewrite is_digit_upper_char.
  intros [Hd Hdot]. split; [done|]. intros Hc.
  apply starts_nondigit_upper, Hdot.
  revert Hc. clear. destruct c as [[] [] [] [] [] [] [] []]; simpl; done.
Qed.

Lemma match_number_fraction ip fp tail :
  all_digits ip = true → ip ≠ "" → all_digits fp = true → fp ≠ "" → starts_nondigit tail →
  match_number (ip +:+ "." +:+ fp +:+ tail) = Some (ip +:+ "." +:+ fp).
Proof.
  intros Hip Hne Hfp Hnf Ht. unfold match_number.
  rewrite (span_digits_app ip ("." +:+ fp +:+ tail) Hip eq_refl).
  destruct ip as [|c ip]; [done|]. simpl.
  rewrite (span_digits_app fp tail Hfp Ht).
  by destruct fp.
Qed.

Lemma match_number_integer ip tail :
  all_digits ip = true → ip ≠ "" → no_fraction tail →
  match_number (ip +:+ tail) = Some ip.
Proof.
  intros Hip Hne Ht. unfold match_number.
  assert (starts_nondigit tail) as Hs by (destruct tail; [done|apply Ht]).
  rewrite (span_digits_app ip tail Hip Hs).
  destruct ip as [|c ip]; [done|].
  destruct tail as [|d rest]; [done|].
  destruct Ht as [Hd Hdot].
  destruct (decide (d = "."%char)) as [->|Hn].
  - destruct (span_digits rest) as [fp tl] eqn:Hf.
    apply span_digits_split in Hf as (-> & Hfp & _).
    specialize (Hdot eq_refl).
    destruct fp as [|f fp]; [done|]. simpl in Hdot, Hfp.
    rewrite Hdot in Hfp. done.
  - clear -Hn. destruct d as [[] [] [] [] [] [] [] []]; done.
Qed.

Lemma upper_char_class_letter c :
  is_class_letter (upper_char c) = true → upper_char (upper_char c) = upper_char c.
Proof. destruct c as [[] [] [] [] [] [] [] []]; simpl; done. Qed.

Lemma append_nil s : s +:+ "" = s.
Proof. induction s as [|c s IH]; simpl; [done|]. by rewrite IH. Qed.

(** The two shapes of a class text: what [float] is given. *)
Lemma parse_flare_class_integer c ip tail :
  is_class_letter (upper_char c) = true →
  all_digits ip = true → ip ≠ "" → no_fraction tail →
  parse_flare_class (PStr (String c (ip +:+ tail)))
  = (f ← py_float ip; Ok (Some (String (upper_char c) ""), Some f)).
Proof.
  intros Hc Hip Hne Ht. unfold parse_flare_class. simpl.
  change (str_map upper_char (ip +:+ tail)) with (upper (ip +:+ tail)).
  rewrite upper_app, (upper_digits ip Hip), Hc.
  by rewrite (match_number_integer ip (upper tail) Hip Hne (no_fraction_upper _ Ht)).
Qed.

Lemma parse_flare_class_fraction c ip fp tail :
  is_class_letter (upper_char c) = true →
  all_digits ip = true → ip ≠ "" → all_digits fp = true → fp ≠ "" → starts_nondigit tail →
  parse_flare_class (PStr (String c (ip +:+ "." +:+ fp +:+ tail)))
  = (f ← py_float (ip +:+ "." +:+ fp); Ok (Some (String (upper_char c) ""), Some f)).
Proof.
  intros Hc Hip Hne Hfp Hnf Ht. unfold parse_flare_class. simpl.
  change (str_map upper_char (ip +:+ "." +:+ fp +:+ tail))
    with (upper (ip +:+ "." +:+ fp +:+ tail)).
  rewrite upper_app.
  change (upper (String "." (fp +:+ tail))) with ("." +:+ upper (fp +:+ tail)).
  rewrite upper_app, (upper_digits ip Hip), (upper_digits fp Hfp), Hc.
  by rewrite (match_number_fraction ip fp (upper tail) Hip Hne Hfp Hnf
                (starts_nondigit_upper _ Ht)).
Qed.

End Magnitude.

(** X5.  The parser reads the class letter and the number after it, and
    nothing else.  For a class letter B, C, M or X in either case followed
    by digits, the result is that of the upper-case letter followed by the
    same number: the case of the letter and the text after the number are
    ignored (the integer when no fraction follows, the digits, the dot and
    the digits after it otherwise).  An integer of at most 15 digits is
    returned exactly.  Whatever follows the digits, the letter returned is
    the upper-case letter, and the parser does not raise. *)
Theorem parse_flare_class_reads_number (c : ascii) (ip : string) :
  is_class_letter (upper_char c) = true →
  all_digits ip = true → ip ≠ "" →
  (∀ tail, no_fraction tail →
     parse_flare_class (PStr (String c (ip +:+ tail)))
     = parse_flare_class (PStr (String (upper_char c) ip)) ∧
     ((String.length ip <= 15)%nat →
      parse_flare_class (PStr (String c (ip +:+ tail)))
      = Ok (Some (String (upper_char c) ""),
            Some (inject_Z (Z.of_N (digits_value 0 ip)))))) ∧
  (∀ fp tail, all_digits fp = true → fp ≠ "" → starts_nondigit tail →
     parse_flare_class (PStr (String c (ip +:+ "." +:+ fp +:+ tail)))
     = parse_flare_class (PStr (String (upper_char c) (ip +:+ "." +:+ fp)))) ∧
  (∀ rest, match parse_flare_class (PStr (String c (ip +:+ rest))) with
           | Ok (class_letter, _) => class_letter = Some (String (upper_char c) "")
           | Raise _ => False
           end).
Proof.
  intros Hc Hip Hne.
  pose proof (upper_char_class_letter c Hc) as Hcc.
  assert (is_class_letter (upper_char (upper_char c)) = true) as Hc' by (by rewrite Hcc).
  split; [|split].
  - intros tail Ht. split.
    + rewrite (parse_flare_class_integer c ip tail Hc Hip Hne Ht).
      rewrite <- (append_nil ip) at 2.
      rewrite (parse_flare_class_integer (upper_char c) ip "" Hc' Hip Hne I).
      by rewrite Hcc.
    + intros _. rewrite (parse_flare_class_integer c ip tail Hc Hip Hne Ht).
      unfold py_float. rewrite (span_digits_all _ Hip). by destruct ip.
  - intros fp tail Hfp Hnf Ht.
    rewrite (parse_flare_class_fraction c ip fp tail Hc Hip Hne Hfp Hnf Ht).
    assert (ip +:+ "." +:+ fp = ip +:+ "." +:+ fp +:+ "") as E by (by rewrite append_nil).
    rewrite E at 2.
    rewrite (parse_flare_class_fraction (upper_char c) ip fp "" Hc' Hip Hne Hfp Hnf I).
    by rewrite Hcc.
  - intros rest.
    destruct (parse_flare_class_str (String c (ip +:+ rest)))
      as [[Hnot _]|(l & q & g2 & _ & -> & Hl & _ & Hpre & _)].
    + destruct Hnot. destruct ip as [|d ip]; [done|].
      apply andb_prop in Hip as [Hd _].
      exists (upper_char c), (upper_char d), (upper (ip +:+ rest)).
      split; [done|]. split; [done|]. by rewrite is_digit_upper_char.
    + f_equal. apply list_elem_of_In in Hl. simpl in Hl.
      unfold upper in Hpre.
      destruct Hl as [<-|[<-|[<-|[<-|[]]]]];
        cbn [str_map String.append String.prefix] in Hpre;
        (destruct (ascii_dec _ (upper_char c)) as [<-|]; [done|discriminate]).

Qed.

Lemma parse_flare_class_reads_number_witness :
  parse_flare_class (PStr "m2 (preliminary)") = Ok (Some "M", Some (inject_Z 2)) ∧
  parse_flare_class (PStr "x12.50 peak") = parse_flare_class (PStr "X12.50").
Proof.
  destruct (parse_flare_class_reads_number "m" "2") as (Hint & _ & _); [done..|].
  destruct (parse_flare_class_reads_number "x" "12") as (_ & Hfrac & _); [done..|].
  split.
  - apply (Hint " (preliminary)"); [by split|simpl; lia].
  - apply (Hfrac "50" " peak"); done.
Defined.

(** ** The deduplication id *)

Section FlareId.

Lemma str_contains_sep a b : str_contains "_" (a +:+ "_" +:+ b) = true.
Proof.
  induction a as [|c a IH]; simpl.
  - by destruct b.
  - simpl in IH. rewrite IH. apply orb_true_r.
Qed.

Lemma app_sep_inj a b a' b' :
  str_contains "_" b = false → str_contains "_" b' = false →
  a +:+ "_" +:+ b = a' +:+ "_" +:+ b' → a = a' ∧ b = b'.
Proof.
  intros Hb Hb'. revert a'. induction a as [|x a IH]; intros [|y a']; simpl.
  - by intros [= ->].
  - intros [= <- ->]. pose proof (str_contains_sep a' b') as H. simpl in H. congruence.
  - intros [= -> <-]. pose proof (str_contains_sep a b) as H. simpl in H. congruence.
  - intros [= <- H]. destruct (IH a' H) as [-> ->]. done.
Qed.

End FlareId.

(** X6.  The event id keeps the time and the class apart: when neither
    class text holds an underscore, two ids are equal only if the time
    texts are equal and the class texts are equal. *)
Theorem make_flare_id_injective (t1 c1 t2 c2 : pyval) :
  str_contains "_" (py_str c1) = false →
  str_contains "_" (py_str c2) = false →
  make_flare_id t1 c1 = make_flare_id t2 c2 →
  py_str t1 = py_str t2 ∧ py_str c1 = py_str c2.
Proof. intros H1 H2. unfold make_flare_id. by apply app_sep_inj. Qed.

Lemma make_flare_id_injective_witness :
  py_str (PStr "2025-01-10T14:32:00Z") = py_str (PStr "2025-01-10T14:32:00Z") ∧
  py_str (PStr "X2.5") = py_str (PStr "X2.5").
Proof.
  apply (make_flare_id_injective (PStr "2025-01-10T14:32:00Z") (PStr "X2.5")
           (PStr "2025-01-10T14:32:00Z") (PStr "X2.5")); reflexivity.
Defined.

(** ** A poll that finds nothing new *)

(** X7.  A poll acts only on a new M or X flare: unless a destination is
    subscribed and the first entry of the feed is a record whose class
    qualifies and whose id is not in the seen set, the poll of either bot
    raises nothing, sends nothing and leaves the bot exactly as it was,
    whatever else the feed holds (an entry that is not a record, a class
    that is not a string). *)
Theorem poll_acts_only_on_new_flare :
  (∀ env (s : Discord.FlareBot),
     ¬ (∃ r, Discord.subscribed_flares s ≠ ∅ ∧
             fetch_latest_flare (Discord.feed env) = Ok (JDict r) ∧
             qualifies r ∧ flare_id_of r ∉ Discord.seen_flare_ids s) →
     Discord.flare_poll_task env s = (s, [], Ok tt)) ∧
  (∀ env (s : Slack.FlareSlackBot),
     ¬ (∃ r, Slack.subscribed_channels s ≠ ∅ ∧
             fetch_latest_flare (Slack.feed env) = Ok (JDict r) ∧
             qualifies r ∧ flare_id_of r ∉ Slack.seen_flare_ids s) →
     Slack._flare_poll_turn env s = (s, [], Ok tt)).
Proof.
  split.
  - intros env s Hn. by destruct (flare_poll_task_cases env s).
  - intros env s Hn. by destruct (flare_poll_turn_cases env s).
Qed.

Lemma poll_acts_only_on_new_flare_witness :
  let env := {| Discord.feed :=
                  {| http_get_json := λ _, Ok (JList [JDict {[ "max_class" := PInt 5 ]}]);
                     convert_str_to_est := λ s, s;
                     utcnow_iso_with_est := Ok "now";
                     now_est := Raise ZoneInfoNotFoundError |};
                Discord.get_channel := λ _, Some Discord.TextChannel;
                Discord.channel_send := λ _ _, Ok tt;
                Discord.build_daily_summary_embed := λ _, Raise ClientError |} in
  Discord.flare_poll_task env example_discord_bot = (example_discord_bot, [], Ok tt).
Proof.
  intros env. destruct poll_acts_only_on_new_flare as [H _]. apply H.
  intros (r & _ & Hf & Hq & _). vm_compute in Hf. injection Hf as <-.
  by vm_compute in Hq.
Defined.

(** ** A flare that is in the feed before anyone subscribes *)

Section Backlog.

Lemma discord_poll_no_subscriber env (s : Discord.FlareBot) :
  Discord.subscribed_flares s = ∅ → Discord.flare_poll_task env s = (s, [], Ok tt).
Proof. intros H. unfold Discord.flare_poll_task. pym_run. by case_bool_decide. Qed.

Lemma slack_poll_no_subscriber env (s : Slack.FlareSlackBot) :
  Slack.subscribed_channels s = ∅ → Slack._flare_poll_turn env s = (s, [], Ok tt).
Proof. intros H. unfold Slack._flare_poll_turn. pym_run. by case_bool_decide. Qed.

Lemma slack_subscribe_flares_state env c (s : Slack.FlareSlackBot) :
  final_state (Slack.step (Slack.Subscribe_flares env c) s)
  = Slack.set_subscribed_channels (λ subs, {[c]} ∪ subs) s.
Proof.
  unfold Slack.step, Slack.handled, Slack._cmd_subscribe_flares, Slack._send_message.
  pym_run.
  repeat match goal with
  | |- context [Slack.chat_postMessage ?e ?c ?t ?b] =>
      destruct (Slack.chat_postMessage e c t b) as [[]|[]]; simpl
  end; done.
Qed.

End Backlog.

(** X8.  A poll with no flare subscriber does nothing, not even mark the
    flare in the feed as seen: whatever the feed held during such a poll,
    the first channel that subscribes is sent the feed's current M or X
    flare by the next poll (given the message is built, and on Discord
    that the channel is a text channel or thread the cache resolves). *)
Theorem first_subscriber_gets_current_flare :
  (∀ env1 env2 (s : Discord.FlareBot) cls id r rest embed,
     Discord.subscribed_flares s = ∅ →
     Discord.is_text_or_thread (Some cls) = true →
     http_get_json (Discord.feed env2) ENDPOINTS_flare_latest = Ok (JList (JDict r :: rest)) →
     class_parses_as r ["M"; "X"] →
     flare_id_of r ∉ Discord.seen_flare_ids s →
     Discord.format_flare_embed (Discord.feed env2) (JDict r) = Ok embed →
     DiscordSpec.deliverable env2 id = true →
     Discord.sends (events (Discord.flare_poll_task env2 (final_state (Discord.run
        [Discord.Flare_poll env1;
         Discord.Subscribe_flares {| Discord.channel := Some (cls, id) |}] s))))
     = [(id, embed)]) ∧
  (∀ env1 env0 env2 (s : Slack.FlareSlackBot) c r rest blocks,
     Slack.subscribed_channels s = ∅ →
     http_get_json (Slack.feed env2) ENDPOINTS_flare_latest = Ok (JList (JDict r :: rest)) →
     class_parses_as r ["M"; "X"] →
     flare_id_of r ∉ Slack.seen_flare_ids s →
     Slack._format_flare_blocks (Slack.feed env2) (JDict r) = Ok blocks →
     Slack.posts (events (Slack._flare_poll_turn env2 (final_state (Slack.run
        [Slack.Flare_poll env1; Slack.Subscribe_flares env0 c] s))))
     = [(c, SlackSpec.flare_text, Some blocks)]).
Proof.
  split.
  - intros env1 env2 s cls id r rest embed Hsub Hcls Hget Hp Hnew Hfmt Hdel.
    unfold Discord.run.
    rewrite !(run_final_state_cons Discord.step discord_step_ok).
    change (Discord.step (Discord.Flare_poll env1) s) with (Discord.flare_poll_task env1 s).
    rewrite (discord_poll_no_subscriber env1 s Hsub).
    change (final_state (s, [], Ok tt)) with s.
    assert (final_state (Discord.step
              (Discord.Subscribe_flares {| Discord.channel := Some (cls, id) |}) s)
            = Discord.set_subscribed_flares (λ subs, {[id]} ∪ subs) s) as ->.
    { by destruct cls. }
    change (final_state (for_each [] Discord.step ?x)) with x.
    rewrite (flare_poll_task_new env2 _ r).
    + rewrite Hfmt. unfold events. simpl. rewrite Hsub.
      rewrite (right_id_L ∅ (∪)), elements_singleton.
      unfold DiscordSpec.fanout_log. simpl.
      unfold DiscordSpec.deliverable in Hdel |- *. by rewrite Hdel.
    + simpl. set_solver.
    + by eapply fetch_latest_flare_first.
    + by apply class_parses_as_M_X.
    + done.
  - intros env1 env0 env2 s c r rest blocks Hsub Hget Hp Hnew Hfmt.
    unfold Slack.run.
    rewrite !(run_final_state_cons Slack.step slack_step_ok).
    rewrite step_flare_poll, (slack_poll_no_subscriber env1 s Hsub).
    change (final_state (s, [], Ok tt)) with s.
    rewrite slack_subscribe_flares_state.
    change (final_state (for_each [] Slack.step ?x)) with x.
    rewrite (flare_poll_turn_new env2 _ r).
    + rewrite Hfmt. unfold events. simpl. rewrite Hsub.
      rewrite (right_id_L ∅ (∪)), elements_singleton.
      unfold SlackSpec.post_log. simpl.
      by destruct (SlackSpec.escapes _).
    + simpl. set_solver.
    + by eapply fetch_latest_flare_first.
    + by apply class_parses_as_M_X.
    + done.
Qed.

Lemma first_subscriber_gets_current_flare_witness :
  ∃ embed,
    Discord.sends (events (Discord.flare_poll_task example_discord_env (final_state (Discord.run
        [Discord.Flare_poll example_discord_env;
         Discord.Subscribe_flares {| Discord.channel := Some (Discord.TextChannel, 7%Z) |}]
        Discord.init))))
    = [(7%Z, embed)].
Proof.
  destruct first_subscriber_gets_current_flare as [H _].
  destruct (Discord.format_flare_embed (Discord.feed example_discord_env) (JDict example_flare))
    as [embed|e] eqn:Hfmt; [|by vm_compute in Hfmt].
  exists embed.
  apply (H example_discord_env example_discord_env Discord.init Discord.TextChannel 7%Z
           example_flare [] embed); try reflexivity.
  - exists "X", (Some (25 # 10)%Q). split; [by vm_compute|set_solver].
  - simpl. set_solver.
  - exact Hfmt.
Defined.

(** ** The look of a notification *)

Section Look.

Lemma qualifies_letter r :
  qualifies r →
  ∃ l m, parse_flare_class (flare_class_of r) = Ok (Some l, m) ∧ (l = "M" ∨ l = "X").
Proof.
  intros Hq. pose proof (qualifies_py_or r Hq) as Hor.
  unfold qualifies in Hq. rewrite Hor in Hq. unfold is_m_or_x_class in Hq.
  destruct (parse_flare_class (flare_class_of r)) as [[[l|] m]|e]; try done.
  simpl in Hq. injection Hq as Hq. exists l, m. split; [done|].
  apply orb_prop in Hq as [H|H]; apply String.eqb_eq in H; auto.
Qed.

Lemma format_flare_embed_look w r embed :
  qualifies r →
  Discord.format_flare_embed w (JDict r) = Ok embed →
  (Discord.colour embed = Discord.Red ∧
   Discord.title embed = "🚨 X-Class Solar Flare Detected") ∨
  (Discord.colour embed = Discord.Orange ∧
   Discord.title embed = "⚠️ M-Class Solar Flare Detected").
Proof.
  intros Hq. unfold Discord.format_flare_embed. pym_run.
  rewrite (max_class_qualifying r Hq).
  destruct (qualifies_letter r Hq) as (l & m & -> & Hl).
  unfold get_sdo_aia_image.
  destruct (utcnow_iso_with_est w) as [now|e]; cycle 1.
  { by destruct Hl as [-> | ->]. }
  destruct Hl as [-> | ->]; simpl; intros [= <-]; simpl; auto.
Qed.

Lemma format_flare_blocks_look w r blocks :
  qualifies r →
  Slack._format_flare_blocks w (JDict r) = Ok blocks →
  ∃ rest,
    blocks = Slack.Header ("🚨 " +:+ py_str (flare_class_of r) +:+ " Solar Flare") :: rest ∨
    blocks = Slack.Header ("⚠️ " +:+ py_str (flare_class_of r) +:+ " Solar Flare") :: rest.
Proof.
  intros Hq. unfold Slack._format_flare_blocks. pym_run.
  rewrite (max_class_qualifying r Hq).
  destruct (qualifies_letter r Hq) as (l & m & -> & Hl).
  unfold get_sdo_aia_image.
  destruct (utcnow_iso_with_est w) as [now|e]; [|done].
  destruct Hl as [-> | ->]; simpl; intros [= <-]; eexists; auto.
Qed.

End Look.

(** X9.  Every notification a poll sends is dressed as an M or X flare:
    on Discord the embed is red with the X-class title or orange with the
    M-class title, never the blue "Solar Flare Event"; on Slack the text is
    the new-flare text and the header starts with the X or the M sign,
    followed by the class. *)
Theorem flare_notification_look :
  (∀ env (s : Discord.FlareBot) ch_id embed,
     (ch_id, embed) ∈ Discord.sends (events (Discord.flare_poll_task env s)) →
     (Discord.colour embed = Discord.Red ∧
      Discord.title embed = "🚨 X-Class Solar Flare Detected") ∨
     (Discord.colour embed = Discord.Orange ∧
      Discord.title embed = "⚠️ M-Class Solar Flare Detected")) ∧
  (∀ env (s : Slack.FlareSlackBot) c text blocks,
     (c, text, blocks) ∈ Slack.posts (events (Slack._flare_poll_turn env s)) →
     text = SlackSpec.flare_text ∧
     ∃ cls rest,
       blocks = Some (Slack.Header ("🚨 " +:+ cls +:+ " Solar Flare") :: rest) ∨
       blocks = Some (Slack.Header ("⚠️ " +:+ cls +:+ " Solar Flare") :: rest)).
Proof.
  split.
  - intros env s ch_id embed.
    destruct (flare_poll_task_cases env s) as [->|(r & Hs & Hf & Hq & Hn)].
    { unfold events. simpl. by intros ?%elem_of_nil. }
    rewrite (flare_poll_task_new env s r) by done.
    destruct (Discord.format_flare_embed (Discord.feed env) (JDict r)) as [e|x] eqn:Hfmt.
    + unfold events. simpl.
      change (Discord.sends (Discord.EvAccept ?i :: Discord.EvBuilt ?b :: ?l))
        with (Discord.sends l).
      rewrite fanout_log_sends. intros (x & [= -> ->] & _)%list_elem_of_fmap.
      by eapply format_flare_embed_look.
    + unfold events. simpl. by intros ?%elem_of_nil.
  - intros env s c text blocks.
    destruct (flare_poll_turn_cases env s) as [->|(r & Hs & Hf & Hq & Hn)].
    { unfold events. simpl. by intros ?%elem_of_nil. }
    rewrite (flare_poll_turn_new env s r) by done.
    destruct (Slack._format_flare_blocks (Slack.feed env) (JDict r)) as [b|x] eqn:Hfmt.
    + unfold events. simpl.
      change (Slack.posts (Slack.EvAccept ?i :: Slack.EvBuilt ?b :: ?l))
        with (Slack.posts l).
      rewrite post_log_posts. intros (x & [= -> -> ->] & _)%list_elem_of_fmap.
      split; [done|].
      destruct (format_flare_blocks_look _ _ _ Hq Hfmt) as [rest [-> | ->]]; eauto.
    + unfold events. simpl. by intros ?%elem_of_nil.
Qed.

Lemma flare_notification_look_witness :
  length (Discord.sends
            (events (Discord.flare_poll_task example_discord_env example_discord_bot)))
  = 1%nat ∧
  Forall (λ p, Discord.colour p.2 = Discord.Red ∨ Discord.colour p.2 = Discord.Orange)
    (Discord.sends
       (events (Discord.flare_poll_task example_discord_env example_discord_bot))).
Proof.
  destruct flare_notification_look as [H _].
  split; [by vm_compute|].
  apply Forall_forall. intros [ch_id embed] Hin.
  destruct (H example_discord_env example_discord_bot ch_id embed Hin) as [[Hc _]|[Hc _]];
    simpl; auto.
Defined.

(** ** [/flare_latest] and the notification *)

(** X10.  In the same outside world [/flare_latest] shows what the poll
    sends: the Discord command answers with the very embed of the
    notification, and the Slack command posts the blocks of the
    notification under the text "Latest Solar Flare Event". *)
Theorem flare_latest_shows_notification :
  (∀ env (s : Discord.FlareBot) ch_id embed,
     (ch_id, embed) ∈ Discord.sends (events (Discord.flare_poll_task env s)) →
     DiscordCommands.flare_latest_cmd (Discord.feed env)
     = Ok (DiscordCommands.SendFlare embed)) ∧
  (∀ env (s : Slack.FlareSlackBot) c text blocks c0 (s0 : Slack.FlareSlackBot),
     (c, text, blocks) ∈ Slack.posts (events (Slack._flare_poll_turn env s)) →
     Slack.posts (events (SlackCommands._cmd_flare_latest env c0 s0))
     = [(c0, "Latest Solar Flare Event", blocks)]).
Proof.
  split.
  - intros env s ch_id embed.
    destruct (flare_poll_task_cases env s) as [->|(r & Hs & Hf & Hq & Hn)].
    { unfold events. simpl. by intros ?%elem_of_nil. }
    rewrite (flare_poll_task_new env s r) by done.
    destruct (Discord.format_flare_embed (Discord.feed env) (JDict r)) as [e|x] eqn:Hfmt.
    + unfold events. simpl.
      change (Discord.sends (Discord.EvAccept ?i :: Discord.EvBuilt ?b :: ?l))
        with (Discord.sends l).
      rewrite fanout_log_sends. intros (x & [= -> ->] & _)%list_elem_of_fmap.
      unfold DiscordCommands.flare_latest_cmd. rewrite Hf. simpl.
      rewrite bool_decide_eq_false_2 by (by apply qualifies_nonempty). simpl.
      by rewrite Hfmt.
    + unfold events. simpl. by intros ?%elem_of_nil.
  - intros env s c text blocks c0 s0.
    destruct (flare_poll_turn_cases env s) as [->|(r & Hs & Hf & Hq & Hn)].
    { unfold events. simpl. by intros ?%elem_of_nil. }
    rewrite (flare_poll_turn_new env s r) by done.
    destruct (Slack._format_flare_blocks (Slack.feed env) (JDict r)) as [b|x] eqn:Hfmt.
    + unfold events. simpl.
      change (Slack.posts (Slack.EvAccept ?i :: Slack.EvBuilt ?b :: ?l))
        with (Slack.posts l).
      rewrite post_log_posts. intros (x & [= -> -> ->] & _)%list_elem_of_fmap.
      unfold SlackCommands._cmd_flare_latest. pym_unfold. rewrite Hf. simpl.
      rewrite bool_decide_eq_false_2 by (by apply qualifies_nonempty). simpl.
      rewrite Hfmt.
      by destruct (slack_send_message_run env c0 "Latest Solar Flare Event" (Some b) s0)
        as (r' & -> & _).
    + unfold events. simpl. by intros ?%elem_of_nil.
Qed.

Lemma flare_latest_shows_notification_witness :
  ∃ embed,
    Discord.sends (events (Discord.flare_poll_task example_discord_env example_discord_bot))
    = [(7%Z, embed)] ∧
    DiscordCommands.flare_latest_cmd example_feed = Ok (DiscordCommands.SendFlare embed).
Proof.
  destruct flare_latest_shows_notification as [H _].
  destruct (Discord.sends
              (events (Discord.flare_poll_task example_discord_env example_discord_bot)))
    as [|[ch_id embed] l] eqn:E; [by vm_compute in E|].
  assert (ch_id = 7%Z ∧ l = []) as [-> ->].
  { vm_compute in E. by injection E as <- _ <-. }
  exists embed. split; [reflexivity|].
  apply (H example_discord_env example_discord_bot 7%Z embed).
  rewrite E. apply list_elem_of_here.
Defined.

(** ** When the notification cannot be built *)

Section FormatFails.

Lemma parse_flare_class_raises v :
  is_Raise (parse_flare_class v) = not_text v.
Proof.
  destruct v as [|b|n|s].
  - done.
  - by destruct b.
  - unfold parse_flare_class. simpl. by destruct (n =? 0)%Z.
  - by destruct (parse_flare_class_str s) as [[_ ->]|(l & q & g & _ & -> & _)].
Qed.

End FormatFails.

(** X11.  The two flare formatters fail on the same inputs and only on
    these: a value that is not a record, a record whose class is a truthy
    value that is not a string, or a failing [utcnow_iso_with_est] (the
    footer's clock).  On every other record both return a message. *)
Theorem flare_formatters_fail_iff (w : Feed) :
  (∀ j, (∀ r, j ≠ JDict r) →
     Discord.format_flare_embed w j = Raise AttributeError ∧
     Slack._format_flare_blocks w j = Raise AttributeError) ∧
  (∀ r, is_Raise (Discord.format_flare_embed w (JDict r))
        = class_not_text r || is_Raise (utcnow_iso_with_est w)) ∧
  (∀ r, is_Raise (Slack._format_flare_blocks w (JDict r))
        = class_not_text r || is_Raise (utcnow_iso_with_est w)).
Proof.
  split; [|split].
  - intros [v|r|l] Hj; try done. by destruct (Hj r).
  - intros r. unfold Discord.format_flare_embed, class_not_text. pym_run.
    pose proof (parse_flare_class_raises
      (py_or (dict_get r "max_class") (dict_get_default r "current_class" (PStr "Unknown"))))
      as Hp.
    destruct (parse_flare_class _) as [[l m]|e]; simpl in Hp; rewrite <- Hp; [|done].
    simpl.
    destruct (if letter_is l "X" then _ else _) as [c t].
    unfold get_sdo_aia_image.
    by destruct (utcnow_iso_with_est w).
  - intros r. unfold Slack._format_flare_blocks, class_not_text. pym_run.
    pose proof (parse_flare_class_raises
      (py_or (dict_get r "max_class") (dict_get_default r "current_class" (PStr "Unknown"))))
      as Hp.
    destruct (parse_flare_class _) as [[l m]|e]; simpl in Hp; rewrite <- Hp; [|done].
    simpl.
    unfold get_sdo_aia_image.
    by destruct (utcnow_iso_with_est w).
Qed.

(** ** A record with keys missing *)

(** X12.  What the flare messages show for keys the record lacks: a
    missing satellite reads "GOES-GOES" on Discord (the default "GOES"
    behind the prefix "GOES-") and "GOES-Unknown" on Slack, and a missing
    begin, peak or end time reads "Unknown" on both. *)
Theorem flare_message_missing_keys (w : Feed) (r : gmap string pyval) :
  (∀ embed, Discord.format_flare_embed w (JDict r) = Ok embed →
     (r !! "satellite" = None → ("Satellite", "GOES-GOES", true) ∈ Discord.fields embed) ∧
     (r !! "begin_time" = None → ("Begin", "Unknown", false) ∈ Discord.fields embed) ∧
     (r !! "max_time" = None → ("Peak Time", "Unknown", true) ∈ Discord.fields embed) ∧
     (r !! "end_time" = None → ("End", "Unknown", true) ∈ Discord.fields embed)) ∧
  (∀ blocks, Slack._format_flare_blocks w (JDict r) = Ok blocks →
     ∃ texts, Slack.SectionFields texts ∈ blocks ∧
       (r !! "satellite" = None → "*Satellite:*" +:+ Slack.nl +:+ "GOES-Unknown" ∈ texts) ∧
       (r !! "begin_time" = None → "*Begin:*" +:+ Slack.nl +:+ "Unknown" ∈ texts) ∧
       (r !! "max_time" = None → "*Peak Time:*" +:+ Slack.nl +:+ "Unknown" ∈ texts) ∧
       (r !! "end_time" = None → "*End:*" +:+ Slack.nl +:+ "Unknown" ∈ texts)).
Proof.
  split.
  - intros embed. unfold Discord.format_flare_embed. pym_run.
    destruct (parse_flare_class _) as [[l m]|e]; [|done].
    destruct (if letter_is l "X" then _ else _) as [c t].
    unfold get_sdo_aia_image.
    destruct (utcnow_iso_with_est w) as [now|e]; [|done].
    intros [= <-]. unfold dict_get_default. simpl.
    repeat split; intros ->; simpl; set_solver.
  - intros blocks. unfold Slack._format_flare_blocks. pym_run.
    destruct (parse_flare_class _) as [[l m]|e]; [|done].
    unfold get_sdo_aia_image.
    destruct (utcnow_iso_with_est w) as [now|e]; [|done].
    intros [= <-]. eexists. split; [apply list_elem_of_further, list_elem_of_here|].
    unfold dict_get_default.
    repeat split; intros ->; simpl; set_solver.
Qed.

Lemma flare_message_missing_keys_witness :
  ∃ embed,
    Discord.format_flare_embed example_feed (JDict {[ "max_class" := PStr "M1.0" ]}) = Ok embed ∧
    ("Satellite", "GOES-GOES", true) ∈ Discord.fields embed.
Proof.
  destruct (Discord.format_flare_embed example_feed (JDict {[ "max_class" := PStr "M1.0" ]}))
    as [embed|e] eqn:E; [|by vm_compute in E].
  exists embed. split; [reflexivity|].
  destruct (flare_message_missing_keys example_feed {[ "max_class" := PStr "M1.0" ]})
    as [H _].
  destruct (H embed E) as (Hsat & _). apply Hsat. reflexivity.
Defined.

(** ** Who is written to over a schedule *)

Section DiscordSafety.
Import Discord DiscordSpec RunSpec.

Lemma sends_to_app d w1 w2 : sends_to d (w1 ++ w2) = (sends_to d w1 + sends_to d w2)%nat.
Proof. unfold sends_to, sends. by rewrite omap_app, List.filter_app, length_app. Qed.

Lemma sends_to_fanout_absent env embed (X : gset Z) d :
  d ∉ X → sends_to d (fanout_log env embed (elements X)) = 0%nat.
Proof.
  intros Hd. unfold sends_to. rewrite fanout_log_sends, count_fst_map.
  rewrite count_once by apply NoDup_elements.
  rewrite bool_decide_eq_false_2; [done|]. by rewrite elem_of_elements.
Qed.

Lemma discord_step_unsubscribed a (s : FlareBot) d :
  d ∉ subscribed_flares s → d ∉ subscribed_daily s → discord_subscribes d a = false →
  sends_to d (events (step a s)) = 0%nat ∧
  (d ∉ subscribed_flares (final_state (step a s))) ∧
  (d ∉ subscribed_daily (final_state (step a s))).
Proof.
  intros Hf Hd Ha. destruct a as [env|env|i|i|i|i]; simpl in *.
  - destruct (flare_poll_task_cases env s) as [->|(r & Hs & Hfe & Hq & Hn)]; [done|].
    rewrite (flare_poll_task_new env s r) by done.
    destruct (format_flare_embed (feed env) (JDict r)) as [embed|e]; simpl.
    + split; [|set_solver].
      change (sends_to d (fanout_log env embed (elements (subscribed_flares s))) = 0%nat).
      by apply sends_to_fanout_absent.
    + done.
  - destruct (daily_summary_task_cases env s) as [->|(now & Hs & Hnow & Hw & Hm)]; [done|].
    rewrite (daily_summary_task_fire env s now) by done.
    destruct (build_daily_summary_embed env now) as [embed|e]; simpl.
    + split; [|set_solver].
      change (sends_to d (fanout_log env embed (elements (subscribed_daily s))) = 0%nat).
      by apply sends_to_fanout_absent.
    + done.
  - unfold subscribe_flares_cmd. destruct i as [[[[] id]|]]; simpl in *; pym_run; simpl;
      try done; apply bool_decide_eq_false in Ha; (split; [done|set_solver]).
  - unfold unsubscribe_flares_cmd. destruct i as [[[[] id]|]]; pym_run; simpl;
      try case_bool_decide; simpl; try done; (split; [done|set_solver]).
  - unfold subscribe_daily_cmd. destruct i as [[[[] id]|]]; simpl in *; pym_run; simpl;
      try done; apply bool_decide_eq_false in Ha; (split; [done|set_solver]).
  - unfold unsubscribe_daily_cmd. destruct i as [[[[] id]|]]; pym_run; simpl;
      try case_bool_decide; simpl; try done; (split; [done|set_solver]).
Qed.

End DiscordSafety.

(** X13.  The Discord bot writes only to subscribers: over any schedule of
    task ticks and commands, a channel that is in neither subscription set
    at the start and from which no subscribe command is issued receives no
    send and is in neither set at the end. *)
Theorem discord_sends_only_to_subscribers (acts : list Discord.action)
    (s : Discord.FlareBot) (d : Z) :
  d ∉ Discord.subscribed_flares s →
  d ∉ Discord.subscribed_daily s →
  Forall (λ a, RunSpec.discord_subscribes d a = false) acts →
  DiscordSpec.sends_to d (events (Discord.run acts s)) = 0%nat ∧
  (d ∉ Discord.subscribed_flares (final_state (Discord.run acts s))) ∧
  (d ∉ Discord.subscribed_daily (final_state (Discord.run acts s))).
Proof.
  intros Hf Hd Hacts. revert s Hf Hd.
  induction Hacts as [|a acts Ha _ IH]; intros s Hf Hd; [done|].
  unfold Discord.run.
  rewrite (run_events_cons Discord.step discord_step_ok),
          (run_final_state_cons Discord.step discord_step_ok).
  destruct (discord_step_unsubscribed a s d Hf Hd Ha) as (H0 & Hf' & Hd').
  destruct (IH _ Hf' Hd') as (H1 & H2 & H3).
  rewrite sends_to_app, H0. done.
Qed.

Lemma discord_sends_only_to_subscribers_witness :
  DiscordSpec.sends_to 7
    (events (Discord.run
       [Discord.Unsubscribe_flares {| Discord.channel := Some (Discord.TextChannel, 7%Z) |};
        Discord.Subscribe_flares {| Discord.channel := Some (Discord.TextChannel, 8%Z) |};
        Discord.Flare_poll example_discord_env]
       Discord.init)) = 0%nat.
Proof.
  apply (discord_sends_only_to_subscribers _ Discord.init 7).
  - simpl. set_solver.
  - simpl. set_solver.
  - repeat (apply Forall_cons; split; [reflexivity|]). apply Forall_nil_2.
Defined.

Section SlackSafety.
Import Slack SlackSpec RunSpec.

Lemma posts_to_app c w1 w2 : posts_to c (w1 ++ w2) = (posts_to c w1 + posts_to c w2)%nat.
Proof. unfold posts_to, posts. by rewrite omap_app, List.filter_app, length_app. Qed.

Lemma attempts_subseteq env text blocks l x :
  x ∈ attempts env text blocks l → x ∈ l.
Proof.
  induction l as [|a l IH]; simpl; [done|].
  destruct (escapes _); set_solver.
Qed.

Lemma posts_to_post_log_absent env text blocks (X : gset string) c :
  c ∉ X → posts_to c (post_log env text blocks (elements X)) = 0%nat.
Proof.
  intros Hc. unfold posts_to. rewrite post_log_posts.
  assert (∀ x, x ∈ attempts env text blocks (elements X) → x ≠ c) as Hall.
  { intros x Hx%attempts_subseteq ->. by apply elem_of_elements in Hx. }
  induction (attempts env text blocks (elements X)) as [|a l IH]; [done|].
  rewrite fmap_cons. simpl. rewrite bool_decide_eq_false_2 by (apply Hall; set_solver).
  apply IH. intros x Hx. apply Hall. set_solver.
Qed.

Lemma slack_step_unsubscribed a (s : FlareSlackBot) c :
  c ∉ subscribed_channels s → c ∉ subscribed_daily s → slack_command_from c a = false →
  posts_to c (events (step a s)) = 0%nat ∧
  (c ∉ subscribed_channels (final_state (step a s))) ∧
  (c ∉ subscribed_daily (final_state (step a s))).
Proof.
  intros Hf Hd Ha. destruct a as [env|env|env c'|env c'|env c'|env c'].
  - rewrite step_flare_poll.
    destruct (flare_poll_turn_cases env s) as [->|(r & Hs & Hfe & Hq & Hn)]; [done|].
    rewrite (flare_poll_turn_new env s r) by done.
    destruct (_format_flare_blocks (feed env) (JDict r)) as [blocks|e]; simpl; [|done].
    split; [|done].
    change (posts_to c (post_log env flare_text blocks (elements (subscribed_channels s))) = 0%nat).
    by apply posts_to_post_log_absent.
  - rewrite step_daily_summary.
    destruct (daily_summary_turn_cases env s) as [->|(now & Hs & Hnow & Hw & Hm)]; [done|].
    rewrite (daily_summary_turn_fire env s now) by done.
    destruct (_build_daily_summary_blocks env now) as [blocks|e]; simpl; [|done].
    split; [|done].
    change (posts_to c (post_log env daily_text blocks (elements (subscribed_daily s))) = 0%nat).
    by apply posts_to_post_log_absent.
  - simpl in Ha. apply bool_decide_eq_false in Ha.
    unfold step, handled, _cmd_subscribe_flares, _send_message, posts_to, posts.
    pym_run.
    repeat match goal with
    | |- context [chat_postMessage ?e ?c ?t ?b] =>
        destruct (chat_postMessage e c t b) as [[]|[]]; simpl
    end; rewrite ?bool_decide_eq_false_2 by done; (split; [done|set_solver]).
  - simpl in Ha. apply bool_decide_eq_false in Ha.
    unfold step, handled, _cmd_unsubscribe_flares, _send_message, posts_to, posts.
    pym_run. case_bool_decide;
    repeat match goal with
    | |- context [chat_postMessage ?e ?c ?t ?b] =>
        destruct (chat_postMessage e c t b) as [[]|[]]; simpl
    end; rewrite ?bool_decide_eq_false_2 by done; (split; [done|set_solver]).
  - simpl in Ha. apply bool_decide_eq_false in Ha.
    unfold step, handled, _cmd_subscribe_daily, _send_message, posts_to, posts.
    pym_run.
    repeat match goal with
    | |- context [chat_postMessage ?e ?c ?t ?b] =>
        destruct (chat_postMessage e c t b) as [[]|[]]; simpl
    end; rewrite ?bool_decide_eq_false_2 by done; (split; [done|set_solver]).
  - simpl in Ha. apply bool_decide_eq_false in Ha.
    unfold step, handled, _cmd_unsubscribe_daily, _send_message, posts_to, posts.
    pym_run. case_bool_decide;
    repeat match goal with
    | |- context [chat_postMessage ?e ?c ?t ?b] =>
        destruct (chat_postMessage e c t b) as [[]|[]]; simpl
    end; rewrite ?bool_decide_eq_false_2 by done; (split; [done|set_solver]).
Qed.

End SlackSafety.

(** X14.  The Slack bot posts only to subscribers and to the channel a
    command came from: over any schedule of task turns and commands, a
    channel that is in neither subscription set at the start and from which
    no command is issued receives no post and is in neither set at the
    end. *)
Theorem slack_posts_only_to_subscribers (acts : list Slack.action)
    (s : Slack.FlareSlackBot) (c : string) :
  c ∉ Slack.subscribed_channels s →
  c ∉ Slack.subscribed_daily s →
  Forall (λ a, RunSpec.slack_command_from c a = false) acts →
  SlackSpec.posts_to c (events (Slack.run acts s)) = 0%nat ∧
  (c ∉ Slack.subscribed_channels (final_state (Slack.run acts s))) ∧
  (c ∉ Slack.subscribed_daily (final_state (Slack.run acts s))).
Proof.
  intros Hf Hd Hacts. revert s Hf Hd.
  induction Hacts as [|a acts Ha _ IH]; intros s Hf Hd; [done|].
  unfold Slack.run.
  rewrite (run_events_cons Slack.step slack_step_ok),
          (run_final_state_cons Slack.step slack_step_ok).
  destruct (slack_step_unsubscribed a s c Hf Hd Ha) as (H0 & Hf' & Hd').
  destruct (IH _ Hf' Hd') as (H1 & H2 & H3).
  rewrite posts_to_app, H0. done.
Qed.

Lemma slack_posts_only_to_subscribers_witness :
  SlackSpec.posts_to "C7"
    (events (Slack.run
       [Slack.Subscribe_flares example_slack_env "C8";
        Slack.Flare_poll example_slack_env;
        Slack.Unsubscribe_daily example_slack_env_unreachable "C8"]
       Slack.init)) = 0%nat.
Proof.
  apply (slack_posts_only_to_subscribers _ Slack.init "C7").
  - simpl. set_solver.
  - simpl. set_solver.
  - repeat (apply Forall_cons; split; [reflexivity|]). apply Forall_nil_2.
Defined.

(** ** Subscribing and unsubscribing again *)

(** X15.  In both bots, for the flare and for the digest subscriptions,
    unsubscribing right after subscribing ends with the destination not
    subscribed; the bot is back in the state before the two commands
    exactly when the destination was not subscribed before them (a set
    keeps no count of repeated subscriptions). *)
Theorem subscribe_then_unsubscribe :
  (∀ cls id (s : Discord.FlareBot),
     Discord.is_text_or_thread (Some cls) = true →
     let i := {| Discord.channel := Some (cls, id) |} in
     let s1 := final_state (Discord.unsubscribe_flares_cmd i
                              (final_state (Discord.subscribe_flares_cmd i s))) in
     let s2 := final_state (Discord.unsubscribe_daily_cmd i
                              (final_state (Discord.subscribe_daily_cmd i s))) in
     (id ∉ Discord.subscribed_flares s1) ∧ (s1 = s ↔ id ∉ Discord.subscribed_flares s) ∧
     (id ∉ Discord.subscribed_daily s2) ∧ (s2 = s ↔ id ∉ Discord.subscribed_daily s)) ∧
  (∀ env1 env2 c (s : Slack.FlareSlackBot),
     let s1 := final_state (Slack._cmd_unsubscribe_flares env2 c
                              (final_state (Slack._cmd_subscribe_flares env1 c s))) in
     let s2 := final_state (Slack._cmd_unsubscribe_daily env2 c
                              (final_state (Slack._cmd_subscribe_daily env1 c s))) in
     (c ∉ Slack.subscribed_channels s1) ∧ (s1 = s ↔ c ∉ Slack.subscribed_channels s) ∧
     (c ∉ Slack.subscribed_daily s2) ∧ (s2 = s ↔ c ∉ Slack.subscribed_daily s)).
Proof.
  split.
  - intros cls id s Hcls i s1 s2. subst i s1 s2.
    assert (∀ X : gset Z, ({[id]} ∪ X) ∖ {[id]} = X ↔ id ∉ X) as Hset by set_solver.
    destruct cls; try done; destruct s as [seen fl da lt ld];
      unfold Discord.subscribe_flares_cmd, Discord.unsubscribe_flares_cmd,
        Discord.subscribe_daily_cmd, Discord.unsubscribe_daily_cmd; pym_run; simpl;
      rewrite !bool_decide_eq_true_2 by set_solver; simpl;
      unfold Discord.set_subscribed_flares, Discord.set_subscribed_daily; simpl;
      (split; [set_solver|]); (split; [|split; [set_solver|]]);
      (split; [intros [= H]; by apply Hset|intros H%Hset; by rewrite H]).
  - intros env1 env2 c s s1 s2. subst s1 s2.
    assert (∀ X : gset string, ({[c]} ∪ X) ∖ {[c]} = X ↔ c ∉ X) as Hset by set_solver.
    destruct s as [seen fl da lt ld].
    unfold Slack._cmd_subscribe_flares, Slack._cmd_unsubscribe_flares,
      Slack._cmd_subscribe_daily, Slack._cmd_unsubscribe_daily. pym_unfold.
    repeat match goal with
    | |- context [Slack._send_message ?e ?ch ?t ?b ?st] =>
        let r := fresh "r" in
        destruct (slack_send_message_run e ch t b st) as (r & -> & _); simpl
    end.
    rewrite !bool_decide_eq_true_2 by set_solver.
    repeat match goal with
    | |- context [Slack._send_message ?e ?ch ?t ?b ?st] =>
        let r := fresh "r" in
        destruct (slack_send_message_run e ch t b st) as (r & -> & _); simpl
    end.
    unfold Slack.set_subscribed_channels, Slack.set_subscribed_daily; simpl.
    (split; [set_solver|]); (split; [|split; [set_solver|]]);
      (split; [intros [= H]; by apply Hset|intros H%Hset; by rewrite H]).
Qed.

Lemma subscribe_then_unsubscribe_witness :
  final_state (Discord.unsubscribe_flares_cmd
                 {| Discord.channel := Some (Discord.Thread, 42%Z) |}
                 (final_state (Discord.subscribe_flares_cmd
                                 {| Discord.channel := Some (Discord.Thread, 42%Z) |}
                                 example_discord_bot)))
  = example_discord_bot.
Proof.
  destruct subscribe_then_unsubscribe as [H _].
  destruct (H Discord.Thread 42%Z example_discord_bot eq_refl) as (_ & Hback & _).
  apply Hback. decide_compute.
Defined.

(** ** A confirmation that cannot be delivered *)

(** X16.  [/subscribe_flares] on Slack records the subscription before it
    confirms it: under the handler of [_handle_slash_command] the channel
    is subscribed whatever happens to the confirmation post.  When that
    post raises an error that is not a [SlackApiError], the handler answers
    with a second post to the same channel that starts with "Error: ";
    otherwise the confirmation is the only post.  The handler itself raises
    exactly when that second post raises an error that is not a
    [SlackApiError] either, and then with that error. *)
Theorem slack_subscribe_before_confirmation (env : Slack.Env) (c : string)
    (s : Slack.FlareSlackBot) :
  let confirmation :=
    "✅ Subscribed: I'll notify you when M- or X-class flares are detected!" in
  let out := Slack.handled env c (Slack._cmd_subscribe_flares env c) s in
  c ∈ Slack.subscribed_channels (final_state out) ∧
  Slack.posts (events out) =
    (c, confirmation, None) ::
    match Slack.chat_postMessage env c confirmation None with
    | Raise e => if is_SlackApiError e then [] else [(c, "Error: " +:+ exn_text e, None)]
    | Ok _ => []
    end ∧
  outcome out =
    match Slack.chat_postMessage env c confirmation None with
    | Raise e =>
        if is_SlackApiError e then Ok tt
        else match Slack.chat_postMessage env c ("Error: " +:+ exn_text e) None with
             | Raise e' => if is_SlackApiError e' then Ok tt else Raise e'
             | Ok _ => Ok tt
             end
    | Ok _ => Ok tt
    end.
Proof.
  intros confirmation out. subst confirmation out.
  unfold Slack.handled, Slack._cmd_subscribe_flares, Slack._send_message.
  pym_run.
  destruct (Slack.chat_postMessage env c
              "✅ Subscribed: I'll notify you when M- or X-class flares are detected!" None)
    as [[]|e]; simpl.
  { split; [set_solver|done]. }
  destruct e; simpl;
    repeat match goal with
    | |- context [Slack.chat_postMessage ?e ?c ?t ?b] =>
        destruct (Slack.chat_postMessage e c t b) as [[]|[]]; simpl
    end; (split; [set_solver|done]).
Qed.

(** ** Who gets the daily digest *)

(** X17.  When a tick of the daily task starts the digest and the digest is
    built, Discord sends it exactly once to every digest subscriber that
    [get_channel] resolves to a text channel or thread and to nobody else,
    drops from the digest subscribers exactly those whose send raised, and
    leaves the flare subscribers alone; Slack posts it exactly once to
    every digest subscriber and to nobody else (provided no post raises an
    error other than [SlackApiError]) and drops nobody. *)
Theorem daily_digest_delivery :
  (∀ env (s : Discord.FlareBot) now embed,
     Discord.subscribed_daily s ≠ ∅ →
     now_est (Discord.feed env) = Ok now →
     Discord.in_window now = true →
     Discord._last_daily_date s ≠ Some (date_str now) →
     Discord.build_daily_summary_embed env now = Ok embed →
     (∀ ch_id, DiscordSpec.sends_to ch_id (events (Discord.daily_summary_task env s))
        = if bool_decide (ch_id ∈ Discord.subscribed_daily s) && DiscordSpec.deliverable env ch_id
          then 1%nat else 0%nat) ∧
     (∀ ch_id e, (ch_id, e) ∈ Discord.sends (events (Discord.daily_summary_task env s)) →
        e = embed) ∧
     Discord.subscribed_daily (final_state (Discord.daily_summary_task env s))
     = Discord.subscribed_daily s ∖
         list_to_set (List.filter (DiscordSpec.send_fails env embed)
                        (elements (Discord.subscribed_daily s))) ∧
     Discord.subscribed_flares (final_state (Discord.daily_summary_task env s))
     = Discord.subscribed_flares s) ∧
  (∀ env (s : Slack.FlareSlackBot) now blocks,
     Slack.subscribed_daily s ≠ ∅ →
     now_est (Slack.feed env) = Ok now →
     Slack.in_window now = true →
     Slack._last_daily_date s ≠ Some (date_str now) →
     Slack._build_daily_summary_blocks env now = Ok blocks →
     (∀ c e, c ∈ Slack.subscribed_daily s →
        Slack.chat_postMessage env c SlackSpec.daily_text (Some blocks) = Raise e →
        e = SlackApiError) →
     (∀ c, SlackSpec.posts_to c (events (Slack._daily_summary_turn env s))
        = if bool_decide (c ∈ Slack.subscribed_daily s) then 1%nat else 0%nat) ∧
     (∀ c t b, (c, t, b) ∈ Slack.posts (events (Slack._daily_summary_turn env s)) →
        t = SlackSpec.daily_text ∧ b = Some blocks) ∧
     Slack.subscribed_daily (final_state (Slack._daily_summary_turn env s))
     = Slack.subscribed_daily s ∧
     Slack.subscribed_channels (final_state (Slack._daily_summary_turn env s))
     = Slack.subscribed_channels s).
Proof.
  split.
  - intros env s now embed Hsub Hnow Hw Hm Hbuild.
    rewrite (daily_summary_task_fire env s now) by done. rewrite Hbuild.
    unfold events, final_state. simpl.
    split; [|split; [|split]]; try done.
    + intros ch_id. unfold DiscordSpec.sends_to. simpl. rewrite fanout_log_sends.
      rewrite count_fst_map, count_once by apply NoDup_elements.
      by rewrite (bool_decide_ext _ _ (elem_of_elements (Discord.subscribed_daily s) ch_id)).
    + intros ch_id e. simpl. rewrite fanout_log_sends. intros Hin.
      apply list_elem_of_fmap in Hin as (x & [= _ ->] & _). done.
  - intros env s now blocks Hsub Hnow Hw Hm Hbuild Hapi.
    rewrite (daily_summary_turn_fire env s now) by done. rewrite Hbuild.
    unfold events, final_state. simpl.
    assert (SlackSpec.attempts env SlackSpec.daily_text blocks
              (elements (Slack.subscribed_daily s))
            = elements (Slack.subscribed_daily s)) as Hall.
    { apply attempts_all. intros c Hc. unfold SlackSpec.escapes.
      destruct (Slack.chat_postMessage env c SlackSpec.daily_text (Some blocks)) as [[]|e] eqn:E;
        [done|].
      rewrite (Hapi c e); [done|set_solver|done]. }
    split; [|split; [|split]]; try done.
    + intros c. unfold SlackSpec.posts_to. simpl. rewrite post_log_posts, Hall.
      pose proof (count_once (λ _, true) (elements (Slack.subscribed_daily s)) c
                    (NoDup_elements _)) as Hcount.
      rewrite filter_true, andb_true_r in Hcount.
      rewrite <- (bool_decide_ext _ _ (elem_of_elements (Slack.subscribed_daily s) c)).
      rewrite <- Hcount. clear.
      induction (elements (Slack.subscribed_daily s)) as [|x l IH]; [done|].
      rewrite fmap_cons. simpl. destruct (bool_decide (x = c)); simpl; by rewrite IH.
    + intros c t b. simpl. rewrite post_log_posts. intros Hin.
      apply list_elem_of_fmap in Hin as (x & [= _ -> ->] & _). done.
Qed.

Lemma daily_digest_delivery_witness :
  SlackSpec.posts_to "C7"
    (events (Slack._daily_summary_turn (example_slack_env_at example_clock_17)
               example_slack_bot_daily)) = 1%nat.
Proof.
  destruct daily_digest_delivery as [_ H].
  destruct (H (example_slack_env_at example_clock_17) example_slack_bot_daily
              example_clock_17 []) as (Hc & _).
  - decide_compute.
  - reflexivity.
  - reflexivity.
  - simpl. discriminate.
  - reflexivity.
  - intros c e _ He. simpl in He. by injection He as <-.
  - rewrite Hc. by vm_compute.
Defined.

(** ** The hour of the daily digest *)

(** X18.  A tick of the Discord daily task does something only when the
    local clock shows hour 13 and a minute below 5, although the commands
    promise the digest for 5pm; a turn of the Slack daily task only when
    the clock shows hour 17 and a minute below 5.  At any other time the
    tick leaves the bot and the platform alone. *)
Theorem daily_digest_hour :
  (∀ env (s : Discord.FlareBot) now,
     now_est (Discord.feed env) = Ok now →
     ¬ ((hour now = 13)%Z ∧ (minute now < 5)%Z) →
     Discord.daily_summary_task env s = (s, [], Ok tt)) ∧
  (∀ env (s : Slack.FlareSlackBot) now,
     now_est (Slack.feed env) = Ok now →
     ¬ ((hour now = 17)%Z ∧ (minute now < 5)%Z) →
     Slack._daily_summary_turn env s = (s, [], Ok tt)).
Proof.
  split.
  - intros env s now Hnow Hout.
    destruct (daily_summary_task_cases env s) as [?|(now' & _ & Hnow' & Hw & _)]; [done|].
    rewrite Hnow in Hnow'. injection Hnow' as <-. destruct Hout.
    unfold Discord.in_window in Hw. apply andb_prop in Hw as [Hh Hm]. lia.
  - intros env s now Hnow Hout.
    destruct (daily_summary_turn_cases env s) as [?|(now' & _ & Hnow' & Hw & _)]; [done|].
    rewrite Hnow in Hnow'. injection Hnow' as <-. destruct Hout.
    unfold Slack.in_window in Hw. apply andb_prop in Hw as [Hh Hm]. lia.
Qed.

Lemma daily_digest_hour_witness :
  Discord.daily_summary_task (example_discord_env_at example_clock_17) example_discord_bot_daily
  = (example_discord_bot_daily, [], Ok tt) ∧
  Slack._daily_summary_turn (example_slack_env_at example_clock_13) example_slack_bot_daily
  = (example_slack_bot_daily, [], Ok tt).
Proof.
  destruct daily_digest_hour as [HD HS]. split.
  - apply (HD _ _ example_clock_17); [reflexivity|]. simpl. lia.
  - apply (HS _ _ example_clock_13); [reflexivity|]. simpl. lia.
Defined.

(** ** The presence task *)

Section Status.
Import DiscordStatus.

Lemma status_task_run env (s : Discord.FlareBot) :
  ∃ log, status_task env s = (s, log, Ok tt) ∧
    ((∃ fc m x, log = [EvPresence (status_text fc m x) (Ok tt)]) ∨
     (∃ fc m x e, log = [EvPresence (status_text fc m x) (Raise e);
                         EvPresence "Solar flares" (change_presence env "Solar flares")]) ∨
     log = [EvPresence "Solar flares" (change_presence env "Solar flares")]).
Proof.
  unfold status_task. pym_unfold. unfold Exception.
  destruct (fetch_latest_flare (feed env)) as [flare|e]; cycle 1.
  { destruct (change_presence env "Solar flares") as [[]|e']; eexists; split; eauto. }
  destruct (if json_truthy flare then _ else _) as [flare_class|e]; cycle 1.
  { destruct (change_presence env "Solar flares") as [[]|e']; eexists; split; eauto. }
  destruct (fetch_flare_forecast (feed env)) as [forecast_data|e]; cycle 1.
  { destruct (change_presence env "Solar flares") as [[]|e']; eexists; split; eauto. }
  destruct (match forecast_data with [] => _ | _ => _ end) as [chances|e]; cycle 1.
  { destruct (change_presence env "Solar flares") as [[]|e']; eexists; split; eauto. }
  simpl.
  destruct (change_presence env (status_text flare_class chances.1 chances.2)) as [[]|e].
  { eexists; split; eauto 10. }
  destruct (change_presence env "Solar flares") as [[]|e']; eexists; split; eauto 10.
Qed.

End Status.

(** X19.  The presence text fits the 128 characters the task aims at
    exactly when the class text has at most 121 characters: the last
    fallback of the cascade, "Flare: " and the class, is not cut. *)
Theorem status_text_fits (flare_class m_chance x_chance : pyval) :
  (String.length (DiscordStatus.status_text flare_class m_chance x_chance) <= 128)%nat ↔
  (String.length (py_str flare_class) <= 121)%nat.
Proof.
  unfold DiscordStatus.status_text.
  repeat match goal with
  | |- context [(128 <? ?n)%nat] => destruct (Nat.ltb_spec 128 n)
  end;
  repeat match goal with
  | H : context [String.length (_ +:+ _)] |- _ => rewrite !length_append in H; simpl in H
  end;
  rewrite ?length_append; simpl; lia.
Qed.

(** X20.  The presence task never raises and never changes the bot.  It
    sets the presence to the status text and stops when that call succeeds;
    when the call fails, or the feed held something that is not a record,
    it ends with one attempt to set the presence "Solar flares", whose
    failure it ignores. *)
Theorem status_task_never_raises (env : DiscordStatus.Env) (s : Discord.FlareBot) :
  final_state (DiscordStatus.status_task env s) = s ∧
  outcome (DiscordStatus.status_task env s) = Ok tt ∧
  ((∃ flare_class m_chance x_chance,
      events (DiscordStatus.status_task env s)
      = [DiscordStatus.EvPresence
           (DiscordStatus.status_text flare_class m_chance x_chance) (Ok tt)]) ∨
   (∃ flare_class m_chance x_chance e,
      events (DiscordStatus.status_task env s)
      = [DiscordStatus.EvPresence
           (DiscordStatus.status_text flare_class m_chance x_chance) (Raise e);
         DiscordStatus.EvPresence "Solar flares"
           (DiscordStatus.change_presence env "Solar flares")]) ∨
   events (DiscordStatus.status_task env s)
   = [DiscordStatus.EvPresence "Solar flares"
        (DiscordStatus.change_presence env "Solar flares")]).
Proof.
  destruct (status_task_run env s) as (log & -> & H). done.
Qed.

(** ** A feed without data *)

Section NoData.

Lemma fetch_latest_flare_no_data w :
  no_data_outcome (http_get_json w ENDPOINTS_flare_latest) →
  fetch_latest_flare w = Ok (JAtom PNone).
Proof.
  unfold fetch_latest_flare, no_data_outcome.
  intros [[e ->]|[(d & -> & Hd)| ->]]; simpl; try done.
  destruct d as [v|d|l]; try done. by destruct (Hd l).
Qed.

Lemma fetch_flare_forecast_no_data w :
  no_data_outcome (http_get_json w ENDPOINTS_flare_forecast) →
  fetch_flare_forecast w = Ok [].
Proof.
  unfold fetch_flare_forecast, no_data_outcome.
  intros [[e ->]|[(d & -> & Hd)| ->]]; simpl; try done.
  destruct d as [v|d|l]; try done. by destruct (Hd l).
Qed.

Lemma fetch_alerts_no_data w limit :
  no_data_outcome (http_get_json w ENDPOINTS_alerts) →
  fetch_alerts w limit = Ok [].
Proof.
  unfold fetch_alerts, no_data_outcome.
  intros [[e ->]|[(d & -> & Hd)| ->]]; simpl; try done.
  - destruct d as [v|d|l]; try done. by destruct (Hd l).
  - unfold slice_from. by rewrite drop_nil.
Qed.

End NoData.

(** X21.  While both the flare feed and the forecast feed give no data
    (an error, a payload that is not a list, an empty list), the presence
    task asks for the presence "Current Flare: None | M: 0% | X: 0%". *)
Theorem status_task_no_data (env : DiscordStatus.Env) (s : Discord.FlareBot) :
  no_data_outcome (http_get_json (DiscordStatus.feed env) ENDPOINTS_flare_latest) →
  no_data_outcome (http_get_json (DiscordStatus.feed env) ENDPOINTS_flare_forecast) →
  ∃ rest,
    events (DiscordStatus.status_task env s)
    = DiscordStatus.EvPresence "Current Flare: None | M: 0% | X: 0%"
        (DiscordStatus.change_presence env "Current Flare: None | M: 0% | X: 0%") :: rest.
Proof.
  intros Hflare Hforecast. unfold DiscordStatus.status_task. pym_unfold.
  rewrite (fetch_latest_flare_no_data _ Hflare), (fetch_flare_forecast_no_data _ Hforecast).
  simpl.
  change (DiscordStatus.status_text (PStr "None") (PInt 0) (PInt 0))
    with "Current Flare: None | M: 0% | X: 0%".
  destruct (DiscordStatus.change_presence env "Current Flare: None | M: 0% | X: 0%")
    as [[]|e]; simpl; [by eexists|].
  destruct (DiscordStatus.change_presence env "Solar flares") as [[]|e']; by eexists.
Qed.

Lemma status_task_no_data_witness :
  let env := {| DiscordStatus.feed :=
                  {| http_get_json := λ _, Raise ClientError;
                     convert_str_to_est := λ s, s;
                     utcnow_iso_with_est := Ok "now";
                     now_est := Raise ZoneInfoNotFoundError |};
                DiscordStatus.change_presence := λ _, Ok tt |} in
  ∃ rest,
    events (DiscordStatus.status_task env Discord.init)
    = DiscordStatus.EvPresence "Current Flare: None | M: 0% | X: 0%" (Ok tt) :: rest.
Proof.
  intros env.
  apply (status_task_no_data env Discord.init); left; by exists ClientError.
Defined.

(** X22.  While the flare feed gives no data, [/flare_latest] and
    [/latest_flare_class] answer "No flare data available.": the Discord
    commands compute that answer without raising; the Slack commands leave
    the bot as it was and make one post, of that text without blocks, to
    the channel, and raise exactly when that post raises an error that is
    not a [SlackApiError], with that error.  While the alert feed gives no
    data, [/flare_alerts] on Discord answers "No flare alerts found.". *)
Theorem commands_answer_no_data (w : Feed) :
  (no_data_outcome (http_get_json w ENDPOINTS_flare_latest) →
     DiscordCommands.flare_latest_cmd w
       = Ok (DiscordCommands.SendContent "No flare data available.") ∧
     DiscordCommands.latest_flare_class_cmd w
       = Ok (DiscordCommands.SendContent "No flare data available.") ∧
     (∀ env c s, Slack.feed env = w →
        let post := Slack.chat_postMessage env c "No flare data available." None in
        let run :=
          (s, [Slack.EvPost c "No flare data available." None post],
           match post with
           | Raise e => if is_SlackApiError e then Ok tt else Raise e
           | Ok _ => Ok tt
           end) in
        SlackCommands._cmd_flare_latest env c s = run ∧
        SlackCommands._cmd_latest_flare_class env c s = run)) ∧
  (∀ limit, no_data_outcome (http_get_json w ENDPOINTS_alerts) →
     DiscordCommands.flare_alerts_cmd w limit
       = Ok (DiscordCommands.SendContent "No flare alerts found.")).
Proof.
  split.
  - intros H%fetch_latest_flare_no_data.
    unfold DiscordCommands.flare_latest_cmd, DiscordCommands.latest_flare_class_cmd.
    rewrite H. simpl. split; [done|]. split; [done|].
    intros env c s <-. cbv zeta.
    unfold SlackCommands._cmd_flare_latest, SlackCommands._cmd_latest_flare_class,
      Slack._send_message.
    pym_unfold. rewrite H. simpl.
    destruct (Slack.chat_postMessage env c "No flare data available." None) as [[]|e];
      simpl; [done|].
    by destruct (is_SlackApiError e).
  - intros limit H%(fetch_alerts_no_data w limit).
    unfold DiscordCommands.flare_alerts_cmd. by rewrite H.
Qed.

Lemma commands_answer_no_data_witness :
  let w := {| http_get_json := λ _, Raise ClientError;
              convert_str_to_est := λ s, s;
              utcnow_iso_with_est := Raise ZoneInfoNotFoundError;
              now_est := Raise ZoneInfoNotFoundError |} in
  let env := {| Slack.feed := w;
                Slack.chat_postMessage := λ _ _ _, Raise URLError;
                Slack._build_daily_summary_blocks := λ _, Raise ClientError |} in
  DiscordCommands.flare_latest_cmd w
    = Ok (DiscordCommands.SendContent "No flare data available.") ∧
  outcome (SlackCommands._cmd_flare_latest env "C7" Slack.init) = Raise URLError ∧
  DiscordCommands.flare_alerts_cmd w 5
    = Ok (DiscordCommands.SendContent "No flare alerts found.").
Proof.
  intros w env. destruct (commands_answer_no_data w) as [Hflare Halerts].
  destruct Hflare as (Hd & _ & Hs); [left; by exists ClientError|].
  split; [exact Hd|]. split.
  - destruct (Hs env "C7" Slack.init eq_refl) as [-> _]. reflexivity.
  - apply Halerts. left. by exists ClientError.
Defined.

(** ** The alert embed and [/flare_alerts] *)

Section Alerts.
Import DiscordCommands.

Lemma length_str_take n s : (String.length (str_take n s) <= n)%nat.
Proof.
  revert s. induction n as [|n IH]; intros [|c s]; simpl; try lia.
  specialize (IH s). lia.
Qed.

Lemma length_str_take_full n s :
  (n <= String.length s)%nat → String.length (str_take n s) = n.
Proof.
  revert s. induction n as [|n IH]; intros [|c s]; simpl; try lia.
  intros H. rewrite IH; lia.
Qed.

Lemma format_alert_embed_inv w d embed :
  format_alert_embed w (JDict d) = Ok embed →
  ∃ m now,
    alert_message d = PStr m ∧ utcnow_iso_with_est w = Ok now ∧
    description embed
    = Some (if (3800 <? String.length (strip m))%nat
            then str_take 3800 (strip m) +:+ "..." else strip m).
Proof.
  unfold format_alert_embed. pym_run. fold (alert_message d).
  destruct (alert_message d) as [|b|n|m]; try done. simpl.
  destruct (utcnow_iso_with_est w) as [now|e]; [|done].
  intros [= <-]. exists m, now. done.
Qed.

Lemma format_alert_embed_Ok w d m now :
  alert_message d = PStr m → utcnow_iso_with_est w = Ok now →
  ∃ embed, format_alert_embed w (JDict d) = Ok embed.
Proof.
  intros Hm Hnow. unfold format_alert_embed. pym_run. fold (alert_message d).
  rewrite Hm, Hnow. simpl. eauto.
Qed.

Lemma str_contains_empty needle : needle ≠ "" → str_contains needle "" = false.
Proof. by destruct needle. Qed.

(** An alert that mentions a flare has a text [format_alert_embed] can
    show. *)
Lemma mentions_flare_message a :
  mentions_flare a = true → ∃ d m, a = JDict d ∧ alert_message d = PStr m.
Proof.
  unfold mentions_flare, alert_text. destruct a as [v|d|l]; try done.
  unfold alert_message.
  destruct (py_or (dict_get d "message") (dict_get d "summary")) as [|b|n|s] eqn:E;
    unfold py_or at 1; simpl.
  - done.
  - destruct b; done.
  - destruct (n =? 0)%Z; done.
  - destruct s as [|c s]; simpl; [done|]. intros _. exists d, (String c s).
    split; [done|]. by rewrite E.
Qed.

Lemma fetch_alerts_step_mentions acc a acc' :
  Forall (λ x, mentions_flare x = true) acc →
  fetch_alerts_step acc a = Ok acc' →
  Forall (λ x, mentions_flare x = true) acc'.
Proof.
  intros Hacc. destruct (alert_text a) as [s|] eqn:Ht.
  - rewrite (fetch_alerts_step_text acc a s Ht).
    destruct (mentions_flare a) eqn:Hm; intros [= <-]; [|done].
    apply Forall_app. split; [done|]. by constructor.
  - destruct (fetch_alerts_step_raises acc a Ht) as [e ->]. done.
Qed.

Lemma fetch_alerts_loop_mentions acc l out :
  Forall (λ x, mentions_flare x = true) acc →
  fetch_alerts_loop acc l = Ok out →
  Forall (λ x, mentions_flare x = true) out.
Proof.
  revert acc. induction l as [|a l IH]; intros acc Hacc; simpl.
  { by intros [= <-]. }
  destruct (fetch_alerts_step acc a) as [acc'|e] eqn:Hs; simpl; [|done].
  apply IH. by eapply fetch_alerts_step_mentions.
Qed.

Lemma length_slice_from_last {A} (n : Z) (l : list A) :
  (0 < n)%Z → (length (slice_from (- n) l) <= Z.to_nat n)%nat.
Proof. intros Hn. rewrite slice_from_last by done. rewrite length_drop. lia. Qed.

Lemma fetch_alerts_mentions w limit :
  (0 < limit)%Z →
  ∃ items, fetch_alerts w limit = Ok items ∧
           Forall (λ x, mentions_flare x = true) items ∧
           (length items <= Z.to_nat limit)%nat.
Proof.
  intros Hlim. unfold fetch_alerts.
  destruct (http_get_json w ENDPOINTS_alerts) as [[v|d|l]|e]; simpl;
    try (exists []; repeat split; [constructor|simpl; lia]).
  destruct (fetch_alerts_loop [] l) as [out|e] eqn:Hl; simpl;
    try (exists []; repeat split; [constructor|simpl; lia]).
  eexists. split; [done|]. split.
  - apply fetch_alerts_loop_mentions in Hl; [|constructor].
    rewrite slice_from_last by done. by apply Forall_drop.
  - by apply length_slice_from_last.
Qed.

Lemma map_result_Forall2 {A B} (f : A → result B) l :
  Forall (λ a, ∃ b, f a = Ok b) l →
  ∃ bs, map_result f l = Ok bs ∧ Forall2 (λ a b, f a = Ok b) l bs.
Proof.
  induction 1 as [|a l [b Hb] _ (bs & Hbs & IH)]; simpl.
  - exists []. split; [done|constructor].
  - rewrite Hb. simpl. rewrite Hbs. simpl. exists (b :: bs). split; [done|by constructor].
Qed.

End Alerts.

(** X23.  The description of an alert embed is the text of the alert with
    the white space around it stripped, cut to its first 3800 characters
    followed by "..." when it is longer: it never exceeds 3803 characters. *)
Theorem format_alert_embed_description (w : Feed) (d : gmap string pyval)
    (embed : DiscordCommands.Embed) :
  DiscordCommands.format_alert_embed w (JDict d) = Ok embed →
  ∃ m desc,
    alert_message d = PStr m ∧
    DiscordCommands.description embed = Some desc ∧
    (String.length desc <= 3803)%nat ∧
    ((String.length (strip m) <= 3800)%nat → desc = strip m) ∧
    ((3800 < String.length (strip m))%nat →
       desc = str_take 3800 (strip m) +:+ "..." ∧ String.length desc = 3803%nat).
Proof.
  intros (m & now & Hm & _ & Hd)%format_alert_embed_inv.
  exists m. eexists. split; [done|]. split; [exact Hd|].
  destruct (Nat.ltb_spec 3800 (String.length (strip m))) as [Hlong|Hshort].
  - rewrite length_append, length_str_take_full by lia.
    change (String.length "...") with 3%nat.
    repeat split; lia || done.
  - repeat split; lia || done.
Qed.

Lemma format_alert_embed_description_witness :
  let w := {| http_get_json := λ _, Raise ClientError;
              convert_str_to_est := λ s, s;
              utcnow_iso_with_est := Ok "now";
              now_est := Raise ZoneInfoNotFoundError |} in
  ∃ embed desc,
    DiscordCommands.format_alert_embed w
      (JDict {[ "message" := PStr "  X-ray flare event  " ]}) = Ok embed ∧
    DiscordCommands.description embed = Some desc ∧
    (String.length desc <= 3803)%nat.
Proof.
  intros w.
  destruct (DiscordCommands.format_alert_embed w
              (JDict {[ "message" := PStr "  X-ray flare event  " ]}))
    as [embed|e] eqn:E; [|by vm_compute in E].
  destruct (format_alert_embed_description w _ embed E) as (m & desc & _ & Hd & Hlen & _).
  exists embed, desc. split; [reflexivity|]. split; [exact Hd|exact Hlen].
Defined.

(** X24.  [/flare_alerts] with a limit between 1 and 10, on records of
    scalars and with a working footer clock, never raises: it answers "No
    flare alerts found." when [fetch_alerts] returns nothing, and otherwise
    one embed for each alert returned, in order, at most [limit] of them,
    so that the cut to ten embeds removes nothing. *)
Theorem flare_alerts_cmd_replies (w : Feed) (limit : Z) (now : string) :
  (1 <= limit <= 10)%Z →
  utcnow_iso_with_est w = Ok now →
  (fetch_alerts w limit = Ok [] ∧
   DiscordCommands.flare_alerts_cmd w limit
   = Ok (DiscordCommands.SendContent "No flare alerts found.")) ∨
  (∃ items embeds,
     fetch_alerts w limit = Ok items ∧ items ≠ [] ∧
     DiscordCommands.flare_alerts_cmd w limit = Ok (DiscordCommands.SendEmbeds embeds) ∧
     Forall2 (λ a embed, DiscordCommands.format_alert_embed w a = Ok embed) items embeds ∧
     (length embeds <= Z.to_nat limit)%nat).
Proof.
  intros Hlim Hnow.
  destruct (fetch_alerts_mentions w limit) as (items & Hf & Hm & Hlen); [lia|].
  unfold DiscordCommands.flare_alerts_cmd. rewrite Hf. simpl.
  case_bool_decide as Hnil.
  { left. by subst items. }
  right.
  destruct (map_result_Forall2 (DiscordCommands.format_alert_embed w) items)
    as (embeds & He & H2).
  { eapply Forall_impl; [exact Hm|]. intros a (d & m & -> & Hmsg)%mentions_flare_message.
    by eapply format_alert_embed_Ok. }
  rewrite He. simpl.
  pose proof (Forall2_length _ _ _ H2) as Hl.
  exists items, embeds. rewrite take_ge by lia.
  repeat split; try done. lia.
Qed.

Lemma flare_alerts_cmd_replies_witness :
  let w := {| http_get_json := λ _, Ok (JList
                [JDict {[ "message" := PStr "X-ray flare event" ]};
                 JDict {[ "message" := PStr "Geomagnetic storm watch" ]};
                 JDict {[ "summary" := PStr "M-class FLARE" ]}]);
              convert_str_to_est := λ s, s;
              utcnow_iso_with_est := Ok "now";
              now_est := Raise ZoneInfoNotFoundError |} in
  ∃ embeds, DiscordCommands.flare_alerts_cmd w 5 = Ok (DiscordCommands.SendEmbeds embeds) ∧
            length embeds = 2%nat.
Proof.
  intros w.
  destruct (flare_alerts_cmd_replies w 5 "now") as [[Hf _]|(items & embeds & Hf & _ & Hc & H2 & _)];
    [lia|reflexivity|by vm_compute in Hf|].
  exists embeds. split; [exact Hc|].
  rewrite <- (Forall2_length _ _ _ H2).
  vm_compute in Hf. by injection Hf as <-.
Defined.

(** ** [/latest_image] *)

Section Image.

Lemma url_truthy_image time wavelength :
  url_truthy (get_sdo_aia_image time wavelength) = true.
Proof. done. Qed.

End Image.

(** X25.  [/latest_image] always links the newest image of the wavelength,
    whatever the time of the latest flare, and its "Could not retrieve"
    answer is never given: when the Discord command answers, the answer is
    an embed whose image is [latest_<wavelength>.jpg]; when the Slack
    command posts, the post carries the "*Image:*" link to the same address
    and not the fallback section. *)
Theorem latest_image_always_links (wavelength : Z) :
  (∀ w reply,
     DiscordCommands.latest_image_cmd w wavelength = Ok reply →
     ∃ embed, reply = DiscordCommands.SendEmbed embed ∧
              DiscordCommands.image embed = Some (latest_image_url wavelength)) ∧
  (∀ env c (s : Slack.FlareSlackBot) c' text blocks,
     (c', text, blocks) ∈ Slack.posts (events (SlackCommands._cmd_latest_image env c wavelength s)) →
     c' = c ∧
     ∃ header rest,
       blocks = Some (header ::
         Slack.SectionText ("*Image:* <" +:+ latest_image_url wavelength +:+ "|View SDO AIA " +:+
           pretty wavelength +:+
           "Å Image> | <https://sdo.gsfc.nasa.gov/assets/img/latest/|View All Latest Images>")
         :: rest)).
Proof.
  split.
  - intros w reply. unfold DiscordCommands.latest_image_cmd.
    destruct (fetch_latest_flare w) as [flare|e]; [|done]. simpl.
    destruct (if json_truthy flare then _ else _) as [flare_time|e]; [|done]. simpl.
    destruct (utcnow_iso_with_est w) as [now|e]; [|done]. simpl.
    intros [= <-]. eexists. split; [done|]. done.
  - intros env c s c' text blocks. unfold SlackCommands._cmd_latest_image. pym_unfold.
    destruct (fetch_latest_flare (Slack.feed env)) as [flare|e]; cycle 1.
    { simpl. by intros ?%elem_of_nil. }
    destruct (if json_truthy flare then _ else _) as [flare_time|e]; cycle 1.
    { simpl. by intros ?%elem_of_nil. }
    unfold SlackCommands._format_image_blocks.
    rewrite url_truthy_image.
    destruct (utcnow_iso_with_est (Slack.feed env)) as [now|e]; cycle 1.
    { simpl. by intros ?%elem_of_nil. }
    simpl.
    match goal with
    | |- context [Slack._send_message ?e ?ch ?t ?b s] =>
        destruct (slack_send_message_run e ch t b s) as (r & -> & _)
    end.
    simpl. intros [= -> -> ->]%list_elem_of_singleton. split; [done|]. eauto.
Qed.

Lemma latest_image_always_links_witness :
  ∃ embed,
    DiscordCommands.latest_image_cmd example_feed 171 = Ok (DiscordCommands.SendEmbed embed) ∧
    DiscordCommands.image embed
    = Some "https://sdo.gsfc.nasa.gov/assets/img/latest/latest_171.jpg".
Proof.
  destruct (latest_image_always_links 171) as [H _].
  destruct (DiscordCommands.latest_image_cmd example_feed 171) as [reply|e] eqn:E;
    [|by vm_compute in E].
  destruct (H example_feed reply E) as (embed & -> & Hi).
  exists embed. split; [reflexivity|exact Hi].
Defined.

(** ** [/latest_flare_class] on the two bots *)

(** X26.  On the same feed the two bots answer [/latest_flare_class]
    alike: Slack posts "No flare data available." exactly when Discord
    answers so, the command raises on Slack, before any post, exactly when
    it raises on Discord, and when Discord answers with an embed, Slack
    posts a header equal to the embed's title, the same class and peak time
    in its two fields, and a context equal to the embed's footer. *)
Theorem latest_flare_class_agreement (env : Slack.Env) (c : string)
    (s : Slack.FlareSlackBot) :
  match DiscordCommands.latest_flare_class_cmd (Slack.feed env) with
  | Ok (DiscordCommands.SendContent text) =>
      SlackCommands._cmd_latest_flare_class env c s = Slack._send_message env c text None s
  | Ok (DiscordCommands.SendEmbed embed) =>
      ∃ cls time more,
        DiscordCommands.fields embed
        = ("Peak Class", "**" +:+ cls +:+ "**", true) :: ("Peak Time", time, true) :: more ∧
        SlackCommands._cmd_latest_flare_class env c s
        = Slack._send_message env c "Latest Flare Class"
            (Some [Slack.Header (DiscordCommands.title embed);
                   Slack.SectionFields ["*Peak Class:*" +:+ Slack.nl +:+ cls;
                                        "*Peak Time:*" +:+ Slack.nl +:+ time];
                   Slack.Context (DiscordCommands.footer embed)]) s
  | Ok _ => False
  | Raise e => SlackCommands._cmd_latest_flare_class env c s = (s, [], Raise e)
  end.
Proof.
  unfold DiscordCommands.latest_flare_class_cmd, SlackCommands._cmd_latest_flare_class.
  pym_unfold.
  destruct (fetch_latest_flare (Slack.feed env)) as [flare|e]; [|done]. simpl.
  destruct (json_truthy flare); simpl; cycle 1.
  { by destruct (Slack._send_message env c "No flare data available." None s) as [[? ?] ?]. }
  unfold SlackCommands._format_flare_class_blocks.
  destruct flare as [v|d|l]; simpl; try done.
  destruct (parse_flare_class _) as [[l m]|e]; simpl; [|done].
  destruct (utcnow_iso_with_est (Slack.feed env)) as [now|e]; simpl; cycle 1.
  { destruct (letter_is l "X"); [done|]. destruct (letter_is l "M"); [done|].
    by destruct (letter_is l "C"). }
  destruct (letter_is l "X"); [|destruct (letter_is l "M"); [|destruct (letter_is l "C")]];
    simpl; do 3 eexists; (split; [reflexivity|]);
    match goal with
    | |- context [Slack._send_message ?e ?ch ?t ?b s] =>
        by destruct (Slack._send_message e ch t b s) as [[? ?] ?]
    end.
Qed.

(** ** The daily digest of the Discord bot *)

Section Digest.
Import DiscordCommands DiscordDigest DigestSpec.

Lemma bind_Returns {A B} (m : result_more A) (f : A → result_more B) b :
  m ≫= f = Returns b → ∃ a, m = Returns a ∧ f a = Returns b.
Proof. destruct m as [a|e]; [|done]. intros H. by exists a. Qed.

Lemma listed_Returns {A} (r : result A) a : listed r = Returns a → r = Ok a.
Proof. destruct r; [|done]. by intros [= ->]. Qed.

Lemma bind_Ok {A B} (m : result A) (f : A → result B) b :
  m ≫= f = Ok b → ∃ a, m = Ok a ∧ f a = Ok b.
Proof. destruct m as [a|e]; [|done]. intros H. by exists a. Qed.

(** What a run of the builder that returns went through. *)
Lemma build_daily_summary_embed_inv w date_est date_display embed :
  build_daily_summary_embed w date_est date_display = Returns embed →
  ∃ forecast_data today_forecast all_alerts today_alerts latest_flare today_flare
    forecast_field flare_field alerts_field now,
    fetch_flare_forecast w = Ok forecast_data ∧
    match forecast_data with
    | [] => Returns (JAtom PNone)
    | first :: _ =>
        found ← find_today_forecast (date_str date_est) forecast_data;
        Returns (if negb (json_truthy found) then first else found)
    end = Returns today_forecast ∧
    fetch_alerts w 20 = Ok all_alerts ∧
    today_alerts_loop (date_str date_est) all_alerts = Ok today_alerts ∧
    fetch_latest_flare w = Ok latest_flare ∧
    (if json_truthy latest_flare then
       max_time ← json_get latest_flare "max_time";
       time_tag ← json_get latest_flare "time_tag";
       begin_time ← json_get latest_flare "begin_time";
       Ok (if dated_today (date_str date_est) (py_or (py_or max_time time_tag) begin_time)
           then latest_flare else JAtom PNone)
     else Ok (JAtom PNone)) = Ok today_flare ∧
    (if json_truthy today_forecast then
       text ← forecast_text today_forecast;
       Ok ("📈 Forecast Probabilities", text, false)
     else Ok ("📈 Forecast Probabilities", "No forecast data available", false))
    = Ok forecast_field ∧
    (if json_truthy today_flare then
       max_class ← json_get today_flare "max_class";
       current_class ← json_get_default today_flare "current_class" (PStr "Unknown");
       max_time ← json_get today_flare "max_time";
       time_tag ← json_get_default today_flare "time_tag" (PStr "");
       '(class_letter, _) ← parse_flare_class (py_or max_class current_class);
       Ok ((if letter_is class_letter "X" then "🚨"
            else if letter_is class_letter "M" then "⚠️" else "⚡")
             +:+ " Today's Flare Event",
           "**Class:** " +:+ py_str (py_or max_class current_class) +:+ nl +:+
           "**Peak Time:** " +:+ format_time_est w (py_or max_time time_tag),
           false)
     else Ok ("⚡ Today's Flare Event", "No significant flares detected today", false))
    = Ok flare_field ∧
    (if negb (bool_decide (today_alerts = [])) then
       alert_text ← alert_lines w (take 5 today_alerts);
       Ok ("📢 Today's Alerts",
           if (5 <? length today_alerts)%nat
           then alert_text +:+ nl +:+ "*...and " +:+ pretty (length today_alerts - 5)%nat
                +:+ " more*"
           else alert_text,
           false)
     else Ok ("📢 Today's Alerts", "No alerts issued today", false)) = Ok alerts_field ∧
    utcnow_iso_with_est w = Ok now ∧
    embed = {| title := "📊 Daily Solar Flare Summary - " +:+ date_display;
               description := Some "Summary of today's solar flare activity and forecast";
               colour := Rgb 0x5865F2;
               fields := [forecast_field; flare_field; alerts_field];
               image := None;
               footer := "SWPC • Daily Summary • " +:+ now |}.
Proof.
  unfold build_daily_summary_embed. intros H.
  apply bind_Returns in H as (forecast_data & H1%listed_Returns & H).
  apply bind_Returns in H as (today_forecast & H2 & H).
  apply bind_Returns in H as (all_alerts & H3%listed_Returns & H).
  apply bind_Returns in H as (today_alerts & H4%listed_Returns & H).
  apply bind_Returns in H as (latest_flare & H5%listed_Returns & H).
  apply bind_Returns in H as (today_flare & H6%listed_Returns & H).
  apply bind_Returns in H as (forecast_field & H7%listed_Returns & H).
  apply bind_Returns in H as (flare_field & H8%listed_Returns & H).
  apply bind_Returns in H as (alerts_field & H9%listed_Returns & H).
  apply bind_Returns in H as (now & H10%listed_Returns & H).
  injection H as <-.
  exists forecast_data, today_forecast, all_alerts, today_alerts, latest_flare, today_flare,
    forecast_field, flare_field, alerts_field, now.
  repeat split; done.
Qed.

End Digest.

Section DigestParts.
Import DiscordCommands DiscordDigest DigestSpec.

Lemma find_today_forecast_find date l :
  Forall dated_entry l →
  find_today_forecast date l
  = Returns (default (JAtom PNone) (List.find (forecast_for date) l)).
Proof.
  induction 1 as [|day_data l (d & s & -> & Hd) _ IH]; [done|].
  cbn [find_today_forecast List.find forecast_for].
  unfold json_get_default. cbn [listed mbind result_more_bind]. rewrite Hd.
  cbn [date_part mbind result_more_bind].
  destruct (String.eqb _ date); [done|exact IH].
Qed.

(** An entry found for a date that is not empty holds its ["date"] key. *)
Lemma forecast_for_truthy date day_data :
  date ≠ "" → forecast_for date day_data = true → json_truthy day_data = true.
Proof.
  intros Hne. destruct day_data as [v|d|l]; try done. simpl.
  destruct (decide (d = ∅)) as [->|Hd].
  - unfold dict_get_default. rewrite lookup_empty. simpl.
    destruct date; [done|]. done.
  - intros _. by rewrite bool_decide_eq_false_2.
Qed.

Lemma today_forecast_choice date l today_forecast :
  Forall dated_entry l → date ≠ "" →
  match l with
  | [] => Returns (JAtom PNone)
  | first :: _ =>
      found ← find_today_forecast date l;
      Returns (if negb (json_truthy found) then first else found)
  end = Returns today_forecast →
  today_forecast = match List.find (forecast_for date) l, l with
                   | Some today, _ => today
                   | None, first :: _ => first
                   | None, [] => JAtom PNone
                   end.
Proof.
  intros Hwf Hne. destruct l as [|first rest] eqn:El.
  { by intros [= <-]. }
  rewrite <- El in Hwf |- *. rewrite (find_today_forecast_find _ _ Hwf).
  cbn [mbind result_more_bind]. intros [= <-].
  destruct (List.find (forecast_for date) l) as [today|] eqn:Hfind; simpl.
  - apply List.find_some in Hfind as [_ Hfor].
    by rewrite (forecast_for_truthy _ _ Hne Hfor).
  - done.
Qed.

Lemma today_alerts_loop_filter date l :
  Forall (λ a, ∃ d, a = JDict d) l →
  today_alerts_loop date l = Ok (List.filter (issued_on date) l).
Proof.
  induction 1 as [|a l [d ->] _ IH]; [done|].
  cbn [today_alerts_loop List.filter issued_on json_get mbind result_bind].
  rewrite IH. by destruct (dated_today date _).
Qed.

Lemma filter_length_le {A} (P : A → bool) (l : list A) :
  (length (List.filter P l) <= length l)%nat.
Proof. induction l as [|a l IH]; simpl; [done|]. destruct (P a); simpl; lia. Qed.

End DigestParts.

(** X27.  Which forecast the digest shows as today's: on a forecast whose
    entries are records with a string or no date, the first entry whose
    date, cut at the first "T", is today's local date; when no entry has
    today's date, the first entry of the forecast all the same; and "No
    forecast data available" only when the forecast is empty or that first
    entry is an empty record. *)
Theorem daily_summary_forecast_choice (w : Feed) (date_est : Clock) (date_display : string)
    (embed : DiscordCommands.Embed) (forecast_data : list json) :
  DiscordDigest.build_daily_summary_embed w date_est date_display = Returns embed →
  fetch_flare_forecast w = Ok forecast_data →
  Forall DigestSpec.dated_entry forecast_data →
  date_str date_est ≠ "" →
  ∃ text,
    DiscordCommands.fields embed !! 0%nat = Some ("📈 Forecast Probabilities", text, false) ∧
    match List.find (DigestSpec.forecast_for (date_str date_est)) forecast_data,
          forecast_data with
    | Some today, _ => DiscordDigest.forecast_text today = Ok text
    | None, first :: _ =>
        if json_truthy first then DiscordDigest.forecast_text first = Ok text
        else text = "No forecast data available"
    | None, [] => text = "No forecast data available"
    end.
Proof.
  intros (fd & tf & aa & ta & lf & tfl & ff & fl & al & now &
          Hfd & Htf & _ & _ & _ & _ & Hff & _ & _ & _ & ->)%build_daily_summary_embed_inv.
  intros Hfd' Hwf Hne. rewrite Hfd in Hfd'. injection Hfd' as ->. simpl.
  apply (today_forecast_choice _ _ _ Hwf Hne) in Htf. subst tf.
  destruct (List.find _ forecast_data) as [today|] eqn:Hfind.
  - apply List.find_some in Hfind as [_ Hfor].
    rewrite (forecast_for_truthy _ _ Hne Hfor) in Hff.
    apply bind_Ok in Hff as (text & Ht & [= <-]). by exists text.
  - destruct forecast_data as [|first rest].
    + injection Hff as <-. by eexists.
    + destruct (json_truthy first).
      * apply bind_Ok in Hff as (text & Ht & [= <-]). by exists text.
      * injection Hff as <-. by eexists.
Qed.

Lemma daily_summary_forecast_choice_witness :
  let w := {| http_get_json := λ url,
                if String.eqb url ENDPOINTS_flare_forecast
                then Ok (JList [JDict {[ "date" := PStr "2025-01-09"; "m_class_1_day" := PInt 10 ]};
                                JDict {[ "date" := PStr "2025-01-10T00:00:00Z";
                                         "m_class_1_day" := PInt 35 ]}])
                else Raise ClientError;
              convert_str_to_est := λ s, s;
              utcnow_iso_with_est := Ok "now";
              now_est := Ok example_clock_13 |} in
  ∃ embed text,
    DiscordDigest.build_daily_summary_embed w example_clock_13 "January 10, 2025"
    = Returns embed ∧
    DiscordCommands.fields embed !! 0%nat = Some ("📈 Forecast Probabilities", text, false) ∧
    DiscordDigest.forecast_text
      (JDict {[ "date" := PStr "2025-01-10T00:00:00Z"; "m_class_1_day" := PInt 35 ]}) = Ok text.
Proof.
  intros w.
  destruct (DiscordDigest.build_daily_summary_embed w example_clock_13 "January 10, 2025")
    as [embed|e] eqn:E; [|by vm_compute in E].
  destruct (daily_summary_forecast_choice w example_clock_13 "January 10, 2025" embed
              [JDict {[ "date" := PStr "2025-01-09"; "m_class_1_day" := PInt 10 ]};
               JDict {[ "date" := PStr "2025-01-10T00:00:00Z"; "m_class_1_day" := PInt 35 ]}]
              E)
    as (text & Hf & Ht).
  - reflexivity.
  - repeat (apply Forall_cons; split; [do 2 eexists; split; [reflexivity|by vm_compute]|]).
    apply Forall_nil_2.
  - done.
  - exists embed, text. split; [reflexivity|]. split; [exact Hf|].
    assert (List.find (DigestSpec.forecast_for (date_str example_clock_13))
              [JDict {[ "date" := PStr "2025-01-09"; "m_class_1_day" := PInt 10 ]};
               JDict {[ "date" := PStr "2025-01-10T00:00:00Z"; "m_class_1_day" := PInt 35 ]}]
            = Some (JDict {[ "date" := PStr "2025-01-10T00:00:00Z";
                             "m_class_1_day" := PInt 35 ]})) as Hfind by (by vm_compute).
    rewrite Hfind in Ht. exact Ht.
Defined.

(** X28.  The digest reports the latest flare as today's exactly when the
    flare is a record whose time ([max_time], else [time_tag], else
    [begin_time]) holds a "T" and shows today's local date before it; in
    every other case the field reads "No significant flares detected
    today". *)
Theorem daily_summary_flare_today (w : Feed) (date_est : Clock) (date_display : string)
    (embed : DiscordCommands.Embed) :
  DiscordDigest.build_daily_summary_embed w date_est date_display = Returns embed →
  if DigestSpec.flare_on w (date_str date_est)
  then ∃ sign cls time,
         DiscordCommands.fields embed !! 1%nat
         = Some (sign +:+ " Today's Flare Event",
                 "**Class:** " +:+ cls +:+ DiscordDigest.nl +:+ "**Peak Time:** " +:+ time,
                 false)
  else DiscordCommands.fields embed !! 1%nat
       = Some ("⚡ Today's Flare Event", "No significant flares detected today", false).
Proof.
  intros (fd & tf & aa & ta & lf & tfl & ff & fl & al & now &
          _ & _ & _ & _ & Hlf & Htfl & _ & Hfl & _ & _ & ->)%build_daily_summary_embed_inv.
  unfold DigestSpec.flare_on. rewrite Hlf. simpl.
  destruct lf as [v|r|l].
  - destruct (json_truthy (JAtom v)); [done|]. injection Htfl as <-.
    simpl in Hfl. by injection Hfl as <-.
  - destruct (json_truthy (JDict r)) eqn:Hr; cycle 1.
    { injection Htfl as <-. simpl in Hfl. injection Hfl as <-.
      apply negb_false_iff, bool_decide_eq_true in Hr. subst r.
      unfold flare_time_of, dict_get. rewrite !lookup_empty. done. }
    simpl in Htfl. fold (flare_time_of r) in Htfl.
    destruct (DiscordDigest.dated_today (date_str date_est) (flare_time_of r)).
    + injection Htfl as <-. rewrite Hr in Hfl.
      apply bind_Ok in Hfl as (mc & _ & Hfl).
      apply bind_Ok in Hfl as (cc & _ & Hfl).
      apply bind_Ok in Hfl as (mt & _ & Hfl).
      apply bind_Ok in Hfl as (tt & _ & Hfl).
      apply bind_Ok in Hfl as ([l m] & _ & [= <-]). eauto.
    + injection Htfl as <-. simpl in Hfl. by injection Hfl as <-.
  - destruct (json_truthy (JList l)); [done|]. injection Htfl as <-.
    simpl in Hfl. by injection Hfl as <-.
Qed.

Lemma daily_summary_flare_today_witness :
  ∃ embed sign cls time,
    DiscordDigest.build_daily_summary_embed example_feed example_clock_13 "January 10, 2025"
    = Returns embed ∧
    DiscordCommands.fields embed !! 1%nat
    = Some (sign +:+ " Today's Flare Event",
            "**Class:** " +:+ cls +:+ DiscordDigest.nl +:+ "**Peak Time:** " +:+ time, false).
Proof.
  destruct (DiscordDigest.build_daily_summary_embed example_feed example_clock_13
              "January 10, 2025") as [embed|e] eqn:E; [|by vm_compute in E].
  pose proof (daily_summary_flare_today _ _ _ _ E) as H.
  assert (DigestSpec.flare_on example_feed (date_str example_clock_13) = true) as Hon
    by (by vm_compute).
  rewrite Hon in H. destruct H as (sign & cls & time & H).
  exists embed, sign, cls, time. split; [reflexivity|exact H].
Defined.

(** X29.  The alerts the digest lists are the alerts [fetch_alerts] returns
    for a limit of 20 that were issued today (their issue time holds a "T"
    and shows today's local date before it).  With none, the field reads
    "No alerts issued today"; otherwise it lists the first five of them,
    and when there are more it ends with "...and N more", N being their
    number less five, at most 15. *)
Theorem daily_summary_alerts_listed (w : Feed) (date_est : Clock) (date_display : string)
    (embed : DiscordCommands.Embed) :
  DiscordDigest.build_daily_summary_embed w date_est date_display = Returns embed →
  ∃ all_alerts text,
    fetch_alerts w 20 = Ok all_alerts ∧
    DiscordCommands.fields embed !! 2%nat = Some ("📢 Today's Alerts", text, false) ∧
    let today := List.filter (DigestSpec.issued_on (date_str date_est)) all_alerts in
    (length today <= 20)%nat ∧
    (today = [] → text = "No alerts issued today") ∧
    (today ≠ [] →
       ∃ lines, DiscordDigest.alert_lines w (take 5 today) = Ok lines ∧
         ((length today <= 5)%nat → text = lines) ∧
         ((5 < length today)%nat →
            text = lines +:+ DiscordDigest.nl +:+ "*...and " +:+
                   pretty (length today - 5)%nat +:+ " more*")).
Proof.
  intros (fd & tf & aa & ta & lf & tfl & ff & fl & al & now &
          _ & _ & Haa & Hta & _ & _ & _ & _ & Hal & _ & ->)%build_daily_summary_embed_inv.
  destruct (fetch_alerts_mentions w 20) as (items & Hf & Hm & Hlen); [lia|].
  rewrite Haa in Hf. injection Hf as <-.
  rewrite today_alerts_loop_filter in Hta; cycle 1.
  { eapply Forall_impl; [exact Hm|]. intros a (d & m & -> & _)%mentions_flare_message. eauto. }
  injection Hta as <-.
  pose proof (filter_length_le (DigestSpec.issued_on (date_str date_est)) aa) as Hle.
  change (Z.to_nat 20) with 20%nat in Hlen.
  destruct (List.filter _ aa) as [|a today] eqn:Hfil.
  - injection Hal as <-. exists aa. eexists. split; [done|]. split; [done|].
    cbv zeta. rewrite Hfil.
    split; [simpl; lia|]. split; [done|]. done.
  - rewrite bool_decide_eq_false_2 in Hal by done. simpl negb in Hal. cbv iota in Hal.
    apply bind_Ok in Hal as (lines & Hlines & [= <-]).
    exists aa. eexists. split; [done|]. split; [done|]. cbv zeta. rewrite Hfil.
    split; [lia|]. split; [done|]. intros _. exists lines. split; [exact Hlines|].
    split; intros Hn.
    + cbn [length] in Hn. destruct (Nat.ltb_spec 5 (S (length today))); [lia|done].
    + cbn [length] in Hn. destruct (Nat.ltb_spec 5 (S (length today))); [done|lia].
Qed.

Lemma daily_summary_alerts_listed_witness :
  let alert := JDict {[ "message" := PStr "X-ray event: M5 flare";
                        "message_type" := PStr "ALERT";
                        "issue_datetime" := PStr "2025-01-10T12:00:00Z" ]} in
  let w := {| http_get_json := λ url,
                if String.eqb url ENDPOINTS_alerts
                then Ok (JList [JDict {[ "message" := PStr "Geomagnetic storm" ]};
                                JDict {[ "message" := PStr "Solar flare";
                                         "issue_datetime" := PStr "2025-01-09T23:00:00Z" ]};
                                alert])
                else Raise ClientError;
              convert_str_to_est := λ s, s;
              utcnow_iso_with_est := Ok "now";
              now_est := Ok example_clock_13 |} in
  ∃ embed lines,
    DiscordDigest.build_daily_summary_embed w example_clock_13 "January 10, 2025"
    = Returns embed ∧
    DiscordDigest.alert_lines w [alert] = Ok lines ∧
    DiscordCommands.fields embed !! 2%nat = Some ("📢 Today's Alerts", lines, false).
Proof.
  intros alert w.
  destruct (DiscordDigest.build_daily_summary_embed w example_clock_13 "January 10, 2025")
    as [embed|e] eqn:E; [|by vm_compute in E].
  destruct (daily_summary_alerts_listed _ _ _ _ E) as (aa & text & Haa & Hf & H).
  assert (fetch_alerts w 20
          = Ok [JDict {[ "message" := PStr "Solar flare";
                         "issue_datetime" := PStr "2025-01-09T23:00:00Z" ]}; alert]) as Haa'
    by (by vm_compute).
  rewrite Haa' in Haa. injection Haa as <-.
  assert (List.filter (DigestSpec.issued_on (date_str example_clock_13))
            [JDict {[ "message" := PStr "Solar flare";
                      "issue_datetime" := PStr "2025-01-09T23:00:00Z" ]}; alert]
          = [alert]) as Hfil by (by vm_compute).
  cbv zeta in H. rewrite Hfil in H. destruct H as (_ & _ & H).
  destruct H as (lines & Hlines & Hfew & _); [done|].
  exists embed, lines. split; [reflexivity|]. split; [exact Hlines|].
  rewrite Hf, Hfew; [done|simpl; lia].
Defined.

(** ** The forecast commands of the Discord bot *)

Section ForecastCommands.
Import DiscordCommands DiscordDigest.

Lemma join_lines_cons l rest :
  rest ≠ [] → join_lines (l :: rest) = l +:+ nl +:+ join_lines rest.
Proof. by destruct rest. Qed.

Lemma append_assoc (a b c : string) : (a +:+ b) +:+ c = a +:+ (b +:+ c).
Proof. induction a as [|x a IH]; simpl; [done|]. by rewrite IH. Qed.

(** The three lines of a day that [flare_forecast_cmd] can render. *)
Lemma forecast_day_lines_inv day_data lines :
  forecast_day_lines day_data = Returns lines →
  ∃ d s,
    day_data = JDict d ∧
    dict_get_default d "date" (PStr "Unknown") = PStr s ∧
    lines = ["**" +:+ (if str_contains "T" s then before_T s else s) +:+ "**";
             "M-class: " +:+ py_str (dict_get_default d "m_class_1_day" (PInt 0)) +:+
             "% | X-class: " +:+ py_str (dict_get_default d "x_class_1_day" (PInt 0)) +:+ "%";
             ""].
Proof.
  unfold forecast_day_lines. destruct day_data as [v|d|l]; try done.
  cbn [json_get_default listed mbind result_more_bind].
  destruct (dict_get_default d "date" (PStr "Unknown")) as [|b|n|s] eqn:Hd; try done.
  cbn [date_part mbind result_more_bind]. intros [= <-]. by exists d, s.
Qed.

End ForecastCommands.

(** X30.  The two forecast commands agree on the first day.  Whenever
    [/flare_forecast] answers, [/latest_forecast] answers too: both with
    "No forecast data available." on an empty forecast; otherwise the
    former opens its description with the date and 1-day chances of the
    first entry, and the latter shows the same date and chances in its
    first three fields, before four more.  The one exception is a first
    entry that is an empty record: [/flare_forecast] renders it as
    "Unknown" with chances of 0%, [/latest_forecast] answers that there is
    no data. *)
Theorem forecast_commands_first_day (w : Feed) (r : DiscordCommands.followup) :
  DiscordDigest.flare_forecast_cmd w = Returns r →
  match fetch_flare_forecast w with
  | Ok [] =>
      r = DiscordCommands.SendContent "No forecast data available." ∧
      DiscordDigest.latest_forecast_cmd w
      = Returns (DiscordCommands.SendContent "No forecast data available.")
  | Ok (first :: _) =>
      ∃ embed date m x more,
        r = DiscordCommands.SendEmbed embed ∧
        DiscordCommands.description embed
        = Some ("**" +:+ date +:+ "**" +:+ DiscordDigest.nl +:+
                "M-class: " +:+ m +:+ "% | X-class: " +:+ x +:+ "%" +:+ DiscordDigest.nl +:+
                more) ∧
        if json_truthy first
        then ∃ latest others,
               DiscordDigest.latest_forecast_cmd w = Returns (DiscordCommands.SendEmbed latest) ∧
               DiscordCommands.fields latest
               = ("Date", date, false) :: ("M-Class (1 day)", m +:+ "%", true)
                 :: ("X-Class (1 day)", x +:+ "%", true) :: others ∧
               length others = 4%nat
        else DiscordDigest.latest_forecast_cmd w
             = Returns (DiscordCommands.SendContent "No forecast data available.") ∧
             date = "Unknown" ∧ m = "0" ∧ x = "0"
  | Raise _ => False
  end.
Proof.
  unfold DiscordDigest.flare_forecast_cmd, DiscordDigest.latest_forecast_cmd.
  destruct (fetch_flare_forecast w) as [[|first rest]|e]; [| |done].
  { by intros [= <-]. }
  cbn [listed mbind result_more_bind]. rewrite bool_decide_eq_false_2 by done.
  intros (desc_lines & Hlines & H)%bind_Returns.
  apply bind_Returns in H as (now & Hnow%listed_Returns & [= <-]).
  cbn [DiscordDigest.forecast_lines] in Hlines.
  apply bind_Returns in Hlines as (lines & Hday & Hlines).
  apply bind_Returns in Hlines as (others & _ & [= <-]).
  apply forecast_day_lines_inv in Hday as (d & s & -> & Hs & ->).
  eexists _, (if str_contains "T" s then before_T s else s),
    (py_str (dict_get_default d "m_class_1_day" (PInt 0))),
    (py_str (dict_get_default d "x_class_1_day" (PInt 0))),
    (DiscordDigest.join_lines ("" :: others)).
  split; [done|]. split.
  { cbn [DiscordCommands.description app]. f_equal.
    rewrite join_lines_cons by done. rewrite join_lines_cons by done.
    by rewrite !append_assoc. }
  destruct (json_truthy (JDict d)) eqn:Htruthy; cbn [negb].
  - cbn [json_get_default listed mbind result_more_bind]. rewrite Hs.
    cbn [date_part DiscordDigest.percent json_get_default listed mbind result_more_bind
         result_bind]. rewrite Hnow. cbn [listed mbind result_more_bind].
    do 2 eexists. split; [done|]. by cbn [DiscordCommands.fields].
  - split; [done|]. simpl in Htruthy. apply negb_false_iff, bool_decide_eq_true in Htruthy.
    subst d.
    unfold dict_get_default in *. rewrite !lookup_empty in *. simpl in Hs.
    injection Hs as <-. done.
Qed.

Lemma forecast_commands_first_day_witness :
  let first := JDict {[ "date" := PStr "2025-01-10T00:00:00Z"; "m_class_1_day" := PInt 35;
                        "x_class_1_day" := PInt 5 ]} in
  let w := {| http_get_json := λ url,
                if String.eqb url ENDPOINTS_flare_forecast
                then Ok (JList [first; JDict {[ "date" := PStr "2025-01-11" ]}])
                else Raise ClientError;
              convert_str_to_est := λ s, s;
              utcnow_iso_with_est := Ok "now";
              now_est := Ok example_clock_13 |} in
  ∃ r latest others,
    DiscordDigest.flare_forecast_cmd w = Returns r ∧
    DiscordDigest.latest_forecast_cmd w = Returns (DiscordCommands.SendEmbed latest) ∧
    DiscordCommands.fields latest
    = ("Date", "2025-01-10", false) :: ("M-Class (1 day)", "35%", true)
      :: ("X-Class (1 day)", "5%", true) :: others.
Proof.
  intros first w.
  destruct (DiscordDigest.flare_forecast_cmd w) as [r|e] eqn:E; [|by vm_compute in E].
  pose proof (forecast_commands_first_day w r E) as H.
  assert (fetch_flare_forecast w = Ok [first; JDict {[ "date" := PStr "2025-01-11" ]}]) as F
    by reflexivity.
  rewrite F in H. destruct H as (embed & date & m & x & more & -> & _ & H).
  assert (json_truthy first = true) as T by (by vm_compute).
  rewrite T in H. destruct H as (latest & others & Hl & Hf & _).
  exists (DiscordCommands.SendEmbed embed), latest, others.
  split; [reflexivity|]. split; [exact Hl|].
  pose proof Hl as Hl'. vm_compute in Hl'. injection Hl' as <-.
  injection Hf as _ _ _ <-. reflexivity.
Defined.
